(** * Committee and authentication controllers

    A shallow embedding of the two Express controllers of the repository
    and of the checks of its login form: the committee controller
    (createCommittee, getCommittee, downloadFormationLetter,
    sendCommitteeNotifications, updateCommittee, deleteCommittee), the
    authentication controller (createSendToken, register, login, protect,
    restrictTo, forgotPassword, resetPassword, updatePassword, getAllUsers,
    getUserByEmployeeId, updateUser, deleteUser, updateMe) and the form
    (validateForm, validateResetForm).

    JavaScript values are an inductive type, documents are objects in
    insertion order, the two collections and the upload directory form an
    explicit world that every controller threads, and every call to the
    store, the file system or the mailer is appended to a trace.  Exceptions
    are results of a small state-and-exception monad whose state survives a
    throw, as the effects of a request survive its failure. *)

From Stdlib Require Import List String Ascii ZArith NArith Bool Lia.
Import ListNotations.
Set Warnings "-register-all".
Open Scope string_scope.
Open Scope list_scope.
Open Scope Z_scope.

(* ===================================================================== *)
(** ** JavaScript strings *)
(* ===================================================================== *)

(** A JavaScript string is a sequence of UTF-16 code units. *)
Definition jsstring : Type := list N.

(** A source literal, one code unit per character. *)
Definition str (s : string) : jsstring :=
  map N_of_ascii (list_ascii_of_string s).

Fixpoint jsstr_eqb (a b : jsstring) : bool :=
  match a, b with
  | [], [] => true
  | x :: a', y :: b' => N.eqb x y && jsstr_eqb a' b'
  | _, _ => false
  end.

(** The code units [String.prototype.trim] strips: ECMAScript WhiteSpace
    (TAB, VT, FF, SP, NBSP, ZWNBSP and the space separators) and
    LineTerminator (LF, CR, LS, PS). *)
Definition is_ws (c : N) : bool :=
  (existsb (N.eqb c)
     [9; 10; 11; 12; 13; 32; 160; 5760; 8232; 8233; 8239; 8287; 12288; 65279]
   || (N.leb 8192 c && N.leb c 8202))%bool%N.

Fixpoint trimStart (s : jsstring) : jsstring :=
  match s with
  | c :: s' => if is_ws c then trimStart s' else s
  | [] => []
  end.

Definition trimEnd (s : jsstring) : jsstring := rev (trimStart (rev s)).

Definition trim (s : jsstring) : jsstring := trimEnd (trimStart s).

Definition startsWith (s prefix : jsstring) : bool :=
  jsstr_eqb (firstn (List.length prefix) s) prefix.

(** [s.split(sep)] for a one-unit separator; [cur] is the piece being read,
    in reverse. *)
Fixpoint split_go (sep : N) (s : jsstring) (cur : jsstring) : list jsstring :=
  match s with
  | [] => [rev cur]
  | c :: s' =>
      if N.eqb c sep then rev cur :: split_go sep s' []
      else split_go sep s' (c :: cur)
  end.

Definition split (sep : N) (s : jsstring) : list jsstring := split_go sep s [].

(* ===================================================================== *)
(** ** JavaScript values and objects *)
(* ===================================================================== *)

(** The values that travel through the controllers: JSON data from request
    bodies, and the ObjectIds the document mapper puts in [_id] and in
    references.  Numbers are the integral ones; times are epoch numbers. *)
Inductive jsval : Type :=
| JUndefined
| JNull
| JBool (b : bool)
| JNum (n : Z)
| JStr (s : jsstring)
| JId (oid : N)
| JArr (items : list jsval)
| JObj (props : list (string * jsval)).

(** An object: own properties in insertion order. *)
Definition obj : Type := list (string * jsval).

(** Property read [o.k]: [undefined] when the property is absent. *)
Fixpoint obj_get (k : string) (o : obj) : jsval :=
  match o with
  | [] => JUndefined
  | (k', v) :: o' => if String.eqb k k' then v else obj_get k o'
  end.

(** Property write [o.k = v]: in place when present, appended otherwise. *)
Fixpoint obj_set (k : string) (v : jsval) (o : obj) : obj :=
  match o with
  | [] => [(k, v)]
  | (k', v') :: o' =>
      if String.eqb k k' then (k, v) :: o' else (k', v') :: obj_set k v o'
  end.

(** [Object.assign(target, source)]. *)
Definition Object_assign (target source : obj) : obj :=
  fold_left (fun t kv => obj_set (fst kv) (snd kv) t) source target.

Definition is_undefined (v : jsval) : bool :=
  match v with JUndefined => true | _ => false end.

(** [Object.keys(o).forEach(key => o[key] === undefined && delete o[key])]. *)
Definition delete_undefined (o : obj) : obj :=
  filter (fun kv => negb (is_undefined (snd kv))) o.

(** ToBoolean. *)
Definition truthy (v : jsval) : bool :=
  match v with
  | JUndefined | JNull => false
  | JBool b => b
  | JNum n => negb (n =? 0)
  | JStr s => match s with [] => false | _ => true end
  | JId _ | JArr _ | JObj _ => true
  end.

(** [a || b]. *)
Definition js_or (a b : jsval) : jsval := if truthy a then a else b.

(** [typeof v === 'string']. *)
Definition is_string (v : jsval) : bool :=
  match v with JStr _ => true | _ => false end.

(** [v === 'lit']. *)
Definition is_str (lit : string) (v : jsval) : bool :=
  match v with JStr s => jsstr_eqb s (str lit) | _ => false end.

(** [v.length] on a value that is not null or undefined. *)
Definition js_length (v : jsval) : jsval :=
  match v with
  | JStr s => JNum (Z.of_nat (List.length s))
  | JArr l => JNum (Z.of_nat (List.length l))
  | JObj o => obj_get "length" o
  | _ => JUndefined
  end.

(** What a JavaScript expression or a library call may throw. *)
Inductive exn : Type :=
| TypeError | SyntaxError | CastError | ValidationError
| JsonWebTokenError | TokenExpiredError.

Inductive result (A : Type) : Type :=
| Ok (a : A)
| Throw (e : exn).
Arguments Ok {A} a.
Arguments Throw {A} e.

(** Property read [v.k] for a key other than [length]: a TypeError on null
    and undefined, [undefined] on values that carry no such property. *)
Definition prop (k : string) (v : jsval) : result jsval :=
  match v with
  | JUndefined | JNull => Throw TypeError
  | JObj o => Ok (obj_get k o)
  | _ => Ok JUndefined
  end.

(* ===================================================================== *)
(** ** Collaborators outside the controllers *)
(* ===================================================================== *)

(** The claims of a session token, as [jwt.sign] writes them. *)
Record claims : Type := {
  jwt_id : jsval;          (* payload { id } *)
  jwt_iat : Z;             (* issued at, epoch seconds *)
  jwt_exp : option Z       (* expiry, epoch seconds; absent without expiresIn *)
}.

(** What the controllers call and the repository does not define: the
    platform (JSON, number conversion), the document mapper's schemas (they
    live in models/, which the controllers only import), the password
    digest, the token serialisation under [process.env.JWT_SECRET], and the
    environment. *)
Record Env : Type := {
  JSON_parse : jsstring -> option jsval;       (* None: SyntaxError *)
  ToNumber_other : jsval -> option Z;          (* strings, arrays, objects; None: NaN *)
  castObjectId : jsstring -> option N;         (* None: CastError *)
  User_validate : list obj -> obj -> bool;     (* schema and uniqueness checks of save *)
  Committee_validate : obj -> bool;
  hashPassword : jsval -> jsval;               (* pre-save hook of the user schema *)
  correctPassword : jsval -> jsval -> bool;    (* candidate, stored digest *)
  jwt_encode : claims -> jsstring;
  jwt_decode : jsstring -> option claims;      (* None: malformed or badly signed *)
  JWT_EXPIRES_IN : option Z                    (* seconds *)
}.

(* ===================================================================== *)
(** ** The world, its trace, and the monad of a request *)
(* ===================================================================== *)

(** One entry per call that leaves the controller. *)
Inductive effect : Type :=
| call_User_findOne (path : string) (value : jsval)
| call_User_findById (id : jsval)
| call_User_create
| call_User_save
| call_User_findByIdAndDelete (id : jsval)
| call_Committee_findById (id : jsval)
| call_populate
| call_Committee_save
| call_fs_unlink (path : jsstring)
| call_sendMail (to : jsval).

Record world : Type := {
  users : list obj;            (* the User collection *)
  committees : list obj;       (* the Committee collection *)
  files : list jsstring;       (* paths present in the upload directory *)
  trace : list effect
}.

Definition M (A : Type) : Type := world -> result A * world.

Definition ret {A} (a : A) : M A := fun w => (Ok a, w).

Definition throw {A} (e : exn) : M A := fun w => (Throw e, w).

Definition bind {A B} (m : M A) (f : A -> M B) : M B :=
  fun w =>
    match m w with
    | (Ok a, w') => f a w'
    | (Throw e, w') => (Throw e, w')
    end.

Definition lift {A} (r : result A) : M A := fun w => (r, w).

(** [try { m } catch (error) { h error }] with a handler that completes. *)
Definition try_catch {A} (m : M A) (h : exn -> world -> A * world)
  : world -> A * world :=
  fun w =>
    match m w with
    | (Ok a, w') => (a, w')
    | (Throw e, w') => h e w'
    end.

Notation "x <- m ;; k" := (bind m (fun x => k))
  (at level 61, m at next level, right associativity).
Notation "m ;;; k" := (bind m (fun _ => k))
  (at level 61, right associativity).

(** The world after further calls. *)
Definition emit (w : world) (es : list effect) : world :=
  {| users := users w; committees := committees w;
     files := files w; trace := trace w ++ es |}.

Definition record (e : effect) : M unit := fun w => (Ok tt, emit w [e]).

Definition set_users (us : list obj) : M unit :=
  fun w => (Ok tt,
            {| users := us; committees := committees w;
               files := files w; trace := trace w |}).

Definition set_committees (cs : list obj) : M unit :=
  fun w => (Ok tt,
            {| users := users w; committees := cs;
               files := files w; trace := trace w |}).

Definition set_files (fs : list jsstring) : M unit :=
  fun w => (Ok tt,
            {| users := users w; committees := committees w;
               files := fs; trace := trace w |}).

Definition get_users : M (list obj) := fun w => (Ok (users w), w).
Definition get_committees : M (list obj) := fun w => (Ok (committees w), w).
Definition get_files : M (list jsstring) := fun w => (Ok (files w), w).

(* ===================================================================== *)
(** ** Store, file system and mailer *)
(* ===================================================================== *)

Definition has_id (n : N) (d : obj) : bool :=
  match obj_get "_id" d with JId m => N.eqb n m | _ => false end.

Definition has_str (path : string) (s : jsstring) (d : obj) : bool :=
  match obj_get path d with JStr t => jsstr_eqb s t | _ => false end.

(** Replace the stored document of that id, or insert it. *)
Fixpoint store_put (n : N) (doc : obj) (docs : list obj) : list obj :=
  match docs with
  | [] => [doc]
  | d :: ds => if has_id n d then doc :: ds else d :: store_put n doc ds
  end.

Fixpoint store_remove (n : N) (docs : list obj) : list obj :=
  match docs with
  | [] => []
  | d :: ds => if has_id n d then ds else d :: store_remove n ds
  end.

Fixpoint remove_path (p : jsstring) (fs : list jsstring) : list jsstring :=
  match fs with
  | [] => []
  | q :: fs' => if jsstr_eqb p q then fs' else q :: remove_path p fs'
  end.

Section Collaborators.

Context (E : Env).

(** ToNumber, and [v > n] for an integral [n]. *)
Definition ToNumber (v : jsval) : option Z :=
  match v with
  | JUndefined => None
  | JNull => Some 0
  | JBool b => Some (if b then 1 else 0)
  | JNum n => Some n
  | _ => ToNumber_other E v
  end.

Definition js_gt (v : jsval) (n : Z) : bool :=
  match ToNumber v with Some x => n <? x | None => false end.

(** The cast of an [_id] filter: ObjectIds pass, strings are parsed, null
    and undefined match no document, anything else is a CastError. *)
Definition castId (v : jsval) : result (option N) :=
  match v with
  | JId n => Ok (Some n)
  | JStr s =>
      match castObjectId E s with
      | Some n => Ok (Some n)
      | None => Throw CastError
      end
  | JUndefined | JNull => Ok None
  | _ => Throw CastError
  end.

Definition find_by_id (v : jsval) (docs : list obj) : result (option obj) :=
  match castId v with
  | Ok (Some n) => Ok (find (has_id n) docs)
  | Ok None => Ok None
  | Throw e => Throw e
  end.

(** The first document that an equality filter [{ path: value }] on a
    string path selects, for a filter value that is a string.  What the
    store does with any other filter value (an operator object, an array)
    is decided by the mapper, which is not part of the repository: this
    lookup answers nothing for it, and what is stated below of a lookup that
    finds no document is stated for string values. *)
Definition find_one (path : string) (value : jsval) (docs : list obj)
  : option obj :=
  match value with
  | JStr s => find (has_str path s) docs
  | _ => None
  end.

Definition User_findOne (path : string) (value : jsval) : M (option obj) :=
  record (call_User_findOne path value) ;;;
  us <- get_users ;;
  ret (find_one path value us).

Definition User_findById (id : jsval) : M (option obj) :=
  record (call_User_findById id) ;;;
  us <- get_users ;;
  lift (find_by_id id us).

(** [User.create(fields)]: the document gets its ObjectId, the password is
    digested by the schema's hook, and validation may reject it. *)
Definition new_user (newId : N) (fields : obj) : obj :=
  ("_id", JId newId)
  :: obj_set "password" (hashPassword E (obj_get "password" fields)) fields.

Definition User_create (newId : N) (fields : obj) : M obj :=
  record call_User_create ;;;
  us <- get_users ;;
  let doc := new_user newId fields in
  if User_validate E us doc
  then set_users (us ++ [doc]) ;;; ret doc
  else throw ValidationError.

Definition User_save (doc : obj) : M unit :=
  record call_User_save ;;;
  us <- get_users ;;
  match obj_get "_id" doc with
  | JId n =>
      if User_validate E us doc
      then set_users (store_put n doc us)
      else throw ValidationError
  | _ => throw ValidationError
  end.

Definition User_findByIdAndDelete (id : jsval) : M unit :=
  record (call_User_findByIdAndDelete id) ;;;
  us <- get_users ;;
  match castId id with
  | Ok (Some n) => set_users (store_remove n us)
  | Ok None => ret tt
  | Throw e => throw e
  end.

Definition Committee_findById (id : jsval) : M (option obj) :=
  record (call_Committee_findById id) ;;;
  cs <- get_committees ;;
  lift (find_by_id id cs).

(** [.populate('createdBy', 'name email role employeeId')] on the fetched
    document: the reference is replaced by the selected fields of the
    creator (with its [_id]), or by null when the creator is gone. *)
Definition populate_createdBy (us : list obj) (doc : obj) : obj :=
  let creator :=
    match find_by_id (obj_get "createdBy" doc) us with
    | Ok (Some u) =>
        JObj [("_id", obj_get "_id" u); ("name", obj_get "name" u);
              ("email", obj_get "email" u); ("role", obj_get "role" u);
              ("employeeId", obj_get "employeeId" u)]
    | _ => JNull
    end in
  obj_set "createdBy" creator doc.

Definition Committee_findById_populate (id : jsval) : M (option obj) :=
  c <- Committee_findById id ;;
  match c with
  | None => ret None
  | Some doc =>
      record call_populate ;;;
      us <- get_users ;;
      ret (Some (populate_createdBy us doc))
  end.

Definition Committee_save (doc : obj) : M unit :=
  record call_Committee_save ;;;
  cs <- get_committees ;;
  match obj_get "_id" doc with
  | JId n =>
      if Committee_validate E doc
      then set_committees (store_put n doc cs)
      else throw ValidationError
  | _ => throw ValidationError
  end.

(** [fs.unlink(path, callback)]: the callback only logs a failure. *)
Definition fs_unlink (path : jsstring) : M unit :=
  record (call_fs_unlink path) ;;;
  fs <- get_files ;;
  set_files (remove_path path fs).

Definition sendMail (to : jsval) : M unit := record (call_sendMail to).

End Collaborators.

(* ===================================================================== *)
(** ** Requests and what a handler does with them *)
(* ===================================================================== *)

(** [req.file], as the upload middleware leaves it. *)
Record upload : Type := {
  filename : jsstring;
  path : jsstring;
  originalname : jsstring;
  mimetype : jsstring;
  size : Z
}.

Record request : Type := {
  req_body : obj;
  req_params : obj;
  req_user : obj;                          (* set by protect *)
  req_file : option upload;
  req_authorization : option jsstring;     (* req.headers.authorization *)
  req_cookie_jwt : option jsstring         (* req.cookies.jwt *)
}.

(** What reaches [next(err)]: an AppError built by the controller, or an
    exception passed on as it was thrown. *)
Inductive error : Type :=
| AppError (message : jsstring) (statusCode : Z)
| Thrown (e : exn).

Record cookie : Type := {
  cookie_name : jsstring;
  cookie_value : jsstring;
  cookie_expires : Z;                      (* epoch milliseconds *)
  cookie_httpOnly : bool
}.

Inductive outcome : Type :=
| Respond (status : Z) (json : jsval) (cookies : list cookie)
| Next (err : error)                       (* next(err) *)
| NextHandler (user : obj).                (* req.user = user; next() *)

(** The session token a response hands out, if any. *)
Definition issued_token (o : outcome) : option jsval :=
  match o with
  | Respond _ (JObj o') _ =>
      match obj_get "token" o' with
      | JUndefined => None
      | t => Some t
      end
  | _ => None
  end.

Definition status_of (o : outcome) : option Z :=
  match o with
  | Respond s _ _ => Some s
  | Next (AppError _ s) => Some s
  | _ => None
  end.

(** [catchAsync(fn)]: a rejection goes to [next]. *)
Definition catchAsync (m : M outcome) : world -> outcome * world :=
  try_catch m (fun e w => (Next (Thrown e), w)).

Definition total {A} (f : world -> A * world) : M A :=
  fun w => let (a, w') := f w in (Ok a, w').

(** The object literal [{ k1: body.k1, k2: body.k2, ... }]. *)
Definition pick (body : obj) (keys : list string) : obj :=
  map (fun k => (k, obj_get k body)) keys.

Definition doc_or_null (d : option obj) : jsval :=
  match d with Some o => JObj o | None => JNull end.

(* ===================================================================== *)
(** ** The committee controller *)
(* ===================================================================== *)

Section CommitteeController.

Context (E : Env).

(** [typeof m === 'string' ? m : (m.employeeId || '')]. *)
Definition member_id (m : jsval) : result jsval :=
  match m with
  | JStr _ => Ok m
  | _ =>
      match prop "employeeId" m with
      | Ok v => Ok (js_or v (JStr []))
      | Throw e => Throw e
      end
  end.

Fixpoint map_result (f : jsval -> result jsval) (l : list jsval)
  : result (list jsval) :=
  match l with
  | [] => Ok []
  | x :: l' =>
      match f x with
      | Throw e => Throw e
      | Ok y =>
          match map_result f l' with
          | Throw e => Throw e
          | Ok ys => Ok (y :: ys)
          end
      end
  end.

(** [memberData.map(...)]: only an array has [map]. *)
Definition member_ids (memberData : jsval) : result (list jsval) :=
  match memberData with
  | JArr l => map_result member_id l
  | _ => Throw TypeError
  end.

(** [typeof id === 'string' && id.trim() !== '']. *)
Definition valid_member_id (id : jsval) : bool :=
  match id with
  | JStr s => negb (jsstr_eqb (trim s) [])
  | _ => false
  end.

(** The identifiers as the loop reads them once [every] has passed. *)
Definition strings_of (ids : list jsval) : list jsstring :=
  flat_map (fun v => match v with JStr s => [s] | _ => [] end) ids.

Definition snapshot (user : obj) : jsval :=
  JObj [("name", obj_get "name" user);
        ("role", obj_get "role" user);
        ("email", obj_get "email" user);
        ("employeeId", obj_get "employeeId" user);
        ("department", obj_get "department" user);
        ("designation", obj_get "designation" user)].

Definition not_found_message (employeeId : jsstring) : jsstring :=
  (str "User with employee ID " ++ employeeId ++ str " not found")%list.

(** The [for ... of] loop; [inl] is an early [return next(...)]. *)
Fixpoint resolve_members (ids : list jsstring) (membersArray : list jsval)
  : M (outcome + list jsval) :=
  match ids with
  | [] => ret (inr membersArray)
  | employeeId :: rest =>
      user <- User_findOne "employeeId" (JStr employeeId) ;;
      match user with
      | None => ret (inl (Next (AppError (not_found_message employeeId) 404)))
      | Some u => resolve_members rest (membersArray ++ [snapshot u])
      end
  end.

(** [typeof members === 'string' ? JSON.parse(members) : members]. *)
Definition memberData_of (members : jsval) : result jsval :=
  match members with
  | JStr s =>
      match JSON_parse E s with
      | Some v => Ok v
      | None => Throw SyntaxError
      end
  | _ => Ok members
  end.

Definition memberIds_of (members : jsval) : result (list jsval) :=
  match memberData_of members with
  | Ok memberData => member_ids memberData
  | Throw e => Throw e
  end.

(** [members && members.length > 0]. *)
Definition has_members (members : jsval) : bool :=
  truthy members && js_gt E (js_length members) 0.

(** The body of [if (members && members.length > 0)], the same text in
    createCommittee and in updateCommittee. *)
Definition process_members (members : jsval) : M (outcome + list jsval) :=
  memberIds <- lift (memberIds_of members) ;;
  if negb (forallb valid_member_id memberIds)
  then ret (inl (Next (AppError
                         (str "All member IDs must be non-empty strings") 400)))
  else resolve_members (strings_of memberIds) [].

(** One [transporter.sendMail] per member; the message is built first and
    reads [member.email] and [committee.createdBy.name]. *)
Fixpoint mail_members (createdBy : jsval) (members : list jsval) : M unit :=
  match members with
  | [] => ret tt
  | member :: rest =>
      to <- lift (prop "email" member) ;;
      _ <- lift (prop "name" createdBy) ;;
      sendMail to ;;;
      mail_members createdBy rest
  end.

(** A failure is logged and goes no further. *)
Definition sendCommitteeNotifications (committee : jsval) : M unit :=
  total (try_catch
           (members <- lift (prop "members" committee) ;;
            createdBy <- lift (prop "createdBy" committee) ;;
            match members with
            | JArr l => mail_members createdBy l
            | _ => throw TypeError
            end)
           (fun _ w => (tt, w))).

Definition formationLetter_of (f : option upload) : jsval :=
  match f with
  | Some u =>
      JObj [("filename", JStr (filename u)); ("path", JStr (path u));
            ("originalname", JStr (originalname u));
            ("mimetype", JStr (mimetype u)); ("size", JNum (size u))]
  | None => JNull
  end.

Definition success (key : string) (v : jsval) : jsval :=
  JObj [("status", JStr (str "success")); ("data", JObj [(key, v)])].

(** POST /api/committees.  [newId] is the ObjectId the mapper draws for the
    new document. *)
Definition createCommittee (req : request) (newId : N)
  : world -> outcome * world :=
  try_catch
    (let body := req_body req in
     let members := obj_get "members" body in
     r <- (if has_members members
           then process_members members
           else ret (inr [])) ;;
     match r with
     | inl early => ret early
     | inr membersArray =>
         let committee :=
           [("_id", JId newId);
            ("name", obj_get "name" body);
            ("purpose", obj_get "purpose" body);
            ("formationDate", obj_get "formationDate" body);
            ("specificationSubmissionDate",
               obj_get "specificationSubmissionDate" body);
            ("reviewDate", obj_get "reviewDate" body);
            ("schedule", obj_get "schedule" body);
            ("members", JArr membersArray);
            ("createdBy", obj_get "_id" (req_user req));
            ("formationLetter", formationLetter_of (req_file req))] in
         Committee_save E committee ;;;
         populatedCommittee <- Committee_findById_populate E (JId newId) ;;
         (if is_str "true" (obj_get "shouldNotify" body)
          then sendCommitteeNotifications (doc_or_null populatedCommittee)
          else ret tt) ;;;
         ret (Respond 201
                (success "committee" (doc_or_null populatedCommittee)) [])
     end)
    (fun error w =>
       let w' := match req_file req with
                 | Some f => snd (fs_unlink (path f) w)
                 | None => w
                 end in
       (Next (Thrown error), w')).

Definition updatable : list string :=
  ["name"; "purpose"; "formationDate"; "specificationSubmissionDate";
   "reviewDate"; "schedule"; "members"; "shouldNotify"; "approvalStatus"].

(** PATCH /api/committees/:id.  The fetched document is populated for the
    debug log only; what is assigned to and saved is the stored document.
    [req.body.formationLetter] is read for a console warning and nothing
    else, and console output is no part of the world. *)
Definition updateCommittee (req : request) : world -> outcome * world :=
  try_catch
    (let id := obj_get "id" (req_params req) in
     let body := req_body req in
     found <- Committee_findById E id ;;
     match found with
     | None => ret (Next (AppError (str "No committee found with that ID") 404))
     | Some committee =>
         record call_populate ;;;
         let allowedUpdates :=
           delete_undefined (pick body updatable) in
         let members := obj_get "members" allowedUpdates in
         r <- (if has_members members
               then
                 x <- process_members members ;;
                 ret (match x with
                      | inl early => inl early
                      | inr membersArray =>
                          inr (obj_set "members" (JArr membersArray)
                                 allowedUpdates)
                      end)
               else ret (inr allowedUpdates)) ;;
         match r with
         | inl early => ret early
         | inr updates =>
             let committee' := Object_assign committee updates in
             Committee_save E committee' ;;;
             populatedCommittee <-
               Committee_findById_populate E (obj_get "_id" committee') ;;
             (if is_str "true" (obj_get "shouldNotify" body)
              then sendCommitteeNotifications (doc_or_null populatedCommittee)
              else ret tt) ;;;
             ret (Respond 200
                    (success "committee" (doc_or_null populatedCommittee)) [])
         end
     end)
    (fun _ w => (Next (AppError (str "Failed to update committee") 500), w)).

End CommitteeController.

(* ===================================================================== *)
(** ** The authentication controller *)
(* ===================================================================== *)

Section AuthController.

Context (E : Env).

(** [jwt.sign({ id }, secret, { expiresIn })] at [now] (epoch milliseconds):
    the library stamps [iat], and [exp] only when [expiresIn] is given.  The
    rendering of an ObjectId in the payload, and its cast back by
    [findById], are part of the serialisation. *)
Definition jwt_sign (id : jsval) (expiresIn : option Z) (now : Z) : jsstring :=
  let iat := now / 1000 in
  jwt_encode E {| jwt_id := id; jwt_iat := iat;
                  jwt_exp := option_map (fun d => iat + d) expiresIn |}.

(** [jwt.verify(token, secret)] at [now]: signature first, then expiry. *)
Definition jwt_verify (token : jsstring) (now : Z) : result claims :=
  match jwt_decode E token with
  | None => Throw JsonWebTokenError
  | Some c =>
      match jwt_exp c with
      | Some exp => if exp <=? now / 1000 then Throw TokenExpiredError else Ok c
      | None => Ok c
      end
  end.

(** Defined by the controller and called nowhere in it. *)
Definition signToken (id : jsval) (now : Z) : jsstring :=
  jwt_sign id (JWT_EXPIRES_IN E) now.

Definition one_day : Z := 24 * 60 * 60 * 1000.

Definition createSendToken (user : obj) (statusCode : Z) (now : Z) : outcome :=
  let token := jwt_sign (obj_get "_id" user) None now in
  Respond statusCode
    (JObj [("status", JStr (str "success"));
           ("token", JStr token);
           ("data", JObj [("user", JObj (obj_set "password" JUndefined user))])])
    [{| cookie_name := str "jwt"; cookie_value := token;
        cookie_expires := now + one_day; cookie_httpOnly := true |}].

(** The object literal that register gives to [User.create]. *)
Definition register_fields (body : obj) : obj :=
  [("name", obj_get "name" body);
   ("email", obj_get "email" body);
   ("password", obj_get "password" body);
   ("role", obj_get "role" body);
   ("employeeId", obj_get "employeeId" body);
   ("department", obj_get "department" body);
   ("phoneNumber", obj_get "phoneNumber" body);
   ("designation", obj_get "designation" body);
   ("isActive", js_or (obj_get "isActive" body) (JBool true));
   ("otpEnabled", js_or (obj_get "otpEnabled" body) (JBool false))].

(** POST register.  [newId] is the ObjectId drawn for the new user. *)
Definition register (req : request) (newId : N) (now : Z)
  : world -> outcome * world :=
  catchAsync
    (newUser <- User_create E newId (register_fields (req_body req)) ;;
     ret (createSendToken newUser 201 now)).

Definition login (req : request) (now : Z) : world -> outcome * world :=
  catchAsync
    (let email := obj_get "email" (req_body req) in
     let password := obj_get "password" (req_body req) in
     if negb (truthy email) || negb (truthy password)
     then ret (Next (AppError (str "Please provide email and password!") 400))
     else
       found <- User_findOne "email" email ;;
       match found with
       | None => ret (Next (AppError (str "Incorrect email or password") 401))
       | Some user =>
           if negb (correctPassword E password (obj_get "password" user))
           then ret (Next (AppError (str "Incorrect email or password") 401))
           else if negb (truthy (obj_get "isActive" user))
           then ret (Next (AppError
                             (str "Your account has been deactivated") 401))
           else ret (createSendToken user 200 now)
       end).

(** Modelled from the spec: [changedPasswordAfter] is a method of the user
    schema, which the controller only imports.  The spec has the guard
    reject a token "issued before the user's last password change", so the
    method answers whether the issued-at time of the token precedes the
    recorded change (both in epoch seconds); no recorded change, no
    rejection. *)
Definition changedPasswordAfter (user : obj) (JWTTimestamp : Z) : bool :=
  match obj_get "passwordChangedAt" user with
  | JNum changed => JWTTimestamp <? changed
  | _ => false
  end.

(** Step 1 of [protect]: the header when it starts with Bearer, else the
    cookie when it is truthy; [None] is [undefined]. *)
Definition request_token (req : request) : option jsstring :=
  let from_cookie :=
    match req_cookie_jwt req with
    | Some (c :: t) => Some (c :: t)
    | _ => None
    end in
  match req_authorization req with
  | Some h =>
      if startsWith h (str "Bearer") then nth_error (split 32 h) 1
      else from_cookie
  | None => from_cookie
  end.

Definition protect (req : request) (now : Z) : world -> outcome * world :=
  match request_token req with
  | None | Some [] =>
      fun w => (Next (AppError (str "Authentication required") 401), w)
  | Some token =>
      try_catch
        (decoded <- lift (jwt_verify token now) ;;
         currentUser <- User_findById E (jwt_id decoded) ;;
         match currentUser with
         | None => ret (Next (AppError (str "User no longer exists") 401))
         | Some user =>
             if changedPasswordAfter user (jwt_iat decoded)
             then ret (Next (AppError
                               (str "Password changed - please log in again")
                               401))
             else ret (NextHandler user)
         end)
        (fun _ w => (Next (AppError (str "Invalid or expired token") 401), w))
  end.

Definition user_view (user : obj) : jsval :=
  JObj (pick user ["_id"; "name"; "email"; "role"; "employeeId"; "department";
                   "phoneNumber"; "designation"; "isActive"; "otpEnabled";
                   "permissions"]).

Definition admin_updatable : list string :=
  ["name"; "email"; "role"; "department"; "phoneNumber"; "designation";
   "isActive"; "otpEnabled"; "permissions"].

Definition updateUser (req : request) : world -> outcome * world :=
  let allowedUpdates := delete_undefined (pick (req_body req) admin_updatable) in
  try_catch
    (found <- User_findById E (obj_get "userId" (req_params req)) ;;
     match found with
     | None => ret (Next (AppError (str "No user found with that ID") 404))
     | Some user =>
         let user' := Object_assign user allowedUpdates in
         User_save E user' ;;;
         ret (Respond 200 (success "user" (user_view user')) [])
     end)
    (fun _ w => (Next (AppError (str "Error updating user") 400), w)).

(** [user._id.toString() === req.user._id.toString()]: the [_id] of a
    document is an ObjectId and its rendering is injective; anything else
    has no such rendering to call. *)
Definition same_id_string (a b : jsval) : result bool :=
  match a, b with
  | JId n, JId m => Ok (N.eqb n m)
  | _, _ => Throw TypeError
  end.

Definition deleteUser (req : request) : world -> outcome * world :=
  let userId := obj_get "userId" (req_params req) in
  try_catch
    (found <- User_findById E userId ;;
     match found with
     | None => ret (Next (AppError (str "No user found with that ID") 404))
     | Some user =>
         self <- lift (same_id_string (obj_get "_id" user)
                         (obj_get "_id" (req_user req))) ;;
         if self
         then ret (Next (AppError (str "You cannot delete your own account") 403))
         else
           User_findByIdAndDelete E userId ;;;
           ret (Respond 204
                  (JObj [("status", JStr (str "SUCCESS"));
                         ("message", JStr (str "User deleted successfully"))])
                  [])
     end)
    (fun _ w => (Next (AppError (str "Error deleting user") 400), w)).

Definition self_updatable : list string :=
  ["name"; "email"; "department"; "phoneNumber"; "designation"; "otpEnabled"].

Definition updateMe (req : request) : world -> outcome * world :=
  let body := req_body req in
  if truthy (obj_get "password" body) || truthy (obj_get "role" body)
     || truthy (obj_get "permissions" body) || truthy (obj_get "isActive" body)
  then fun w =>
    (Next (AppError
             (str "This route is not for password, role, permissions, or status updates")
             400), w)
  else
    let allowedUpdates := delete_undefined (pick body self_updatable) in
    try_catch
      (found <- User_findById E (obj_get "_id" (req_user req)) ;;
       match found with
       | None => ret (Next (AppError (str "User not found") 404))
       | Some user =>
           let user' := Object_assign user allowedUpdates in
           User_save E user' ;;;
           ret (Respond 200 (success "user" (user_view user')) [])
       end)
      (fun _ w => (Next (AppError (str "Error updating your profile") 400), w)).

End AuthController.

(* ===================================================================== *)
(** ** The rest of the committee controller *)
(* ===================================================================== *)

(** Two calls of the handlers below have no kind of entry in the trace,
    [Committee.findByIdAndDelete] and [fs.existsSync]; they act on the
    world and leave the trace as it is. *)

Section CommitteeReads.

Context (E : Env).

(** [Committee.findByIdAndDelete(id)]. *)
Definition Committee_findByIdAndDelete (id : jsval) : M unit :=
  cs <- get_committees ;;
  match castId E id with
  | Ok (Some n) => set_committees (store_remove n cs)
  | Ok None => ret tt
  | Throw e => throw e
  end.

(** [fs.unlink(path, callback)] on a value: a path that is not a string is
    refused with a TypeError before anything is removed. *)
Definition fs_unlink_value (p : jsval) : M unit :=
  match p with
  | JStr s => fs_unlink s
  | _ => throw TypeError
  end.

(** GET /api/committees/:id. *)
Definition getCommittee (req : request) : world -> outcome * world :=
  try_catch
    (committee <- Committee_findById_populate E (obj_get "id" (req_params req)) ;;
     match committee with
     | None => ret (Next (AppError (str "Committee not found") 404))
     | Some c => ret (Respond 200 (success "committee" (JObj c)) [])
     end)
    (fun _ w => (Next (AppError (str "Failed to fetch committee") 500), w)).

(** DELETE /api/committees/:id. *)
Definition deleteCommittee (req : request) : world -> outcome * world :=
  let id := obj_get "id" (req_params req) in
  try_catch
    (found <- Committee_findById E id ;;
     match found with
     | None => ret (Next (AppError (str "No committee found with that ID") 404))
     | Some committee =>
         let formationLetter := obj_get "formationLetter" committee in
         (if truthy formationLetter
          then
            p <- lift (prop "path" formationLetter) ;;
            if truthy p then fs_unlink_value p else ret tt
          else ret tt) ;;;
         Committee_findByIdAndDelete id ;;;
         ret (Respond 204
                (JObj [("status", JStr (str "success"));
                       ("message", JStr (str "Committee deleted successfully"))])
                [])
     end)
    (fun _ w => (Next (AppError (str "Error deleting committee") 400), w)).

End CommitteeReads.

(** [res.download(filePath, name)]. *)
Record download : Type := {
  download_path : jsstring;
  download_name : jsval
}.

Section Download.

Context (E : Env).

(** [path.join(__dirname, '../', p)], under the name the world gives to
    that file (the name [fs.unlink] would receive): the identity when the
    server runs from its root directory. *)
Variable server_path : jsstring -> jsstring.

(** GET /api/committees/:id/download.  [path.join] throws on an argument
    that is not a string; [inl] is what goes to [next], [inr] a download. *)
Definition downloadFormationLetter (req : request)
  : world -> (outcome + download) * world :=
  try_catch
    (found <- Committee_findById E (obj_get "id" (req_params req)) ;;
     match found with
     | None => ret (inl (Next (AppError (str "Committee not found") 404)))
     | Some committee =>
         let formationLetter := obj_get "formationLetter" committee in
         if negb (truthy formationLetter)
         then ret (inl (Next (AppError (str "No formation letter found") 404)))
         else
           p <- lift (prop "path" formationLetter) ;;
           match p with
           | JStr s =>
               fs <- get_files ;;
               if existsb (jsstr_eqb (server_path s)) fs
               then
                 name <- lift (prop "originalname" formationLetter) ;;
                 ret (inr {| download_path := server_path s;
                             download_name := name |})
               else ret (inl (Next (AppError
                                      (str "File not found on server") 404)))
           | _ => throw TypeError
           end
     end)
    (fun _ w => (inl (Next (AppError (str "Error downloading file") 500)), w)).

End Download.

(* ===================================================================== *)
(** ** The rest of the authentication controller *)
(* ===================================================================== *)

(** [roles.includes(role)] compares by SameValueZero: primitives by value,
    objects by identity, and no value read from a document is identical to
    an element of the array of roles. *)
Definition same_value_zero (a b : jsval) : bool :=
  match a, b with
  | JUndefined, JUndefined => true
  | JNull, JNull => true
  | JBool x, JBool y => Bool.eqb x y
  | JNum x, JNum y => Z.eqb x y
  | JStr x, JStr y => jsstr_eqb x y
  | _, _ => false
  end.

(** [restrictTo(...roles)]: [next()] leaves [req.user] as it is. *)
Definition restrictTo (roles : list jsval) (req : request) : outcome :=
  if negb (existsb (same_value_zero (obj_get "role" (req_user req))) roles)
  then Next (AppError
               (str "You do not have permission to perform this action") 403)
  else NextHandler (req_user req).

(** [.select('-password')]. *)
Definition without_password (user : obj) : obj :=
  filter (fun kv => negb (String.eqb (fst kv) "password")) user.

(** GET users.  [User.find()] has no kind of entry in the trace; an array
    is truthy, so the [throw] of the source is never reached. *)
Definition getAllUsers (req : request) : world -> outcome * world :=
  try_catch
    (us <- get_users ;;
     let users := map without_password us in
     ret (Respond 200
            (JObj [("status", JStr (str "success"));
                   ("results", JNum (Z.of_nat (List.length users)));
                   ("data", JObj [("users", JArr (map JObj users))])])
            []))
    (fun _ w =>
       (Respond 500
          (JObj [("status", JStr (str "error"));
                 ("message", JStr (str "Failed to fetch users"))])
          [], w)).

Definition getUserByEmployeeId (req : request) : world -> outcome * world :=
  catchAsync
    (found <- User_findOne "employeeId" (obj_get "employeeId" (req_params req)) ;;
     match found with
     | None =>
         ret (Next (AppError (str "No user found with that employee ID") 404))
     | Some user =>
         ret (Respond 200 (success "user" (JObj (without_password user))) [])
     end).

Section Credentials.

Context (E : Env).

(** What the password handlers call and the repository does not show: the
    middleware the user schema runs on save (at a time), SHA-256 in
    hexadecimal, and the schema's [createPasswordResetToken], which draws
    random bytes, sets the reset fields of the user and returns the raw
    token. *)
Variable preSave : Z -> obj -> obj.
Variable sha256_hex : jsstring -> jsstring.
Variable createPasswordResetToken : N -> Z -> obj -> jsstring * obj.

(** [user.save(options)]: validation unless switched off, then the
    middleware, then the write. *)
Definition User_save_hooked (validate : bool) (now : Z) (doc : obj) : M obj :=
  record call_User_save ;;;
  us <- get_users ;;
  match obj_get "_id" doc with
  | JId n =>
      if negb validate || User_validate E us doc
      then
        let saved := preSave now doc in
        set_users (store_put n saved us) ;;; ret saved
      else throw ValidationError
  | _ => throw ValidationError
  end.

(** [random] stands for the bytes the reset token is drawn from.  The
    [try] block of the source builds a string and answers; nothing in it
    throws. *)
Definition forgotPassword (req : request) (random : N) (now : Z)
  : world -> outcome * world :=
  catchAsync
    (found <- User_findOne "email" (obj_get "email" (req_body req)) ;;
     match found with
     | None =>
         ret (Next (AppError
                      (str "There is no user with that email address.") 404))
     | Some user =>
         let (resetToken, user') := createPasswordResetToken random now user in
         User_save_hooked false now user' ;;;
         ret (Respond 200
                (JObj [("status", JStr (str "success"));
                       ("message", JStr (str "Token sent to email!"));
                       ("token", JStr resetToken)])
                [])
     end).

(** The filter [{ passwordResetToken: hashedToken, passwordResetExpires:
    { $gt: Date.now() } }]. *)
Definition reset_pending (hashedToken : jsstring) (now : Z) (d : obj) : bool :=
  has_str "passwordResetToken" hashedToken d
  && match obj_get "passwordResetExpires" d with
     | JNum expires => now <? expires
     | _ => false
     end.

(** [crypto.createHash('sha256').update(token)] throws on a token that is
    not a string. *)
Definition resetPassword (req : request) (now : Z) : world -> outcome * world :=
  catchAsync
    (match obj_get "token" (req_params req) with
     | JStr token =>
         let hashedToken := sha256_hex token in
         record (call_User_findOne "passwordResetToken" (JStr hashedToken)) ;;;
         us <- get_users ;;
         match find (reset_pending hashedToken now) us with
         | None =>
             ret (Next (AppError (str "Token is invalid or has expired") 400))
         | Some user =>
             let user' :=
               obj_set "passwordResetExpires" JUndefined
                 (obj_set "passwordResetToken" JUndefined
                    (obj_set "password" (obj_get "password" (req_body req))
                       user)) in
             saved <- User_save_hooked true now user' ;;
             ret (createSendToken E saved 200 now)
         end
     | _ => throw TypeError
     end).

(** [req.user.id] is the [_id] of the document; a user that is gone makes
    [user.correctPassword] a call on null. *)
Definition updatePassword (req : request) (now : Z) : world -> outcome * world :=
  catchAsync
    (found <- User_findById E (obj_get "_id" (req_user req)) ;;
     match found with
     | None => throw TypeError
     | Some user =>
         if negb (correctPassword E (obj_get "passwordCurrent" (req_body req))
                    (obj_get "password" user))
         then ret (Next (AppError (str "Your current password is wrong.") 401))
         else
           let user' :=
             obj_set "password" (obj_get "password" (req_body req)) user in
           saved <- User_save_hooked true now user' ;;
           ret (createSendToken E saved 200 now)
     end).

End Credentials.

(* ===================================================================== *)
(** ** The login form *)
(* ===================================================================== *)

(** [\S]: any code unit that [\s] does not match. *)
Definition non_space (c : N) : bool := negb (is_ws c).

(** The patterns the form needs: a class of code units, concatenation and
    one-or-more. *)
Inductive regex : Type :=
| Empty                                  (* matches nothing *)
| Eps                                    (* matches the empty string *)
| Class (p : N -> bool)
| Cat (r1 r2 : regex)
| Alt (r1 r2 : regex)
| Star (r : regex).

Definition Plus (r : regex) : regex := Cat r (Star r).
Definition Lit (c : N) : regex := Class (N.eqb c).

Fixpoint nullable (r : regex) : bool :=
  match r with
  | Empty => false
  | Eps => true
  | Class _ => false
  | Cat r1 r2 => nullable r1 && nullable r2
  | Alt r1 r2 => nullable r1 || nullable r2
  | Star _ => true
  end.

(** The pattern of what may follow [c]. *)
Fixpoint derive (c : N) (r : regex) : regex :=
  match r with
  | Empty => Empty
  | Eps => Empty
  | Class p => if p c then Eps else Empty
  | Cat r1 r2 =>
      if nullable r1
      then Alt (Cat (derive c r1) r2) (derive c r2)
      else Cat (derive c r1) r2
  | Alt r1 r2 => Alt (derive c r1) (derive c r2)
  | Star r1 => Cat (derive c r1) (Star r1)
  end.

Fixpoint matches (r : regex) (s : jsstring) : bool :=
  match s with
  | [] => nullable r
  | c :: s' => matches (derive c r) s'
  end.

(** [regex.test(s)] without anchors: some substring matches. *)
Definition regex_test (r : regex) (s : jsstring) : bool :=
  matches (Cat (Star (Class (fun _ => true)))
             (Cat r (Star (Class (fun _ => true))))) s.

(** [/\S+@\S+\.\S+/]. *)
Definition email_pattern : regex :=
  Cat (Plus (Class non_space))
    (Cat (Lit 64)
       (Cat (Plus (Class non_space))
          (Cat (Lit 46) (Plus (Class non_space))))).

(** [validateForm]: the errors it sets, and whether there are none.  The
    fields of the form are strings. *)
Definition validateForm (email password : jsstring) : obj * bool :=
  let e1 :=
    match email with
    | [] => [("email", JStr (str "Email is required"))]
    | _ => if negb (regex_test email_pattern email)
           then [("email", JStr (str "Invalid email format"))]
           else []
    end in
  let e2 :=
    match password with
    | [] => [("password", JStr (str "Password is required"))]
    | _ => if (Z.of_nat (List.length password) <? 6)
           then [("password",
                  JStr (str "Password must be at least 6 characters"))]
           else []
    end in
  let newErrors := e1 ++ e2 in
  (newErrors, Nat.eqb (List.length newErrors) 0).

Definition validateResetForm (resetEmail : jsstring) : obj * bool :=
  let newErrors :=
    match resetEmail with
    | [] => [("resetEmail", JStr (str "Email is required"))]
    | _ => if negb (regex_test email_pattern resetEmail)
           then [("resetEmail", JStr (str "Invalid email format"))]
           else []
    end in
  (newErrors, Nat.eqb (List.length newErrors) 0).

(* ===================================================================== *)
(** ** A test environment and fixtures *)
(* ===================================================================== *)

(** Test doubles for the collaborators: an ObjectId is written as 24
    hexadecimal digits, every document validates, passwords are kept as
    they are, no text is JSON, and a token lists its claims. *)
Definition hex_digit (c : N) : option N :=
  if (N.leb 48 c && N.leb c 57)%bool then Some (c - 48)%N
  else if (N.leb 97 c && N.leb c 102)%bool then Some (c - 87)%N
  else if (N.leb 65 c && N.leb c 70)%bool then Some (c - 55)%N
  else None.

Fixpoint hexadecimal (acc : N) (s : jsstring) : option N :=
  match s with
  | [] => Some acc
  | c :: s' =>
      match hex_digit c with
      | Some d => hexadecimal (acc * 16 + d)%N s'
      | None => None
      end
  end.

Definition test_env : Env := {|
  JSON_parse := fun _ => None;
  ToNumber_other := fun _ => None;
  castObjectId := fun s =>
    if Nat.eqb (List.length s) 24 then hexadecimal 0 s else None;
  User_validate := fun _ _ => true;
  Committee_validate := fun _ => true;
  hashPassword := fun v => v;
  correctPassword := fun candidate stored =>
    match candidate, stored with
    | JStr a, JStr b => jsstr_eqb a b
    | _, _ => false
    end;
  jwt_encode := fun c =>
    match jwt_id c with
    | JId n =>
        [74%N; n; Z.to_N (jwt_iat c);
         match jwt_exp c with Some e => N.succ (Z.to_N e) | None => 0%N end]
    | _ => []
    end;
  jwt_decode := fun t =>
    match t with
    | [74%N; n; i; e] =>
        Some {| jwt_id := JId n; jwt_iat := Z.of_N i;
                jwt_exp := if N.eqb e 0 then None
                           else Some (Z.of_N (N.pred e)) |}
    | _ => None
    end;
  JWT_EXPIRES_IN := Some 7776000
|}.

(** The same, with a committee schema that rejects every document. *)
Definition strict_env : Env := {|
  JSON_parse := JSON_parse test_env;
  ToNumber_other := ToNumber_other test_env;
  castObjectId := castObjectId test_env;
  User_validate := User_validate test_env;
  Committee_validate := fun _ => false;
  hashPassword := hashPassword test_env;
  correctPassword := correctPassword test_env;
  jwt_encode := jwt_encode test_env;
  jwt_decode := jwt_decode test_env;
  JWT_EXPIRES_IN := JWT_EXPIRES_IN test_env
|}.

Definition lit (s : string) : jsval := JStr (str s).

Definition alice : obj :=
  [("_id", JId 1); ("name", lit "Alice"); ("email", lit "alice@example.org");
   ("password", lit "wonderland"); ("role", lit "admin");
   ("employeeId", lit "E100"); ("department", lit "Procurement");
   ("designation", lit "Director"); ("isActive", JBool true);
   ("passwordChangedAt", JNum 2000)].

Definition bob : obj :=
  [("_id", JId 2); ("name", lit "Bob"); ("email", lit "bob@example.org");
   ("password", lit "builder"); ("role", lit "staff");
   ("employeeId", lit "E101"); ("department", lit "Finance");
   ("designation", lit "Officer"); ("isActive", JBool false)].

Definition review_board : obj :=
  [("_id", JId 10); ("name", lit "Review board"); ("purpose", lit "Bid review");
   ("members", JArr [snapshot alice]); ("createdBy", JId 1);
   ("formationLetter",
      JObj [("filename", lit "letter.pdf"); ("path", lit "uploads/letter.pdf")])].

Definition audit_panel : obj :=
  [("_id", JId 11); ("name", lit "Audit panel"); ("purpose", lit "Audit");
   ("members", JArr [snapshot alice; snapshot bob]); ("createdBy", JId 1);
   ("formationLetter", JNull)].

(** Their ids as a URL carries them; no document has the last one. *)
Definition alice_id : jsval := lit "000000000000000000000001".
Definition bob_id : jsval := lit "000000000000000000000002".
Definition review_board_id : jsval := lit "00000000000000000000000a".
Definition audit_panel_id : jsval := lit "00000000000000000000000b".
Definition unknown_id : jsval := lit "000000000000000000000063".

Definition world0 : world := {|
  users := [alice; bob];
  committees := [review_board; audit_panel];
  files := [str "uploads/letter.pdf"; str "uploads/new.pdf"];
  trace := []
|}.

Definition new_upload : upload := {|
  filename := str "new.pdf"; path := str "uploads/new.pdf";
  originalname := str "formation.pdf"; mimetype := str "application/pdf";
  size := 1024
|}.

(** A request of an authenticated user. *)
Definition request_of (user body params : obj) (f : option upload) : request := {|
  req_body := body; req_params := params; req_user := user; req_file := f;
  req_authorization := None; req_cookie_jwt := None
|}.

(** Requests of the examples. *)
Definition new_id : jsval := lit "00000000000000000000000c".

Definition create_request : request :=
  request_of alice
    [("name", lit "Tender board"); ("purpose", lit "Evaluation");
     ("members", JArr [lit "E100"; lit "E101"])]
    [] (Some new_upload).

Definition create_request_no_members : request :=
  request_of alice [("name", lit "Tender board")] [] None.

Definition by_id (id : jsval) : request :=
  request_of alice [] [("id", id)] None.

Definition alice_login : request :=
  request_of []
    [("email", lit "alice@example.org"); ("password", lit "wonderland")]
    [] None.

Definition forgot_request : request :=
  request_of [] [("email", lit "alice@example.org")] [] None.

Definition reset_request : request :=
  request_of [] [("password", lit "looking-glass")]
    [("token", JStr [9; 7]%N)] None.

Definition register_request : request :=
  request_of []
    [("name", lit "Carol"); ("email", lit "carol@example.org");
     ("password", lit "secret1"); ("role", lit "staff");
     ("employeeId", lit "E102")]
    [] None.

(** Test doubles for the user schema: the middleware stamps the change of
    password a second before the save, the digest of a string is the string
    reversed, and a reset token is good for ten minutes. *)
Definition test_preSave (now : Z) (d : obj) : obj :=
  obj_set "passwordChangedAt" (JNum (now - 1000)) d.

Definition test_sha256_hex (s : jsstring) : jsstring := rev s.

Definition test_createPasswordResetToken (random : N) (now : Z) (user : obj)
  : jsstring * obj :=
  let resetToken := [random; 7%N] in
  (resetToken,
   obj_set "passwordResetExpires" (JNum (now + 600000))
     (obj_set "passwordResetToken" (JStr (test_sha256_hex resetToken)) user)).

(* ===================================================================== *)
(** ** Vocabulary of the statements *)
(* ===================================================================== *)

(** The trace entry of the lookup the member loop makes for an identifier. *)
Definition member_lookup (employeeId : jsstring) : effect :=
  call_User_findOne "employeeId" (JStr employeeId).

(** A handler, or a step of one, that leaves the Committee collection as it
    found it. *)
Definition keeps_committees {B} (c : world -> B * world) : Prop :=
  forall w, committees (snd (c w)) = committees w.

(** The document that createCommittee gives to the mapper, for the member
    snapshots it has gathered. *)
Definition new_committee (req : request) (newId : N) (membersArray : list jsval)
  : obj :=
  [("_id", JId newId);
   ("name", obj_get "name" (req_body req));
   ("purpose", obj_get "purpose" (req_body req));
   ("formationDate", obj_get "formationDate" (req_body req));
   ("specificationSubmissionDate",
      obj_get "specificationSubmissionDate" (req_body req));
   ("reviewDate", obj_get "reviewDate" (req_body req));
   ("schedule", obj_get "schedule" (req_body req));
   ("members", JArr membersArray);
   ("createdBy", obj_get "_id" (req_user req));
   ("formationLetter", formationLetter_of (req_file req))].

(** What [fs.unlink] of the upload of a request leaves in storage. *)
Definition without_upload (req : request) (fs : list jsstring) : list jsstring :=
  match req_file req with
  | Some f => remove_path (path f) fs
  | None => fs
  end.

(** The value of [committee.formationLetter && committee.formationLetter.path]
    when the first operand is truthy, and undefined otherwise. *)
Definition letter_path (committee : obj) : jsval :=
  let formationLetter := obj_get "formationLetter" committee in
  if truthy formationLetter
  then match prop "path" formationLetter with
       | Ok p => p
       | Throw _ => JUndefined
       end
  else JUndefined.

(** The user as resetPassword hands it to [save]: the new password set
    and the two reset fields undefined. *)
Definition reset_fields_cleared_doc (password : jsval) (user : obj) : obj :=
  obj_set "passwordResetExpires" JUndefined
    (obj_set "passwordResetToken" JUndefined
       (obj_set "password" password user)).

(** The strings a pattern stands for. *)
Inductive lang : regex -> jsstring -> Prop :=
| lang_eps : lang Eps []
| lang_class (p : N -> bool) (c : N) : p c = true -> lang (Class p) [c]
| lang_cat (r1 r2 : regex) (s1 s2 : jsstring) :
    lang r1 s1 -> lang r2 s2 -> lang (Cat r1 r2) (s1 ++ s2)
| lang_alt_l (r1 r2 : regex) (s : jsstring) : lang r1 s -> lang (Alt r1 r2) s
| lang_alt_r (r1 r2 : regex) (s : jsstring) : lang r2 s -> lang (Alt r1 r2) s
| lang_star_nil (r : regex) : lang (Star r) []
| lang_star_cons (r : regex) (s1 s2 : jsstring) :
    lang r s1 -> lang (Star r) s2 -> lang (Star r) (s1 ++ s2).

(** A run of one or more code units that are not white space. *)
Definition word (s : jsstring) : Prop :=
  s <> [] /\ forallb non_space s = true.

(** What [/\S+@\S+\.\S+/] looks for: somewhere in the string, a word, an
    at sign, a word, a dot, a word. *)
Definition email_like (s : jsstring) : Prop :=
  exists pre x y z post,
    s = pre ++ x ++ [64%N] ++ y ++ [46%N] ++ z ++ post
    /\ word x /\ word y /\ word z.

(** No two documents of a collection share an [_id]. *)
Definition unique_ids (docs : list obj) : Prop :=
  NoDup (map (obj_get "_id") docs).

(** The same for any part [f] of the world. *)
Definition preserves {X B} (f : world -> X) (c : world -> B * world) : Prop :=
  forall w, f (snd (c w)) = f w.

(* ===================================================================== *)
(** * Properties *)
(* ===================================================================== *)

(** ** Strings *)

Lemma jsstr_eqb_eq (a b : jsstring) : jsstr_eqb a b = true <-> a = b.
Proof.
  revert b. induction a as [|x a IH]; intros [|y b]; simpl;
    try (split; [discriminate | congruence]); try tauto.
  rewrite andb_true_iff, N.eqb_eq, IH. split.
  - intros [-> ->]. reflexivity.
  - intros H. injection H as -> ->. auto.
Qed.

Lemma jsstr_eqb_refl (a : jsstring) : jsstr_eqb a a = true.
Proof. apply jsstr_eqb_eq. reflexivity. Qed.

Lemma trimStart_nil_iff (s : jsstring) :
  trimStart s = [] <-> forallb is_ws s = true.
Proof.
  induction s as [|c s IH]; simpl.
  - tauto.
  - destruct (is_ws c); simpl.
    + exact IH.
    + split; discriminate.
Qed.

(** What [trimStart] leaves does not start with white space. *)
Lemma trimStart_head (s : jsstring) :
  match trimStart s with
  | [] => True
  | c :: _ => is_ws c = false
  end.
Proof.
  induction s as [|c s IH]; simpl.
  - exact I.
  - destruct (is_ws c) eqn:Hc.
    + exact IH.
    + exact Hc.
Qed.

Lemma forallb_rev {A} (f : A -> bool) (l : list A) :
  forallb f (rev l) = forallb f l.
Proof.
  induction l as [|x l IH]; simpl.
  - reflexivity.
  - rewrite forallb_app, IH. simpl. rewrite andb_true_r. apply andb_comm.
Qed.

(** [id.trim() === ''] exactly when every code unit is white space. *)
Lemma trim_nil_iff (s : jsstring) :
  trim s = [] <-> forallb is_ws s = true.
Proof.
  unfold trim, trimEnd. split.
  - intros H.
    assert (H1 : trimStart (rev (trimStart s)) = []).
    { destruct (trimStart (rev (trimStart s))) as [|c l]; [reflexivity|].
      simpl in H. destruct (rev l); discriminate. }
    apply trimStart_nil_iff in H1. rewrite forallb_rev in H1.
    apply trimStart_nil_iff.
    pose proof (trimStart_head s) as Hh.
    destruct (trimStart s) as [|c t]; [reflexivity|].
    simpl in H1. rewrite Hh in H1. discriminate.
  - intros H. apply trimStart_nil_iff in H. rewrite H. reflexivity.
Qed.

(** ** Objects *)

Lemma obj_get_set (k k' : string) (v : jsval) (o : obj) :
  obj_get k (obj_set k' v o) = if String.eqb k k' then v else obj_get k o.
Proof.
  induction o as [|[k0 v0] o IH]; simpl.
  - reflexivity.
  - destruct (String.eqb k' k0) eqn:E0; simpl.
    + destruct (String.eqb k k') eqn:E1.
      * reflexivity.
      * apply String.eqb_eq in E0. subst k0. rewrite E1. reflexivity.
    + destruct (String.eqb k k0) eqn:E2.
      * apply String.eqb_eq in E2. subst k0.
        rewrite String.eqb_sym in E0. rewrite E0. reflexivity.
      * exact IH.
Qed.

Lemma obj_get_set_other (k k' : string) (v : jsval) (o : obj) :
  k <> k' -> obj_get k (obj_set k' v o) = obj_get k o.
Proof.
  intros H. rewrite obj_get_set.
  destruct (String.eqb k k') eqn:E; [apply String.eqb_eq in E; contradiction|].
  reflexivity.
Qed.

(** [Object.assign] leaves alone what the source does not name. *)
Lemma Object_assign_other (k : string) (source target : obj) :
  ~ In k (map fst source) ->
  obj_get k (Object_assign target source) = obj_get k target.
Proof.
  unfold Object_assign. revert target.
  induction source as [|[k0 v0] source IH]; intros target H; simpl.
  - reflexivity.
  - simpl in H. rewrite IH by tauto.
    apply obj_get_set_other. intros ->. tauto.
Qed.

Lemma obj_set_keys (k k' : string) (v : jsval) (o : obj) :
  In k (map fst (obj_set k' v o)) -> k = k' \/ In k (map fst o).
Proof.
  induction o as [|[k0 v0] o IH]; simpl.
  - intros [H|[]]. auto.
  - destruct (String.eqb k' k0) eqn:E0; simpl.
    + intros [H|H]; auto.
    + intros [H|H]; auto. destruct (IH H); auto.
Qed.

(** The keys that survive the deletion of undefined entries of a literal
    built from the body are keys of the literal that the body defines. *)
Lemma delete_undefined_pick_keys (k : string) (body : obj) (keys : list string) :
  In k (map fst (delete_undefined (pick body keys))) ->
  In k keys /\ obj_get k body <> JUndefined.
Proof.
  unfold delete_undefined, pick.
  induction keys as [|k0 keys IH]; simpl.
  - tauto.
  - destruct (is_undefined (obj_get k0 body)) eqn:Hu; simpl.
    + intros H. destruct (IH H). auto.
    + intros [<-|H].
      * split; [auto|]. intros Heq. rewrite Heq in Hu. discriminate.
      * destruct (IH H). auto.
Qed.

(** ** Collections *)

Lemma has_id_inj (n m : N) (d : obj) :
  has_id n d = true -> has_id m d = true -> n = m.
Proof.
  unfold has_id. destruct (obj_get "_id" d); try discriminate.
  rewrite !N.eqb_eq. congruence.
Qed.

Lemma has_id_of (n : N) (d : obj) : obj_get "_id" d = JId n -> has_id n d = true.
Proof. unfold has_id. intros ->. apply N.eqb_refl. Qed.

Lemma find_has_id (n : N) (docs : list obj) (d : obj) :
  find (has_id n) docs = Some d -> obj_get "_id" d = JId n.
Proof.
  intros H. apply find_some in H as [_ H]. unfold has_id in H.
  destruct (obj_get "_id" d); try discriminate.
  apply N.eqb_eq in H. congruence.
Qed.

Lemma find_store_put_same (n : N) (doc : obj) (docs : list obj) :
  has_id n doc = true -> find (has_id n) (store_put n doc docs) = Some doc.
Proof.
  intros H. induction docs as [|d ds IH]; simpl.
  - rewrite H. reflexivity.
  - destruct (has_id n d) eqn:Hd; simpl.
    + rewrite H. reflexivity.
    + rewrite Hd. exact IH.
Qed.

Lemma find_store_put_other (n m : N) (doc : obj) (docs : list obj) :
  n <> m -> has_id m doc = true ->
  find (has_id n) (store_put m doc docs) = find (has_id n) docs.
Proof.
  intros Hne Hdoc.
  assert (Hn : forall d, has_id m d = true -> has_id n d = false).
  { intros d Hd. destruct (has_id n d) eqn:Hnd; [|reflexivity].
    elim Hne. eapply has_id_inj; eassumption. }
  induction docs as [|d ds IH]; simpl.
  - rewrite (Hn doc Hdoc). reflexivity.
  - destruct (has_id m d) eqn:Hd; simpl.
    + rewrite (Hn doc Hdoc), (Hn d Hd). reflexivity.
    + destruct (has_id n d); [reflexivity | exact IH].
Qed.

Lemma store_remove_length (n : N) (docs : list obj) (d : obj) :
  find (has_id n) docs = Some d ->
  S (List.length (store_remove n docs)) = List.length docs.
Proof.
  induction docs as [|d0 ds IH]; simpl.
  - discriminate.
  - destruct (has_id n d0); simpl.
    + reflexivity.
    + intros H. rewrite IH by exact H. reflexivity.
Qed.

(** ** Worlds *)

Lemma emit_emit (w : world) (a b : list effect) :
  emit (emit w a) b = emit w (a ++ b).
Proof. unfold emit. simpl. rewrite app_assoc. reflexivity. Qed.

Lemma emit_nil (w : world) : emit w [] = w.
Proof. destruct w. unfold emit. simpl. rewrite app_nil_r. reflexivity. Qed.

(** ** Handlers that leave the Committee collection alone *)

Lemma keeps_ret {A} (a : A) : keeps_committees (ret a).
Proof. intros w. reflexivity. Qed.

Lemma keeps_throw {A} (e : exn) : keeps_committees (@throw A e).
Proof. intros w. reflexivity. Qed.

Lemma keeps_lift {A} (r : result A) : keeps_committees (lift r).
Proof. intros w. reflexivity. Qed.

Lemma keeps_const {B} (b : B) : keeps_committees (fun w => (b, w)).
Proof. intros w. reflexivity. Qed.

Lemma keeps_record (e : effect) : keeps_committees (record e).
Proof. intros w. reflexivity. Qed.

Lemma keeps_set_users (us : list obj) : keeps_committees (set_users us).
Proof. intros w. reflexivity. Qed.

Lemma keeps_set_files (fs : list jsstring) : keeps_committees (set_files fs).
Proof. intros w. reflexivity. Qed.

Lemma keeps_get_users : keeps_committees get_users.
Proof. intros w. reflexivity. Qed.

Lemma keeps_bind {A B} (m : M A) (f : A -> M B) :
  keeps_committees m -> (forall a, keeps_committees (f a)) ->
  keeps_committees (bind m f).
Proof.
  intros Hm Hf w. unfold bind. specialize (Hm w).
  destruct (m w) as [[a|e] w']; simpl in *.
  - rewrite Hf. exact Hm.
  - exact Hm.
Qed.

Lemma keeps_try_catch {A} (m : M A) (h : exn -> world -> A * world) :
  keeps_committees m -> (forall e, keeps_committees (h e)) ->
  keeps_committees (try_catch m h).
Proof.
  intros Hm Hh w. unfold try_catch. specialize (Hm w).
  destruct (m w) as [[a|e] w']; simpl in *.
  - exact Hm.
  - rewrite Hh. exact Hm.
Qed.

Create HintDb frame.
#[local] Hint Resolve keeps_ret keeps_throw keeps_lift keeps_const keeps_record
  keeps_set_users keeps_set_files keeps_get_users : frame.

(** Walk down a handler: binds and handlers by the two lemmas above, the
    leaves by the hints, a [match] or [if] by cases. *)
Ltac frame :=
  repeat first
    [ progress auto with frame
    | apply keeps_bind
    | apply keeps_try_catch
    | progress cbv beta zeta
    | match goal with
      | |- forall _, _ => intro
      | |- keeps_committees (match ?x with _ => _ end) => destruct x
      | |- keeps_committees (if ?x then _ else _) => destruct x
      end ].

Lemma keeps_User_findOne (p : string) (v : jsval) :
  keeps_committees (User_findOne p v).
Proof. unfold User_findOne. frame. Qed.

Lemma keeps_User_findById (E : Env) (v : jsval) :
  keeps_committees (User_findById E v).
Proof. unfold User_findById. frame. Qed.

Lemma keeps_User_create (E : Env) (n : N) (fields : obj) :
  keeps_committees (User_create E n fields).
Proof. unfold User_create. frame. Qed.

Lemma keeps_User_save (E : Env) (doc : obj) :
  keeps_committees (User_save E doc).
Proof. unfold User_save. frame. Qed.

Lemma keeps_User_findByIdAndDelete (E : Env) (v : jsval) :
  keeps_committees (User_findByIdAndDelete E v).
Proof. unfold User_findByIdAndDelete. frame. Qed.

#[local] Hint Resolve keeps_User_findOne keeps_User_findById keeps_User_create
  keeps_User_save keeps_User_findByIdAndDelete : frame.

Lemma keeps_register (E : Env) (req : request) (n : N) (now : Z) :
  keeps_committees (register E req n now).
Proof. unfold register, catchAsync. frame. Qed.

Lemma keeps_login (E : Env) (req : request) (now : Z) :
  keeps_committees (login E req now).
Proof. unfold login, catchAsync. frame. Qed.

Lemma keeps_protect (E : Env) (req : request) (now : Z) :
  keeps_committees (protect E req now).
Proof. unfold protect. frame. Qed.

Lemma keeps_updateUser (E : Env) (req : request) :
  keeps_committees (updateUser E req).
Proof. unfold updateUser. frame. Qed.

Lemma keeps_updateMe (E : Env) (req : request) :
  keeps_committees (updateMe E req).
Proof. unfold updateMe. frame. Qed.

Lemma keeps_deleteUser (E : Env) (req : request) :
  keeps_committees (deleteUser E req).
Proof. unfold deleteUser. frame. Qed.

(** ** Member identifiers *)

Lemma valid_member_id_false_iff (v : jsval) :
  valid_member_id v = false <->
  (forall s, v <> JStr s) \/ (exists s, v = JStr s /\ forallb is_ws s = true).
Proof.
  split.
  - destruct v; simpl; intros H; try (left; intros s0; discriminate).
    right. exists s. split; [reflexivity|].
    apply negb_false_iff, jsstr_eqb_eq in H. apply trim_nil_iff. exact H.
  - intros [H | [s [-> H]]].
    + destruct v; try reflexivity. elim (H s). reflexivity.
    + simpl. apply trim_nil_iff in H. rewrite H. reflexivity.
Qed.

Lemma forallb_false_of {A} (f : A -> bool) (l : list A) (x : A) :
  In x l -> f x = false -> forallb f l = false.
Proof.
  intros Hin Hx. destruct (forallb f l) eqn:H; [|reflexivity].
  rewrite forallb_forall in H. rewrite (H x Hin) in Hx. discriminate.
Qed.

Lemma strings_of_map (l : list jsstring) : strings_of (map JStr l) = l.
Proof.
  unfold strings_of. induction l as [|x l IH]; simpl.
  - reflexivity.
  - rewrite IH. reflexivity.
Qed.

Lemma obj_get_delete_undefined_pick_gen (k : string) (body : obj) (keys : list string) :
  obj_get k (delete_undefined (pick body keys)) =
  if existsb (String.eqb k) keys then obj_get k body else JUndefined.
Proof.
  unfold delete_undefined, pick.
  induction keys as [|k0 keys IH]; simpl.
  - reflexivity.
  - destruct (is_undefined (obj_get k0 body)) eqn:Hu; simpl.
    + rewrite IH. destruct (String.eqb k k0) eqn:Ek; simpl.
      * apply String.eqb_eq in Ek. subst k0.
        destruct (obj_get k body); try discriminate.
        destruct (existsb (String.eqb k) keys); reflexivity.
      * reflexivity.
    + destruct (String.eqb k k0) eqn:Ek; simpl.
      * apply String.eqb_eq in Ek. subst k0. reflexivity.
      * exact IH.
Qed.

Lemma obj_get_delete_undefined_pick (k : string) (body : obj) (keys : list string) :
  In k keys -> obj_get k (delete_undefined (pick body keys)) = obj_get k body.
Proof.
  intros Hin. rewrite obj_get_delete_undefined_pick_gen.
  assert (H : existsb (String.eqb k) keys = true).
  { apply existsb_exists. exists k. split; [exact Hin | apply String.eqb_refl]. }
  rewrite H. reflexivity.
Qed.

(** The loop stops at the first identifier without a user, having looked up
    the identifiers before it and that one. *)
Lemma resolve_members_stops (pre post : list jsstring) (e : jsstring) :
  forall (acc : list jsval) (w : world),
    (forall x, In x pre -> find (has_str "employeeId" x) (users w) <> None) ->
    find (has_str "employeeId" e) (users w) = None ->
    resolve_members (pre ++ e :: post) acc w =
      (Ok (inl (Next (AppError (not_found_message e) 404))),
       emit w (map member_lookup (pre ++ [e]))).
Proof.
  induction pre as [|x pre IH]; intros acc w Hpre He; simpl.
  - unfold bind, User_findOne, bind, record, get_users, ret. simpl.
    rewrite He. reflexivity.
  - unfold bind at 1. unfold User_findOne, bind, record, get_users, ret. simpl.
    destruct (find (has_str "employeeId" x) (users w)) as [u|] eqn:Hx.
    + rewrite IH.
      * rewrite emit_emit. reflexivity.
      * intros y Hy. simpl. apply Hpre. right. exact Hy.
      * exact He.
    + elim (Hpre x); [left; reflexivity | exact Hx].
Qed.

(** ** createCommittee and updateCommittee: the member list *)

(** C1 (as amended).  When the member list of a createCommittee request
    resolves to identifiers that are all non-empty strings, and one of them
    has no User while all before it have one, the request fails with
    AppError 404 whose message names that identifier; the loop has made
    its lookups and nothing else: the Committee collection is as before and
    no save was attempted. *)
Theorem createCommittee_unresolved_member_404 :
  forall (E : Env) (req : request) (newId : N) (w : world)
         (pre post : list jsstring) (e : jsstring),
    has_members E (obj_get "members" (req_body req)) = true ->
    memberIds_of E (obj_get "members" (req_body req))
      = Ok (map JStr (pre ++ e :: post)) ->
    forallb valid_member_id (map JStr (pre ++ e :: post)) = true ->
    (forall x, In x pre -> find (has_str "employeeId" x) (users w) <> None) ->
    find (has_str "employeeId" e) (users w) = None ->
    createCommittee E req newId w =
      (Next (AppError (str "User with employee ID " ++ e ++ str " not found")%list
               404),
       emit w (map member_lookup (pre ++ [e])))
    /\ committees (snd (createCommittee E req newId w)) = committees w
    /\ ~ In call_Committee_save (map member_lookup (pre ++ [e])).
Proof.
  intros E req newId w pre post e Hhas Hids Hvalid Hpre He.
  assert (Hrun : createCommittee E req newId w =
      (Next (AppError (not_found_message e) 404),
       emit w (map member_lookup (pre ++ [e])))).
  { unfold createCommittee, try_catch. unfold bind at 1. rewrite Hhas.
    unfold process_members. unfold bind at 1. unfold lift. rewrite Hids.
    rewrite Hvalid. change (negb true) with false. cbv iota.
    rewrite strings_of_map, resolve_members_stops by assumption.
    reflexivity. }
  rewrite Hrun. split; [reflexivity|]. split; [reflexivity|].
  intros Hin. apply in_map_iff in Hin as [x [Hx _]]. discriminate.
Qed.

Lemma createCommittee_unresolved_member_404_witness :
  createCommittee test_env
    (request_of alice
       [("name", lit "Panel");
        ("members", JArr [lit "E100"; lit "E404"; lit "E101"])] [] None)
    12 world0 =
    (Next (AppError (str "User with employee ID E404 not found") 404),
     emit world0 [member_lookup (str "E100"); member_lookup (str "E404")])
  /\ committees
       (snd (createCommittee test_env
               (request_of alice
                  [("name", lit "Panel");
                   ("members", JArr [lit "E100"; lit "E404"; lit "E101"])]
                  [] None)
               12 world0)) = committees world0
  /\ ~ In call_Committee_save
         [member_lookup (str "E100"); member_lookup (str "E404")].
Proof.
  apply (createCommittee_unresolved_member_404 test_env
           (request_of alice
              [("name", lit "Panel");
               ("members", JArr [lit "E100"; lit "E404"; lit "E101"])] [] None)
           12 world0 [str "E100"] [str "E101"] (str "E404")).
  - vm_compute. reflexivity.
  - vm_compute. reflexivity.
  - vm_compute. reflexivity.
  - intros x [<-|[]]. vm_compute. discriminate.
  - vm_compute. reflexivity.
Defined.

(** C1 as stated fails twice over.  A list that holds an identifier without
    a User and a blank identifier is refused with 400 before any lookup;
    and of two identifiers without a User only the first is named. *)
Lemma createCommittee_unresolved_member_not_always_named :
  (find (has_str "employeeId" (str "E404")) (users world0) = None
   /\ createCommittee test_env
        (request_of alice
           [("name", lit "Panel"); ("members", JArr [lit "E404"; lit "  "])]
           [] None)
        12 world0 =
      (Next (AppError (str "All member IDs must be non-empty strings") 400),
       world0))
  /\
  (find (has_str "employeeId" (str "E405")) (users world0) = None
   /\ fst (createCommittee test_env
             (request_of alice
                [("name", lit "Panel");
                 ("members", JArr [lit "E404"; lit "E405"])]
                [] None)
             12 world0) =
      Next (AppError (str "User with employee ID E404 not found") 404)).
Proof. vm_compute. repeat split. Qed.

Lemma Committee_findById_run (E : Env) (id : jsval) (w : world) :
  Committee_findById E id w =
    (find_by_id E id (committees w), emit w [call_Committee_findById id]).
Proof. reflexivity. Qed.

Lemma User_findById_run (E : Env) (id : jsval) (w : world) :
  User_findById E id w =
    (find_by_id E id (users w), emit w [call_User_findById id]).
Proof. reflexivity. Qed.

(** C2 (as amended).  When the non-empty member list of a request resolves
    to identifiers of which one is not a string, or is empty or all white
    space, createCommittee fails with AppError 400 having called nothing at
    all, and updateCommittee on a committee that exists fails with AppError
    400 having fetched that committee and made no lookup in the User
    collection for the list. *)
Theorem invalid_member_id_400 :
  forall (E : Env) (req : request) (w : world) (ids : list jsval) (bad : jsval),
    has_members E (obj_get "members" (req_body req)) = true ->
    memberIds_of E (obj_get "members" (req_body req)) = Ok ids ->
    In bad ids ->
    ((forall s, bad <> JStr s)
     \/ (exists s, bad = JStr s /\ forallb is_ws s = true)) ->
    (forall newId,
        createCommittee E req newId w =
          (Next (AppError (str "All member IDs must be non-empty strings") 400),
           w))
    /\
    (forall committee,
        find_by_id E (obj_get "id" (req_params req)) (committees w)
          = Ok (Some committee) ->
        updateCommittee E req w =
          (Next (AppError (str "All member IDs must be non-empty strings") 400),
           emit w [call_Committee_findById (obj_get "id" (req_params req));
                   call_populate])).
Proof.
  intros E req w ids bad Hhas Hids Hin Hbad.
  assert (Hall : forallb valid_member_id ids = false).
  { apply forallb_false_of with bad; [exact Hin|].
    apply valid_member_id_false_iff. exact Hbad. }
  split.
  - intros newId.
    unfold createCommittee, try_catch. unfold bind at 1. rewrite Hhas.
    unfold process_members. unfold bind at 1. unfold lift. rewrite Hids.
    rewrite Hall. reflexivity.
  - intros committee Hfound.
    unfold updateCommittee, try_catch. unfold bind at 1.
    rewrite Committee_findById_run, Hfound.
    unfold bind at 1. unfold record at 1. unfold bind at 1.
    rewrite obj_get_delete_undefined_pick by (simpl; tauto).
    rewrite Hhas.
    unfold bind at 1. unfold process_members. unfold bind at 1. unfold lift.
    rewrite Hids, Hall. simpl. rewrite emit_emit. reflexivity.
Qed.

Lemma invalid_member_id_400_witness :
  createCommittee test_env
    (request_of alice
       [("members", JArr [lit "E100"; JObj [("employeeId", lit "   ")]])]
       [("id", review_board_id)] None)
    12 world0 =
    (Next (AppError (str "All member IDs must be non-empty strings") 400),
     world0)
  /\
  updateCommittee test_env
    (request_of alice
       [("members", JArr [lit "E100"; JObj [("employeeId", lit "   ")]])]
       [("id", review_board_id)] None)
    world0 =
    (Next (AppError (str "All member IDs must be non-empty strings") 400),
     emit world0 [call_Committee_findById (review_board_id); call_populate]).
Proof.
  assert (H1 : has_members test_env
                 (JArr [lit "E100"; JObj [("employeeId", lit "   ")]]) = true)
    by (vm_compute; reflexivity).
  assert (H2 : memberIds_of test_env
                 (JArr [lit "E100"; JObj [("employeeId", lit "   ")]])
               = Ok [lit "E100"; lit "   "])
    by (vm_compute; reflexivity).
  assert (H3 : In (lit "   ") [lit "E100"; lit "   "])
    by (right; left; reflexivity).
  assert (H4 : (forall s, lit "   " <> JStr s)
               \/ (exists s, lit "   " = JStr s /\ forallb is_ws s = true))
    by (right; exists (str "   "); split; reflexivity).
  destruct (invalid_member_id_400 test_env
              (request_of alice
                 [("members",
                   JArr [lit "E100"; JObj [("employeeId", lit "   ")]])]
                 [("id", review_board_id)] None)
              world0 [lit "E100"; lit "   "] (lit "   ") H1 H2 H3 H4)
    as [Hcreate Hupdate].
  split.
  - apply Hcreate.
  - apply (Hupdate review_board). vm_compute. reflexivity.
Defined.

(** C2 as stated fails for updateCommittee: with a blank member identifier
    and an id that no committee has, the request fails with 404. *)
Lemma updateCommittee_invalid_member_unknown_committee_404 :
  has_members test_env (JArr [lit ""]) = true
  /\ memberIds_of test_env (JArr [lit ""]) = Ok [lit ""]
  /\ valid_member_id (lit "") = false
  /\ updateCommittee test_env
       (request_of alice [("members", JArr [lit ""])] [("id", unknown_id)] None)
       world0 =
     (Next (AppError (str "No committee found with that ID") 404),
      emit world0 [call_Committee_findById (unknown_id)]).
Proof. vm_compute. repeat split. Qed.

(** ** createCommittee: the uploaded file *)

(** C5, at three requests that carry an upload already in storage.  A blank
    member identifier (400) and an identifier without a User (404) leave by
    an early return: the file stays and fs.unlink is never called.  A save
    that the store rejects is thrown into the catch block, which does unlink
    the file. *)
Theorem createCommittee_early_return_keeps_upload :
  In (path new_upload) (files world0)
  /\ createCommittee test_env
       (request_of alice [("name", lit "Panel"); ("members", JArr [lit ""])]
          [] (Some new_upload))
       12 world0 =
     (Next (AppError (str "All member IDs must be non-empty strings") 400),
      world0)
  /\ createCommittee test_env
       (request_of alice [("name", lit "Panel"); ("members", JArr [lit "E404"])]
          [] (Some new_upload))
       12 world0 =
     (Next (AppError (str "User with employee ID E404 not found") 404),
      emit world0 [member_lookup (str "E404")])
  /\ createCommittee strict_env
       (request_of alice [("name", lit "Panel"); ("members", JArr [lit "E100"])]
          [] (Some new_upload))
       12 world0 =
     (Next (Thrown ValidationError),
      {| users := users world0; committees := committees world0;
         files := [str "uploads/letter.pdf"];
         trace := [member_lookup (str "E100"); call_Committee_save;
                   call_fs_unlink (path new_upload)] |}).
Proof. vm_compute. repeat split. right. left. reflexivity. Qed.

(** ** protect *)

(** C3.  When the token that the guard reads from a request carries valid
    claims, those claims resolve to a stored user, and the token was issued
    before that user's last password change, protect passes an AppError 401
    to next, whether the token has expired or not; when it has not, the
    error is the password-change one. *)
Theorem protect_rejects_token_issued_before_password_change :
  forall (E : Env) (req : request) (now : Z) (w : world)
         (token : jsstring) (decoded : claims) (user : obj) (changed : Z),
    request_token req = Some token ->
    jwt_decode E token = Some decoded ->
    find_by_id E (jwt_id decoded) (users w) = Ok (Some user) ->
    obj_get "passwordChangedAt" user = JNum changed ->
    jwt_iat decoded < changed ->
    (exists message, fst (protect E req now w) = Next (AppError message 401))
    /\ (jwt_verify E token now = Ok decoded ->
        token <> [] ->
        fst (protect E req now w) =
          Next (AppError (str "Password changed - please log in again") 401)).
Proof.
  intros E req now w token decoded user changed Htok Hdec Hfind Hch Hlt.
  assert (Hcpa : changedPasswordAfter user (jwt_iat decoded) = true).
  { unfold changedPasswordAfter. rewrite Hch. apply Z.ltb_lt. exact Hlt. }
  assert (Hok : jwt_verify E token now = Ok decoded ->
                forall c t, token = c :: t ->
                fst (protect E req now w) =
                Next (AppError (str "Password changed - please log in again") 401)).
  { intros Hver c t ->. unfold protect. rewrite Htok.
    unfold try_catch. unfold bind at 1. unfold lift. rewrite Hver.
    unfold bind at 1. rewrite User_findById_run, Hfind, Hcpa. reflexivity. }
  split.
  - destruct token as [|c t].
    + unfold protect. rewrite Htok. eexists. reflexivity.
    + destruct (jwt_verify E (c :: t) now) as [d|x] eqn:Hver.
      * assert (d = decoded) as ->.
        { unfold jwt_verify in Hver. rewrite Hdec in Hver.
          destruct (jwt_exp decoded) as [ex|].
          - destruct (ex <=? now / 1000); congruence.
          - congruence. }
        eexists. apply (Hok eq_refl c t eq_refl).
      * unfold protect. rewrite Htok.
        unfold try_catch. unfold bind at 1. unfold lift. rewrite Hver.
        eexists. reflexivity.
  - intros Hver Hne. destruct token as [|c t]; [contradiction|].
    apply (Hok Hver c t eq_refl).
Qed.

Lemma protect_rejects_token_issued_before_password_change_witness :
  (exists message,
      fst (protect test_env
             {| req_body := []; req_params := []; req_user := [];
                req_file := None;
                req_authorization := Some (str "Bearer " ++ [74; 1; 1500; 0])%list%N;
                req_cookie_jwt := None |}
             9000000 world0) = Next (AppError message 401))
  /\ fst (protect test_env
            {| req_body := []; req_params := []; req_user := [];
               req_file := None;
               req_authorization := Some (str "Bearer " ++ [74; 1; 1500; 0])%list%N;
               req_cookie_jwt := None |}
            9000000 world0) =
       Next (AppError (str "Password changed - please log in again") 401).
Proof.
  assert (H1 : request_token
                 {| req_body := []; req_params := []; req_user := [];
                    req_file := None;
                    req_authorization :=
                      Some (str "Bearer " ++ [74; 1; 1500; 0])%list%N;
                    req_cookie_jwt := None |} = Some [74; 1; 1500; 0]%N)
    by (vm_compute; reflexivity).
  assert (H2 : jwt_decode test_env [74; 1; 1500; 0]%N
               = Some {| jwt_id := JId 1; jwt_iat := 1500; jwt_exp := None |})
    by (vm_compute; reflexivity).
  assert (H3 : find_by_id test_env (JId 1) (users world0) = Ok (Some alice))
    by (vm_compute; reflexivity).
  assert (H4 : obj_get "passwordChangedAt" alice = JNum 2000)
    by (vm_compute; reflexivity).
  assert (H5 : 1500 < 2000) by lia.
  destruct (protect_rejects_token_issued_before_password_change test_env
              {| req_body := []; req_params := []; req_user := [];
                 req_file := None;
                 req_authorization :=
                   Some (str "Bearer " ++ [74; 1; 1500; 0])%list%N;
                 req_cookie_jwt := None |}
              9000000 world0 [74; 1; 1500; 0]%N
              {| jwt_id := JId 1; jwt_iat := 1500; jwt_exp := None |}
              alice 2000 H1 H2 H3 H4 H5) as [Hany Hfresh].
  split.
  - exact Hany.
  - apply Hfresh.
    + vm_compute. reflexivity.
    + discriminate.
Defined.

(** ** login *)

Lemma User_findOne_run (p : string) (v : jsval) (w : world) :
  User_findOne p v w =
    (Ok (find_one p v (users w)), emit w [call_User_findOne p v]).
Proof. reflexivity. Qed.

(** C4 (as amended).  A login without an email or without a password fails
    with AppError 400 before the store is asked; with both, an email that
    is a string no stored user has, a wrong password and a deactivated
    account each fail with AppError 401; none of the four hands out a
    session token. *)
Theorem login_failures :
  forall (E : Env) (req : request) (now : Z) (w : world),
    let email := obj_get "email" (req_body req) in
    let password := obj_get "password" (req_body req) in
    let asked := emit w [call_User_findOne "email" email] in
    (truthy email = false \/ truthy password = false ->
     login E req now w =
       (Next (AppError (str "Please provide email and password!") 400), w))
    /\ (truthy email = true -> truthy password = true ->
        is_string email = true ->
        find_one "email" email (users w) = None ->
        login E req now w =
          (Next (AppError (str "Incorrect email or password") 401), asked))
    /\ (forall user,
        truthy email = true -> truthy password = true ->
        find_one "email" email (users w) = Some user ->
        correctPassword E password (obj_get "password" user) = false ->
        login E req now w =
          (Next (AppError (str "Incorrect email or password") 401), asked))
    /\ (forall user,
        truthy email = true -> truthy password = true ->
        find_one "email" email (users w) = Some user ->
        correctPassword E password (obj_get "password" user) = true ->
        truthy (obj_get "isActive" user) = false ->
        login E req now w =
          (Next (AppError (str "Your account has been deactivated") 401), asked))
    /\ (forall message statusCode,
        fst (login E req now w) = Next (AppError message statusCode) ->
        issued_token (fst (login E req now w)) = None).
Proof.
  intros E req now w email password asked.
  unfold login, catchAsync, try_catch. fold email. fold password.
  repeat split.
  - intros [H|H]; rewrite H; simpl; [|rewrite orb_true_r]; reflexivity.
  - intros He Hp _ Hf. rewrite He, Hp. simpl.
    unfold bind. rewrite User_findOne_run, Hf. reflexivity.
  - intros user He Hp Hf Hc. rewrite He, Hp. simpl.
    unfold bind. rewrite User_findOne_run, Hf, Hc. reflexivity.
  - intros user He Hp Hf Hc Ha. rewrite He, Hp. simpl.
    unfold bind. rewrite User_findOne_run, Hf, Hc, Ha. reflexivity.
  - intros message statusCode H. rewrite H. reflexivity.
Qed.

Lemma login_failures_witness :
  login test_env (request_of [] [("password", lit "wonderland")] [] None)
    0 world0 =
    (Next (AppError (str "Please provide email and password!") 400), world0)
  /\ fst (login test_env
            (request_of []
               [("email", lit "carol@example.org"); ("password", lit "x")]
               [] None)
            0 world0) =
       Next (AppError (str "Incorrect email or password") 401)
  /\ fst (login test_env
            (request_of []
               [("email", lit "alice@example.org"); ("password", lit "guess")]
               [] None)
            0 world0) =
       Next (AppError (str "Incorrect email or password") 401)
  /\ fst (login test_env
            (request_of []
               [("email", lit "bob@example.org"); ("password", lit "builder")]
               [] None)
            0 world0) =
       Next (AppError (str "Your account has been deactivated") 401)
  /\ issued_token
       (fst (login test_env
               (request_of []
                  [("email", lit "alice@example.org"); ("password", lit "guess")]
                  [] None)
               0 world0)) = None.
Proof.
  split; [|split; [|split; [|split]]].
  - apply (proj1 (login_failures test_env
                    (request_of [] [("password", lit "wonderland")] [] None)
                    0 world0)).
    left. reflexivity.
  - rewrite (proj1 (proj2 (login_failures test_env
                    (request_of []
                       [("email", lit "carol@example.org");
                        ("password", lit "x")] [] None)
                    0 world0)));
      vm_compute; reflexivity.
  - rewrite (proj1 (proj2 (proj2 (login_failures test_env
                    (request_of []
                       [("email", lit "alice@example.org");
                        ("password", lit "guess")] [] None)
                    0 world0))) alice);
      vm_compute; reflexivity.
  - rewrite (proj1 (proj2 (proj2 (proj2 (login_failures test_env
                    (request_of []
                       [("email", lit "bob@example.org");
                        ("password", lit "builder")] [] None)
                    0 world0)))) bob);
      vm_compute; reflexivity.
  - apply (proj2 (proj2 (proj2 (proj2 (login_failures test_env
                    (request_of []
                       [("email", lit "alice@example.org");
                        ("password", lit "guess")] [] None)
                    0 world0))))
             (str "Incorrect email or password") 401).
    vm_compute. reflexivity.
Defined.

(** C4 as stated fails on its first case: a login without an email is
    refused with status 400, not 401. *)
Lemma login_missing_email_is_400 :
  truthy (obj_get "email"
            (req_body (request_of [] [("password", lit "wonderland")] [] None)))
    = false
  /\ login test_env (request_of [] [("password", lit "wonderland")] [] None)
       0 world0 =
     (Next (AppError (str "Please provide email and password!") 400), world0)
  /\ status_of
       (fst (login test_env
               (request_of [] [("password", lit "wonderland")] [] None)
               0 world0)) <> Some 401.
Proof. vm_compute. repeat split. discriminate. Qed.

(** ** deleteUser *)

Lemma find_has_id_in (n : N) (docs : list obj) (d : obj) :
  In d docs -> has_id n d = true -> exists d', find (has_id n) docs = Some d'.
Proof.
  intros Hin Hd. destruct (find (has_id n) docs) as [d'|] eqn:Hf.
  - exists d'. reflexivity.
  - rewrite (find_none _ _ Hf d Hin) in Hd. discriminate.
Qed.

(** C8.  A deleteUser request whose target id is the id of the requesting
    user, a stored user, fails with AppError 403 and the User collection is
    as before; a request whose target exists and is another user is answered
    with status 204 and the target's document is removed. *)
Theorem deleteUser_self_forbidden_other_deleted :
  forall (E : Env) (req : request) (w : world) (n : N),
    castId E (obj_get "userId" (req_params req)) = Ok (Some n) ->
    (obj_get "_id" (req_user req) = JId n ->
     In (req_user req) (users w) ->
     fst (deleteUser E req w) =
       Next (AppError (str "You cannot delete your own account") 403)
     /\ users (snd (deleteUser E req w)) = users w)
    /\
    (forall (m : N) (target : obj),
        find (has_id n) (users w) = Some target ->
        obj_get "_id" (req_user req) = JId m ->
        m <> n ->
        status_of (fst (deleteUser E req w)) = Some 204
        /\ users (snd (deleteUser E req w)) = store_remove n (users w)
        /\ S (List.length (users (snd (deleteUser E req w))))
           = List.length (users w)).
Proof.
  intros E req w n Hcast. split.
  - intros Hself Hin.
    destruct (find_has_id_in n (users w) (req_user req) Hin
                (has_id_of _ _ Hself)) as [u Hu].
    assert (Hrun : deleteUser E req w =
              (Next (AppError (str "You cannot delete your own account") 403),
               emit w [call_User_findById (obj_get "userId" (req_params req))])).
    { unfold deleteUser, try_catch. unfold bind at 1.
      rewrite User_findById_run. unfold find_by_id. rewrite Hcast, Hu.
      unfold bind at 1. unfold lift.
      rewrite (find_has_id _ _ _ Hu), Hself. simpl. rewrite N.eqb_refl.
      reflexivity. }
    rewrite Hrun. split; reflexivity.
  - intros m target Hfind Hreq Hne.
    assert (Hrun : deleteUser E req w =
              (Respond 204
                 (JObj [("status", JStr (str "SUCCESS"));
                        ("message", JStr (str "User deleted successfully"))])
                 [],
               {| users := store_remove n (users w);
                  committees := committees w; files := files w;
                  trace := (trace w
                            ++ [call_User_findById
                                  (obj_get "userId" (req_params req))])
                            ++ [call_User_findByIdAndDelete
                                  (obj_get "userId" (req_params req))] |})).
    { unfold deleteUser, try_catch. unfold bind at 1.
      rewrite User_findById_run. unfold find_by_id. rewrite Hcast, Hfind.
      unfold bind at 1. unfold lift.
      rewrite (find_has_id _ _ _ Hfind), Hreq. simpl.
      destruct (N.eqb n m) eqn:Enm; [apply N.eqb_eq in Enm; congruence|].
      unfold bind at 1. unfold User_findByIdAndDelete. unfold bind at 1.
      unfold record at 1. unfold bind at 1. unfold get_users at 1.
      rewrite Hcast. reflexivity. }
    rewrite Hrun. simpl. repeat split.
    apply store_remove_length with target. exact Hfind.
Qed.

Lemma deleteUser_self_forbidden_other_deleted_witness :
  (fst (deleteUser test_env (request_of alice [] [("userId", alice_id)] None)
          world0) =
     Next (AppError (str "You cannot delete your own account") 403)
   /\ users (snd (deleteUser test_env
                    (request_of alice [] [("userId", alice_id)] None) world0))
      = users world0)
  /\
  (status_of (fst (deleteUser test_env
                     (request_of alice [] [("userId", bob_id)] None) world0))
     = Some 204
   /\ users (snd (deleteUser test_env
                    (request_of alice [] [("userId", bob_id)] None) world0))
      = [alice]).
Proof.
  split.
  - apply (proj1 (deleteUser_self_forbidden_other_deleted test_env
                    (request_of alice [] [("userId", alice_id)] None)
                    world0 1%N eq_refl)).
    + reflexivity.
    + left. reflexivity.
  - destruct (proj2 (deleteUser_self_forbidden_other_deleted test_env
                       (request_of alice [] [("userId", bob_id)] None)
                       world0 2%N eq_refl) 1%N bob eq_refl eq_refl)
      as [Hs [Hu _]].
    + discriminate.
    + split; [exact Hs | exact Hu].
Defined.

(** ** register *)

(** C9 (as amended).  When the isActive value of a register request is
    absent, false or otherwise falsy, or is the boolean true, the expression
    [req.body.isActive || true] is true and so is the isActive flag of the
    user that a successful registration creates. *)
Theorem register_isActive_defaults_true :
  forall (E : Env) (req : request) (newId : N) (now : Z) (w : world),
    truthy (obj_get "isActive" (req_body req)) = false
    \/ obj_get "isActive" (req_body req) = JBool true ->
    js_or (obj_get "isActive" (req_body req)) (JBool true) = JBool true
    /\ (forall status json cookies,
        fst (register E req newId now w) = Respond status json cookies ->
        exists user,
          users (snd (register E req newId now w)) = users w ++ [user]
          /\ obj_get "_id" user = JId newId
          /\ obj_get "isActive" user = JBool true).
Proof.
  intros E req newId now w Hsupplied.
  assert (Hor : js_or (obj_get "isActive" (req_body req)) (JBool true)
                = JBool true).
  { unfold js_or. destruct Hsupplied as [H|H]; rewrite H; reflexivity. }
  split; [exact Hor|].
  set (created := new_user E newId (register_fields (req_body req))).
  assert (Hrun : register E req newId now w =
            if User_validate E (users w) created
            then (createSendToken E created 201 now,
                  {| users := users w ++ [created];
                     committees := committees w; files := files w;
                     trace := trace w ++ [call_User_create] |})
            else (Next (Thrown ValidationError), emit w [call_User_create])).
  { unfold register, catchAsync, try_catch. unfold bind at 1.
    unfold User_create. unfold bind at 1. unfold record at 1.
    unfold bind at 1. unfold get_users at 1. cbn [users emit].
    fold created. destruct (User_validate E (users w) created); reflexivity. }
  intros status json cookies. rewrite Hrun.
  destruct (User_validate E (users w) created).
  - intros _. exists created. split; [reflexivity|].
    split; [reflexivity|].
    unfold created, new_user. cbn [obj_get String.eqb Ascii.eqb Bool.eqb].
    rewrite obj_get_set_other by discriminate.
    unfold register_fields. cbn [obj_get String.eqb Ascii.eqb Bool.eqb].
    exact Hor.
  - discriminate.
Qed.

Lemma register_isActive_defaults_true_witness :
  js_or (JBool false) (JBool true) = JBool true
  /\ exists user,
      users (snd (register test_env
                    (request_of []
                       [("name", lit "Carol"); ("email", lit "carol@example.org");
                        ("password", lit "secret"); ("employeeId", lit "E102");
                        ("isActive", JBool false)] [] None)
                    3 0 world0)) = users world0 ++ [user]
      /\ obj_get "_id" user = JId 3
      /\ obj_get "isActive" user = JBool true.
Proof.
  destruct (register_isActive_defaults_true test_env
              (request_of []
                 [("name", lit "Carol"); ("email", lit "carol@example.org");
                  ("password", lit "secret"); ("employeeId", lit "E102");
                  ("isActive", JBool false)] [] None)
              3%N 0 world0 (or_introl eq_refl)) as [Hor Hcreated].
  split.
  - exact Hor.
  - eapply Hcreated. vm_compute. reflexivity.
Defined.

(** C9 as stated fails for a truthy value that is not the boolean true: with
    the string false, as a form field has it, the expression is that string
    and the created user carries it. *)
Lemma register_isActive_string_false_kept :
  js_or (lit "false") (JBool true) = lit "false"
  /\ users (snd (register test_env
                   (request_of []
                      [("name", lit "Carol"); ("email", lit "carol@example.org");
                       ("password", lit "secret"); ("employeeId", lit "E102");
                       ("isActive", lit "false")] [] None)
                   3 0 world0)) =
     users world0 ++
       [[("_id", JId 3); ("name", lit "Carol");
         ("email", lit "carol@example.org"); ("password", lit "secret");
         ("role", JUndefined); ("employeeId", lit "E102");
         ("department", JUndefined); ("phoneNumber", JUndefined);
         ("designation", JUndefined); ("isActive", lit "false");
         ("otpEnabled", JBool false)]]
  /\ lit "false" <> JBool true.
Proof. vm_compute. repeat split. discriminate. Qed.

(** ** createSendToken *)

(** C10 (as amended).  The token that createSendToken issues for a stored
    user carries no expiry claim, and the cookie beside it expires one day
    after the issue.  Given that the token library reads back what it
    signed, the token verifies at every later time, and protect, reading it
    from a request, never reports it invalid or expired: it refuses the
    token when the user is no longer stored, and otherwise exactly when the
    password-change check says so. *)
Theorem createSendToken_token_never_expires :
  forall (E : Env) (user : obj) (statusCode issued : Z) (n : N),
    obj_get "_id" user = JId n ->
    let c := {| jwt_id := JId n; jwt_iat := issued / 1000; jwt_exp := None |} in
    let token := jwt_encode E c in
    jwt_decode E token = Some c ->
    token <> [] ->
    createSendToken E user statusCode issued =
      Respond statusCode
        (JObj [("status", JStr (str "success"));
               ("token", JStr token);
               ("data",
                JObj [("user", JObj (obj_set "password" JUndefined user))])])
        [{| cookie_name := str "jwt"; cookie_value := token;
            cookie_expires := issued + 86400000; cookie_httpOnly := true |}]
    /\ jwt_exp c = None
    /\ (forall now, jwt_verify E token now = Ok c)
    /\ (forall req now w,
        request_token req = Some token ->
        fst (protect E req now w) =
          match find (has_id n) (users w) with
          | None => Next (AppError (str "User no longer exists") 401)
          | Some stored =>
              if changedPasswordAfter stored (issued / 1000)
              then Next (AppError
                           (str "Password changed - please log in again") 401)
              else NextHandler stored
          end).
Proof.
  intros E user statusCode issued n Hid c token Hdec Hne.
  assert (Hver : forall now, jwt_verify E token now = Ok c).
  { intros now. unfold jwt_verify. rewrite Hdec. reflexivity. }
  split; [|split; [|split]].
  - unfold createSendToken, jwt_sign. rewrite Hid. reflexivity.
  - reflexivity.
  - exact Hver.
  - intros req now w Htok. unfold protect. rewrite Htok.
    destruct token as [|u t] eqn:Etok; [contradiction|].
    unfold try_catch. unfold bind at 1. unfold lift. rewrite Hver.
    unfold bind at 1. rewrite User_findById_run. simpl.
    destruct (find (has_id n) (users w)) as [stored|]; [|reflexivity].
    destruct (changedPasswordAfter stored (issued / 1000)); reflexivity.
Qed.

Lemma createSendToken_token_never_expires_witness :
  issued_token (createSendToken test_env bob 200 1500000)
    = Some (JStr [74; 2; 1500; 0]%N)
  /\ (forall now, jwt_verify test_env [74; 2; 1500; 0]%N now
                  = Ok {| jwt_id := JId 2; jwt_iat := 1500; jwt_exp := None |})
  /\ fst (protect test_env
            {| req_body := []; req_params := []; req_user := [];
               req_file := None; req_authorization := None;
               req_cookie_jwt := Some [74; 2; 1500; 0]%N |}
            99999999999 world0) = NextHandler bob.
Proof.
  destruct (createSendToken_token_never_expires test_env bob 200 1500000 2%N
              eq_refl eq_refl) as [Hsend [_ [Hver Hguard]]].
  - discriminate.
  - split; [|split].
    + rewrite Hsend. reflexivity.
    + exact Hver.
    + rewrite (Hguard
                 {| req_body := []; req_params := []; req_user := [];
                    req_file := None; req_authorization := None;
                    req_cookie_jwt := Some [74; 2; 1500; 0]%N |}
                 99999999999 world0 eq_refl).
      reflexivity.
Defined.

(** C10 as stated fails on "solely": a token issued for a user who never
    changed a password is accepted, and refused once that user is deleted. *)
Lemma token_of_deleted_user_is_refused :
  issued_token (createSendToken test_env bob 200 1500000)
    = Some (JStr [74; 2; 1500; 0]%N)
  /\ obj_get "passwordChangedAt" bob = JUndefined
  /\ fst (protect test_env
            {| req_body := []; req_params := []; req_user := [];
               req_file := None; req_authorization := None;
               req_cookie_jwt := Some [74; 2; 1500; 0]%N |}
            1600000 world0) = NextHandler bob
  /\ fst (protect test_env
            {| req_body := []; req_params := []; req_user := [];
               req_file := None; req_authorization := None;
               req_cookie_jwt := Some [74; 2; 1500; 0]%N |}
            1600000
            (snd (deleteUser test_env
                    (request_of alice [] [("userId", bob_id)] None) world0)))
     = Next (AppError (str "User no longer exists") 401).
Proof. vm_compute. repeat split. Qed.

(** ** updateCommittee: what it writes *)

Lemma keeps_total {A} (f : world -> A * world) :
  keeps_committees f -> keeps_committees (total f).
Proof.
  intros Hf w. unfold total. specialize (Hf w).
  destruct (f w) as [a w']. exact Hf.
Qed.

Lemma keeps_resolve_members (ids : list jsstring) :
  forall acc, keeps_committees (resolve_members ids acc).
Proof. induction ids as [|x ids IH]; intros acc; simpl; frame. Qed.

Lemma keeps_process_members (E : Env) (members : jsval) :
  keeps_committees (process_members E members).
Proof.
  unfold process_members. frame. apply keeps_resolve_members.
Qed.

Lemma keeps_mail_members (createdBy : jsval) (members : list jsval) :
  keeps_committees (mail_members createdBy members).
Proof. induction members as [|m members IH]; simpl; unfold sendMail; frame. Qed.

Lemma keeps_sendCommitteeNotifications (committee : jsval) :
  keeps_committees (sendCommitteeNotifications committee).
Proof.
  unfold sendCommitteeNotifications. apply keeps_total. frame.
  apply keeps_mail_members.
Qed.

Lemma keeps_Committee_findById_populate (E : Env) (id : jsval) :
  keeps_committees (Committee_findById_populate E id).
Proof.
  unfold Committee_findById_populate, Committee_findById, get_committees. frame.
Qed.

#[local] Hint Resolve keeps_process_members keeps_sendCommitteeNotifications
  keeps_Committee_findById_populate : frame.

(** The step of updateCommittee between the whitelist and the assignment:
    it leaves the collection alone, and the updates it hands on carry keys
    of the whitelist only, [members] among them only for a truthy list. *)
Lemma update_members_step (E : Env) (allowed : obj) (w w' : world)
      (r : result (outcome + obj)) :
  (if has_members E (obj_get "members" allowed)
   then
     x <- process_members E (obj_get "members" allowed) ;;
     ret (match x with
          | inl early => inl early
          | inr membersArray =>
              inr (obj_set "members" (JArr membersArray) allowed)
          end)
   else ret (inr allowed)) w = (r, w') ->
  committees w' = committees w
  /\ forall updates, r = Ok (inr updates) ->
       forall k, In k (map fst updates) ->
         In k (map fst allowed)
         \/ (k = "members" /\ truthy (obj_get "members" allowed) = true).
Proof.
  destruct (has_members E (obj_get "members" allowed)) eqn:Hhas.
  - unfold bind.
    pose proof (keeps_process_members E (obj_get "members" allowed) w) as Hk.
    destruct (process_members E (obj_get "members" allowed) w)
      as [[[early|arr]|e] w1]; simpl in Hk; unfold ret;
      intros H; injection H as <- <-; (split; [exact Hk|]);
      intros updates Hr; try discriminate.
    injection Hr as <-. intros k Hin.
    apply obj_set_keys in Hin as [->|Hin]; [right | left; exact Hin].
    split; [reflexivity|].
    unfold has_members in Hhas. apply andb_true_iff in Hhas. tauto.
  - unfold ret. intros H. injection H as <- <-. split; [reflexivity|].
    intros updates Hr. injection Hr as <-. intros k Hin. left. exact Hin.
Qed.

Lemma Committee_save_run (E : Env) (doc : obj) (n : N) (w : world) :
  obj_get "_id" doc = JId n ->
  Committee_save E doc w =
    if Committee_validate E doc
    then (Ok tt, {| users := users w;
                    committees := store_put n doc (committees w);
                    files := files w;
                    trace := trace w ++ [call_Committee_save] |})
    else (Throw ValidationError, emit w [call_Committee_save]).
Proof.
  intros Hid. unfold Committee_save, bind, record, get_committees. simpl.
  rewrite Hid. destruct (Committee_validate E doc); reflexivity.
Qed.

(** The only write of updateCommittee to the collection: the fetched
    document with updates assigned whose keys are whitelisted and defined
    in the request. *)
Lemma updateCommittee_run (E : Env) (req : request) (w w' : world) (o : outcome) :
  updateCommittee E req w = (o, w') ->
  committees w' = committees w
  \/ exists (n : N) (committee updates : obj),
      castId E (obj_get "id" (req_params req)) = Ok (Some n)
      /\ find (has_id n) (committees w) = Some committee
      /\ (forall k, In k (map fst updates) ->
            In k updatable /\ obj_get k (req_body req) <> JUndefined)
      /\ committees w' = store_put n (Object_assign committee updates) (committees w).
Proof.
  unfold updateCommittee, try_catch. unfold bind at 1.
  rewrite Committee_findById_run. unfold find_by_id.
  destruct (castId E (obj_get "id" (req_params req))) as [[n|]|e] eqn:Hcast;
    try (intros H; injection H as <- <-; left; reflexivity).
  destruct (find (has_id n) (committees w)) as [committee|] eqn:Hfind;
    [|intros H; injection H as <- <-; left; reflexivity].
  unfold bind at 1. unfold record at 1. unfold bind at 1.
  set (allowed := delete_undefined (pick (req_body req) updatable)).
  set (w1 := emit (emit w _) _).
  match goal with
  | |- context [let (_, _) := ?m w1 in _] =>
      destruct (m w1) as [r w2] eqn:Hstep
  end.
  apply update_members_step in Hstep as [Hw2 Hkeys].
  assert (Hw2' : committees w2 = committees w) by (rewrite Hw2; reflexivity).
  destruct r as [[early|updates]|e];
    try (intros H; injection H as <- <-; left; exact Hw2').
  assert (Hupd : forall k, In k (map fst updates) ->
                   In k updatable /\ obj_get k (req_body req) <> JUndefined).
  { intros k Hin. destruct (Hkeys updates eq_refl k Hin) as [Hin'|[-> Ht]].
    - apply delete_undefined_pick_keys. exact Hin'.
    - unfold allowed in Ht.
      rewrite obj_get_delete_undefined_pick in Ht by (simpl; tauto).
      split; [simpl; tauto|]. intros Heq. rewrite Heq in Ht. discriminate. }
  assert (Hid : obj_get "_id" (Object_assign committee updates) = JId n).
  { rewrite Object_assign_other.
    - apply find_has_id with (committees w). exact Hfind.
    - intros Hin. apply Hupd in Hin as [Hin _]. simpl in Hin.
      repeat (destruct Hin as [Hin|Hin]; [discriminate|]). exact Hin. }
  unfold bind at 1. rewrite (Committee_save_run E _ n w2 Hid).
  destruct (Committee_validate E (Object_assign committee updates));
    [|intros H; injection H as <- <-; left; exact Hw2'].
  match goal with
  | |- context [let (_, _) := ?m ?w3 in _] =>
      assert (Hk : keeps_committees m) by frame;
      specialize (Hk w3); destruct (m w3) as [[o'|e] w4]
  end; simpl in Hk; intros H; injection H as <- <-;
    right; exists n, committee, updates;
    (split; [reflexivity|]); (split; [exact Hfind|]); (split; [exact Hupd|]);
    rewrite Hk, Hw2'; reflexivity.
Qed.

Lemma updateCommittee_committees (E : Env) (req : request) (w : world) :
  committees (snd (updateCommittee E req w)) = committees w
  \/ exists (n : N) (committee updates : obj),
      castId E (obj_get "id" (req_params req)) = Ok (Some n)
      /\ find (has_id n) (committees w) = Some committee
      /\ (forall k, In k (map fst updates) ->
            In k updatable /\ obj_get k (req_body req) <> JUndefined)
      /\ committees (snd (updateCommittee E req w))
         = store_put n (Object_assign committee updates) (committees w).
Proof.
  destruct (updateCommittee E req w) as [o w'] eqn:Hrun.
  exact (updateCommittee_run E req w w' o Hrun).
Qed.

(** ** Member snapshots *)

(** C6.  The handlers of the authentication controller, among them the ones
    that change User records, leave the Committee collection as it was, and
    an updateCommittee request for one committee leaves the stored document
    of every other committee, its member snapshots included, as it was. *)
Theorem member_snapshots_are_point_in_time :
  forall (E : Env) (req : request) (w : world) (n : N),
    castId E (obj_get "id" (req_params req)) <> Ok (Some n) ->
    committees (snd (updateUser E req w)) = committees w
    /\ committees (snd (updateMe E req w)) = committees w
    /\ committees (snd (deleteUser E req w)) = committees w
    /\ (forall newId now,
          committees (snd (register E req newId now w)) = committees w)
    /\ (forall now, committees (snd (login E req now w)) = committees w)
    /\ (forall now, committees (snd (protect E req now w)) = committees w)
    /\ find (has_id n) (committees (snd (updateCommittee E req w)))
       = find (has_id n) (committees w)
    /\ (forall committee,
          find (has_id n) (committees w) = Some committee ->
          exists committee',
            find (has_id n) (committees (snd (updateCommittee E req w)))
              = Some committee'
            /\ obj_get "members" committee' = obj_get "members" committee).
Proof.
  intros E req w n Hother.
  assert (Hfind : find (has_id n) (committees (snd (updateCommittee E req w)))
                  = find (has_id n) (committees w)).
  { destruct (updateCommittee_committees E req w)
      as [H | [m [committee [updates [Hcast [Hfound [Hkeys H]]]]]]];
      rewrite H; [reflexivity|].
    apply find_store_put_other.
    - intros ->. apply Hother. exact Hcast.
    - apply has_id_of. rewrite Object_assign_other.
      + apply find_has_id with (committees w). exact Hfound.
      + intros Hin. apply Hkeys in Hin as [Hin _]. simpl in Hin.
        repeat (destruct Hin as [Hin|Hin]; [discriminate|]). exact Hin. }
  repeat split.
  - apply keeps_updateUser.
  - apply keeps_updateMe.
  - apply keeps_deleteUser.
  - intros newId now. apply keeps_register.
  - intros now. apply keeps_login.
  - intros now. apply keeps_protect.
  - exact Hfind.
  - intros committee Hc. exists committee. rewrite Hfind. auto.
Qed.

Lemma member_snapshots_are_point_in_time_witness :
  committees
    (snd (updateUser test_env
            (request_of alice [("name", lit "Alicia"); ("members", JArr [lit "E101"])]
               [("userId", alice_id); ("id", audit_panel_id)] None)
            world0)) = committees world0
  /\ exists committee',
      find (has_id 10)
        (committees
           (snd (updateCommittee test_env
                   (request_of alice
                      [("name", lit "Alicia"); ("members", JArr [lit "E101"])]
                      [("userId", alice_id); ("id", audit_panel_id)] None)
                   world0))) = Some committee'
      /\ obj_get "members" committee' = JArr [snapshot alice].
Proof.
  destruct (member_snapshots_are_point_in_time test_env
              (request_of alice
                 [("name", lit "Alicia"); ("members", JArr [lit "E101"])]
                 [("userId", alice_id); ("id", audit_panel_id)] None)
              world0 10%N)
    as [Huser [_ [_ [_ [_ [_ [_ Hother]]]]]]].
  - vm_compute. discriminate.
  - split.
    + exact Huser.
    + apply (Hother review_board). reflexivity.
Defined.

(** A committee created with Alice as a member keeps her snapshot when an
    administrator renames her afterwards. *)
Example snapshot_survives_rename :
  let created :=
    snd (createCommittee test_env
           (request_of alice
              [("name", lit "Panel"); ("members", JArr [lit "E100"])] [] None)
           12 world0) in
  let renamed :=
    snd (updateUser test_env
           (request_of alice [("name", lit "Alicia")] [("userId", alice_id)] None)
           created) in
  option_map (obj_get "name") (find (has_id 1) (users renamed))
    = Some (lit "Alicia")
  /\ option_map (obj_get "members") (find (has_id 12) (committees renamed))
     = Some (JArr [snapshot alice]).
Proof. vm_compute. split; reflexivity. Qed.

(** ** updateCommittee: the frame *)

(** C7.  After an updateCommittee request, whatever its body holds under
    formationLetter, every stored committee is still stored, its
    formationLetter is what it was, and so is every field that is not a
    whitelisted key (name, purpose, the three dates, schedule, members,
    shouldNotify, approvalStatus) defined in the request body. *)
Theorem updateCommittee_ignores_formationLetter :
  forall (E : Env) (req : request) (w : world) (n : N) (committee : obj),
    find (has_id n) (committees w) = Some committee ->
    exists committee',
      find (has_id n) (committees (snd (updateCommittee E req w)))
        = Some committee'
      /\ obj_get "formationLetter" committee'
         = obj_get "formationLetter" committee
      /\ (forall k,
            ~ In k updatable \/ obj_get k (req_body req) = JUndefined ->
            obj_get k committee' = obj_get k committee).
Proof.
  intros E req w n committee Hfind.
  assert (Hframe : exists committee',
             find (has_id n) (committees (snd (updateCommittee E req w)))
               = Some committee'
             /\ (forall k,
                   ~ In k updatable \/ obj_get k (req_body req) = JUndefined ->
                   obj_get k committee' = obj_get k committee)).
  { destruct (updateCommittee_committees E req w)
      as [H | [m [target [updates [Hcast [Hfound [Hkeys H]]]]]]]; rewrite H.
    - exists committee. auto.
    - assert (Hid : has_id m (Object_assign target updates) = true).
      { apply has_id_of. rewrite Object_assign_other.
        - apply find_has_id with (committees w). exact Hfound.
        - intros Hin. apply Hkeys in Hin as [Hin _]. simpl in Hin.
          repeat (destruct Hin as [Hin|Hin]; [discriminate|]). exact Hin. }
      destruct (N.eq_dec n m) as [->|Hne].
      + exists (Object_assign target updates).
        split; [apply find_store_put_same; exact Hid|].
        intros k Hk. assert (target = committee) as -> by congruence.
        apply Object_assign_other. intros Hin.
        apply Hkeys in Hin as [Hin Hdef]. tauto.
      + exists committee. split; [|auto].
        rewrite find_store_put_other by assumption. exact Hfind. }
  destruct Hframe as [committee' [Hstored Hsame]].
  exists committee'. split; [exact Hstored|]. split; [|exact Hsame].
  apply Hsame. left. simpl. intros Hin.
  repeat (destruct Hin as [Hin|Hin]; [discriminate|]). exact Hin.
Qed.

Lemma updateCommittee_ignores_formationLetter_witness :
  exists committee',
    find (has_id 10)
      (committees
         (snd (updateCommittee test_env
                 (request_of alice
                    [("name", lit "Tender board");
                     ("formationLetter", JObj [("path", lit "uploads/other.pdf")])]
                    [("id", review_board_id)] None)
                 world0))) = Some committee'
    /\ obj_get "formationLetter" committee'
       = JObj [("filename", lit "letter.pdf"); ("path", lit "uploads/letter.pdf")]
    /\ (forall k,
          ~ In k updatable
          \/ obj_get k
               (req_body
                  (request_of alice
                     [("name", lit "Tender board");
                      ("formationLetter",
                       JObj [("path", lit "uploads/other.pdf")])]
                     [("id", review_board_id)] None)) = JUndefined ->
          obj_get k committee' = obj_get k review_board).
Proof.
  apply (updateCommittee_ignores_formationLetter test_env
           (request_of alice
              [("name", lit "Tender board");
               ("formationLetter", JObj [("path", lit "uploads/other.pdf")])]
              [("id", review_board_id)] None)
           world0 10%N review_board).
  reflexivity.
Defined.

(** The same request does rename the committee. *)
Example updateCommittee_renames :
  option_map (obj_get "name")
    (find (has_id 10)
       (committees
          (snd (updateCommittee test_env
                  (request_of alice
                     [("name", lit "Tender board");
                      ("formationLetter",
                       JObj [("path", lit "uploads/other.pdf")])]
                     [("id", review_board_id)] None)
                  world0)))) = Some (lit "Tender board").
Proof. vm_compute. reflexivity. Qed.

(* ===================================================================== *)
(** * Further properties *)
(* ===================================================================== *)

(** ** Parts of the world that a handler leaves alone *)

Lemma preserves_bind {X A B} (f : world -> X) (m : M A) (k : A -> M B) :
  preserves f m -> (forall a, preserves f (k a)) -> preserves f (bind m k).
Proof.
  intros Hm Hk w. unfold bind. specialize (Hm w).
  destruct (m w) as [[a|e] w']; simpl in *.
  - rewrite Hk. exact Hm.
  - exact Hm.
Qed.

Lemma preserves_try_catch {X A} (f : world -> X) (m : M A)
      (h : exn -> world -> A * world) :
  preserves f m -> (forall e, preserves f (h e)) -> preserves f (try_catch m h).
Proof.
  intros Hm Hh w. unfold try_catch. specialize (Hm w).
  destruct (m w) as [[a|e] w']; simpl in *.
  - exact Hm.
  - rewrite Hh. exact Hm.
Qed.

Lemma preserves_total {X A} (f : world -> X) (c : world -> A * world) :
  preserves f c -> preserves f (total c).
Proof.
  intros Hc w. unfold total. specialize (Hc w).
  destruct (c w) as [a w']. exact Hc.
Qed.

Create HintDb preserve.
#[local] Hint Extern 1 (preserves _ _) => solve [intros ?; reflexivity] : preserve.

(** Down a handler as [frame] goes, for any part of the world; a step that
    writes that part is left to the caller. *)
Ltac preserve :=
  repeat first
    [ progress auto with preserve
    | apply preserves_bind
    | apply preserves_try_catch
    | apply preserves_total
    | progress cbv beta zeta
    | match goal with
      | |- forall _, _ => intro
      | |- preserves _ (match ?x with _ => _ end) => destruct x
      | |- preserves _ (if ?x then _ else _) => destruct x
      | |- preserves _ (let (_, _) := ?x in _) => destruct x
      end ].

Lemma preserves_resolve_members {X} (f : world -> X) (ids : list jsstring) :
  (forall w es, f (emit w es) = f w) ->
  forall acc, preserves f (resolve_members ids acc).
Proof.
  intros Hemit. induction ids as [|x ids IH]; intros acc; simpl.
  - preserve.
  - apply preserves_bind.
    + intros w. unfold User_findOne, bind, record, get_users, ret. simpl.
      apply Hemit.
    + intros [u|]; [apply IH | preserve].
Qed.

Lemma preserves_mail_members {X} (f : world -> X) (createdBy : jsval)
      (members : list jsval) :
  (forall w es, f (emit w es) = f w) ->
  preserves f (mail_members createdBy members).
Proof.
  intros Hemit. induction members as [|m members IH]; simpl.
  - preserve.
  - apply preserves_bind; [preserve|]. intros to.
    apply preserves_bind; [preserve|]. intros _.
    apply preserves_bind; [|intros _; exact IH].
    intros w. apply Hemit.
Qed.

Lemma preserves_sendCommitteeNotifications {X} (f : world -> X) (c : jsval) :
  (forall w es, f (emit w es) = f w) ->
  preserves f (sendCommitteeNotifications c).
Proof.
  intros Hemit. unfold sendCommitteeNotifications.
  apply preserves_total, preserves_try_catch; [|preserve].
  apply preserves_bind; [preserve|]. intros members.
  apply preserves_bind; [preserve|]. intros createdBy.
  destruct members; try solve [preserve].
  apply preserves_mail_members. exact Hemit.
Qed.

Lemma preserves_process_members {X} (f : world -> X) (E : Env) (members : jsval) :
  (forall w es, f (emit w es) = f w) ->
  preserves f (process_members E members).
Proof.
  intros Hemit. unfold process_members.
  apply preserves_bind; [preserve|]. intros ids.
  destruct (negb (forallb valid_member_id ids)); [preserve|].
  apply preserves_resolve_members. exact Hemit.
Qed.

Lemma users_emit (w : world) (es : list effect) : users (emit w es) = users w.
Proof. reflexivity. Qed.

Lemma files_emit (w : world) (es : list effect) : files (emit w es) = files w.
Proof. reflexivity. Qed.

Lemma committees_emit (w : world) (es : list effect) :
  committees (emit w es) = committees w.
Proof. reflexivity. Qed.

#[local] Hint Resolve users_emit files_emit committees_emit : preserve.
#[local] Hint Resolve preserves_process_members
  preserves_sendCommitteeNotifications : preserve.

(** ** Running a handler step by step *)

Lemma bind_ok {A B} (m : M A) (k : A -> M B) (w w' : world) (a : A) :
  m w = (Ok a, w') -> bind m k w = k a w'.
Proof. intros H. unfold bind. rewrite H. reflexivity. Qed.

Lemma bind_throw {A B} (m : M A) (k : A -> M B) (w w' : world) (e : exn) :
  m w = (Throw e, w') -> bind m k w = (Throw e, w').
Proof. intros H. unfold bind. rewrite H. reflexivity. Qed.

Lemma sendCommitteeNotifications_ok (c : jsval) (w : world) :
  exists w', sendCommitteeNotifications c w = (Ok tt, w')
             /\ users w' = users w /\ committees w' = committees w
             /\ files w' = files w.
Proof.
  pose proof (preserves_sendCommitteeNotifications users c users_emit w) as Hu.
  pose proof (preserves_sendCommitteeNotifications committees c committees_emit w)
    as Hc.
  pose proof (preserves_sendCommitteeNotifications files c files_emit w) as Hf.
  unfold sendCommitteeNotifications, total in *.
  destruct (try_catch _ _ w) as [[] w']. exists w'. auto.
Qed.

(** What notifying appends to the trace is mail. *)
Lemma mail_members_trace (createdBy : jsval) (members : list jsval) :
  forall w, exists r mails,
    mail_members createdBy members w = (r, emit w mails)
    /\ forall e, In e mails -> exists to, e = call_sendMail to.
Proof.
  induction members as [|m members IH]; intros w; simpl.
  - exists (Ok tt), []. rewrite emit_nil. split; [reflexivity|]. intros e [].
  - unfold bind at 1. unfold lift.
    destruct (prop "email" m) as [to|e].
    + unfold bind at 1. destruct (prop "name" createdBy) as [nm|e].
      * unfold bind at 1. unfold sendMail at 1. unfold record.
        destruct (IH (emit w [call_sendMail to])) as [r [mails [Hrun Hmails]]].
        rewrite Hrun. exists r, (call_sendMail to :: mails).
        rewrite emit_emit. split; [reflexivity|].
        intros e [<-|He]; [eexists; reflexivity | apply Hmails; exact He].
      * exists (Throw e), []. rewrite emit_nil. split; [reflexivity|].
        intros e0 [].
    + exists (Throw e), []. rewrite emit_nil. split; [reflexivity|].
      intros e0 [].
Qed.

Lemma sendCommitteeNotifications_trace (c : jsval) (w : world) :
  exists w' mails,
    sendCommitteeNotifications c w = (Ok tt, w')
    /\ users w' = users w /\ committees w' = committees w
    /\ files w' = files w
    /\ trace w' = trace w ++ mails
    /\ forall x, ~ In (member_lookup x) mails.
Proof.
  unfold sendCommitteeNotifications, total, try_catch.
  unfold bind at 1. unfold lift.
  destruct (prop "members" c) as [members|e].
  - unfold bind at 1. destruct (prop "createdBy" c) as [createdBy|e].
    + destruct members;
        try (exists w, []; rewrite app_nil_r; repeat split; intros x []).
      destruct (mail_members_trace createdBy items w) as [r [mails [Hrun Hm]]].
      rewrite Hrun. exists (emit w mails), mails.
      destruct r as [[]|e]; repeat split;
        intros x Hin; apply Hm in Hin as [to Hto]; discriminate.
    + exists w, []. rewrite app_nil_r. repeat split. intros x [].
  - exists w, []. rewrite app_nil_r. repeat split. intros x [].
Qed.

Lemma Committee_findById_populate_found (E : Env) (n : N) (doc : obj) (w : world) :
  find (has_id n) (committees w) = Some doc ->
  Committee_findById_populate E (JId n) w =
    (Ok (Some (populate_createdBy E (users w) doc)),
     emit w [call_Committee_findById (JId n); call_populate]).
Proof.
  intros H. unfold Committee_findById_populate.
  erewrite bind_ok by (rewrite Committee_findById_run;
                       unfold find_by_id, castId; rewrite H; reflexivity).
  unfold bind, record, get_users, ret. cbn [fst snd users emit].
  rewrite emit_emit. reflexivity.
Qed.

(** The loop over identifiers that all have a user: one lookup and one
    snapshot each, in order. *)
Lemma resolve_members_all (ids : list jsstring) (us : list obj) :
  forall (acc : list jsval) (w : world),
    Forall2 (fun id u => find (has_str "employeeId" id) (users w) = Some u)
      ids us ->
    resolve_members ids acc w =
      (Ok (inr (acc ++ map snapshot us)), emit w (map member_lookup ids)).
Proof.
  revert us. induction ids as [|x ids IH]; intros us acc w H.
  - inversion H. subst. simpl. rewrite app_nil_r, emit_nil. reflexivity.
  - inversion H as [|x' u ids' us' Hx Hrest]. subst. simpl.
    erewrite bind_ok by (rewrite User_findOne_run; simpl; rewrite Hx;
                         reflexivity).
    cbv beta iota. rewrite IH with (us := us') by exact Hrest.
    rewrite emit_emit, <- app_assoc. reflexivity.
Qed.

(** What the member stage hands on is an AppError when it returns early. *)
Lemma resolve_members_early (ids : list jsstring) :
  forall (acc : list jsval) (w w' : world) (o : outcome),
    resolve_members ids acc w = (Ok (inl o), w') ->
    exists message, o = Next (AppError message 404).
Proof.
  induction ids as [|x ids IH]; intros acc w w' o; simpl.
  - unfold ret. discriminate.
  - unfold bind. rewrite User_findOne_run.
    destruct (find_one "employeeId" (JStr x) (users w)) as [u|].
    + apply IH.
    + unfold ret. intros H. injection H as <- _. eexists. reflexivity.
Qed.

Lemma process_members_early (E : Env) (members : jsval) (w w' : world)
      (o : outcome) :
  process_members E members w = (Ok (inl o), w') ->
  exists message statusCode, o = Next (AppError message statusCode).
Proof.
  unfold process_members, bind, lift.
  destruct (memberIds_of E members) as [ids|e]; [|discriminate].
  destruct (negb (forallb valid_member_id ids)).
  - unfold ret. intros H. injection H as <- _. eexists. eexists. reflexivity.
  - intros H. apply resolve_members_early in H as [message ->].
    eexists. eexists. reflexivity.
Qed.

(** ** createCommittee: every way out *)

Ltac unfold_calls :=
  unfold User_findOne, User_findById, User_create, User_save,
    User_findByIdAndDelete, Committee_findById_populate, Committee_findById,
    Committee_save, Committee_findByIdAndDelete, fs_unlink_value, fs_unlink,
    sendMail.

(** The body of the [try] of createCommittee returns an AppError or the
    201 response, and removes no file. *)
Lemma createCommittee_returns (E : Env) (req : request) (newId : N)
      (w w' : world) (o : outcome) :
  createCommittee E req newId w = (o, w') ->
  (exists e, o = Next (Thrown e) /\ files w' = without_upload req (files w))
  \/ ((exists message statusCode, o = Next (AppError message statusCode))
      \/ (exists json, o = Respond 201 json []))
     /\ files w' = files w.
Proof.
  unfold createCommittee, try_catch.
  match goal with
  | |- context [let (_, _) := ?m w in _] => set (body := m)
  end.
  assert (Hfiles : preserves files body)
    by (unfold body; unfold_calls; preserve).
  specialize (Hfiles w).
  destruct (body w) as [[o1|e] w1] eqn:Hbody; simpl in Hfiles.
  - intros H. injection H as <- <-. right. split; [|exact Hfiles].
    unfold body in Hbody. unfold bind at 1 in Hbody.
    destruct (has_members E (obj_get "members" (req_body req))).
    + destruct (process_members E (obj_get "members" (req_body req)) w)
        as [[[early|arr]|e] w2] eqn:Hp; try discriminate.
      * unfold ret in Hbody. injection Hbody as <- _.
        left. eapply process_members_early. exact Hp.
      * right. unfold bind in Hbody.
        repeat match type of Hbody with
               | context [let (_, _) := ?m ?x in _] => destruct (m x) as [[?|?] ?]
               end; try discriminate;
          unfold ret in Hbody; injection Hbody as <- _; eexists; reflexivity.
    + unfold ret at 1 in Hbody. right. unfold bind in Hbody.
      repeat match type of Hbody with
             | context [let (_, _) := ?m ?x in _] => destruct (m x) as [[?|?] ?]
             end; try discriminate;
        unfold ret in Hbody; injection Hbody as <- _; eexists; reflexivity.
  - intros H. injection H as <- <-. left. exists e. split; [reflexivity|].
    unfold without_upload. destruct (req_file req) as [f|].
    + unfold fs_unlink, bind, record, get_files, set_files. simpl.
      rewrite Hfiles. reflexivity.
    + exact Hfiles.
Qed.

(** X1.  createCommittee answers 201, passes an AppError to next, or passes
    on an exception; it removes the upload of the request from storage in
    the last case and in no other. *)
Theorem createCommittee_unlinks_exactly_when_thrown :
  forall (E : Env) (req : request) (newId : N) (w : world),
    match fst (createCommittee E req newId w) with
    | Next (Thrown _) =>
        files (snd (createCommittee E req newId w))
          = without_upload req (files w)
    | Next (AppError _ _) =>
        files (snd (createCommittee E req newId w)) = files w
    | Respond status _ _ =>
        status = 201
        /\ files (snd (createCommittee E req newId w)) = files w
    | NextHandler _ => False
    end.
Proof.
  intros E req newId w.
  destruct (createCommittee E req newId w) as [o w'] eqn:Hrun.
  apply createCommittee_returns in Hrun
    as [[e [-> Hf]] | [[[m [st ->]] | [j ->]] Hf]]; simpl; auto.
Qed.

Lemma members_stage_resolved (E : Env) (members : jsval) (w : world)
      (ids : list jsstring) (us : list obj) :
  has_members E members = true ->
  memberIds_of E members = Ok (map JStr ids) ->
  forallb valid_member_id (map JStr ids) = true ->
  Forall2 (fun id u => find (has_str "employeeId" id) (users w) = Some u)
    ids us ->
  (if has_members E members then process_members E members else ret (inr [])) w
  = (Ok (inr (map snapshot us)), emit w (map member_lookup ids)).
Proof.
  intros Hhas Hids Hvalid Hfound. rewrite Hhas.
  unfold process_members. unfold bind at 1. unfold lift. rewrite Hids, Hvalid.
  change (negb true) with false. cbv iota.
  rewrite strings_of_map. apply (resolve_members_all ids us [] w Hfound).
Qed.

(** After the member stage: the save decides. *)
Lemma createCommittee_after_members_run (E : Env) (req : request) (newId : N)
      (w w1 : world) (arr : list jsval) :
  (if has_members E (obj_get "members" (req_body req))
   then process_members E (obj_get "members" (req_body req))
   else ret (inr [])) w = (Ok (inr arr), w1) ->
  let doc := new_committee req newId arr in
  exists w',
    createCommittee E req newId w =
      (if Committee_validate E doc
       then Respond 201
              (success "committee" (JObj (populate_createdBy E (users w1) doc)))
              []
       else Next (Thrown ValidationError), w')
    /\ users w' = users w1
    /\ committees w' = (if Committee_validate E doc
                        then store_put newId doc (committees w1)
                        else committees w1)
    /\ files w' = (if Committee_validate E doc then files w1
                   else without_upload req (files w1))
    /\ exists es, trace w' = trace w1 ++ call_Committee_save :: es
                  /\ forall x, ~ In (member_lookup x) es.
Proof.
  intros Hstage doc.
  assert (Hid : obj_get "_id" doc = JId newId) by reflexivity.
  pose proof (Committee_save_run E doc newId w1 Hid) as Hsave.
  unfold createCommittee, try_catch.
  erewrite bind_ok by exact Hstage. cbv beta iota zeta.
  change ([("_id", JId newId);
           ("name", obj_get "name" (req_body req));
           ("purpose", obj_get "purpose" (req_body req));
           ("formationDate", obj_get "formationDate" (req_body req));
           ("specificationSubmissionDate",
              obj_get "specificationSubmissionDate" (req_body req));
           ("reviewDate", obj_get "reviewDate" (req_body req));
           ("schedule", obj_get "schedule" (req_body req));
           ("members", JArr arr);
           ("createdBy", obj_get "_id" (req_user req));
           ("formationLetter", formationLetter_of (req_file req))])
    with doc.
  unfold bind at 1. rewrite Hsave.
  destruct (Committee_validate E doc).
  - set (w2 := {| users := users w1;
                  committees := store_put newId doc (committees w1);
                  files := files w1;
                  trace := trace w1 ++ [call_Committee_save] |}).
    assert (Hfind : find (has_id newId) (committees w2) = Some doc)
      by (apply find_store_put_same, has_id_of, Hid).
    erewrite bind_ok by (apply Committee_findById_populate_found; exact Hfind).
    set (w3 := emit w2 _).
    unfold bind.
    destruct (is_str "true" (obj_get "shouldNotify" (req_body req))).
    + destruct (sendCommitteeNotifications_trace
                  (doc_or_null (Some (populate_createdBy E (users w2) doc))) w3)
        as [w4 [mails [Hsend [Hu4 [Hc4 [Hf4 [Ht4 Hm4]]]]]]].
      rewrite Hsend. exists w4. simpl.
      rewrite Hu4, Hc4, Hf4, Ht4. simpl.
      repeat split.
      exists ([call_Committee_findById (JId newId); call_populate] ++ mails).
      split.
      * rewrite <- !app_assoc. reflexivity.
      * intros x [H|[H|H]]; try discriminate. exact (Hm4 x H).
    + exists w3. simpl. repeat split.
      exists [call_Committee_findById (JId newId); call_populate].
      split.
      * rewrite <- !app_assoc. reflexivity.
      * intros x [H|[H|[]]]; discriminate.
  - unfold without_upload. destruct (req_file req) as [f|]; simpl.
    + eexists. split; [reflexivity|]. simpl. repeat split.
      exists [call_fs_unlink (path f)]. split.
      * rewrite <- !app_assoc. reflexivity.
      * intros x [H|[]]. discriminate.
    + eexists. split; [reflexivity|]. simpl. repeat split.
      exists []. split; [reflexivity|]. intros x [].
Qed.

(** X2.  When every identifier of the member list of a createCommittee
    request is a non-empty string and has a user, the committee that goes
    to the store carries one snapshot per identifier, in order, taken from
    the first user with that employee ID.  If the store accepts it the
    answer is 201 with that committee, its creator populated, and nothing
    else in the world changes; if the store rejects it the exception is
    passed on, nothing is stored and the upload is removed. *)
Theorem createCommittee_with_resolved_members :
  forall (E : Env) (req : request) (newId : N) (w : world)
         (ids : list jsstring) (us : list obj),
    has_members E (obj_get "members" (req_body req)) = true ->
    memberIds_of E (obj_get "members" (req_body req)) = Ok (map JStr ids) ->
    forallb valid_member_id (map JStr ids) = true ->
    Forall2 (fun id u => find (has_str "employeeId" id) (users w) = Some u)
      ids us ->
    let doc := new_committee req newId (map snapshot us) in
    let r := createCommittee E req newId w in
    if Committee_validate E doc
    then fst r = Respond 201
                   (success "committee"
                      (JObj (populate_createdBy E (users w) doc))) []
         /\ committees (snd r) = store_put newId doc (committees w)
         /\ users (snd r) = users w
         /\ files (snd r) = files w
    else fst r = Next (Thrown ValidationError)
         /\ committees (snd r) = committees w
         /\ users (snd r) = users w
         /\ files (snd r) = without_upload req (files w).
Proof.
  intros E req newId w ids us Hhas Hids Hvalid Hfound doc r.
  destruct (createCommittee_after_members_run E req newId w
              (emit w (map member_lookup ids)) (map snapshot us))
    as [w' [Hrun [Hu [Hc [Hf _]]]]].
  { apply members_stage_resolved; assumption. }
  fold doc in Hrun, Hc, Hf. unfold r. rewrite Hrun. simpl.
  destruct (Committee_validate E doc); auto.
Qed.

Lemma createCommittee_with_resolved_members_witness :
  let doc := new_committee create_request 12 [snapshot alice; snapshot bob] in
  let r := createCommittee test_env create_request 12 world0 in
  fst r = Respond 201
            (success "committee"
               (JObj (populate_createdBy test_env (users world0) doc))) []
  /\ committees (snd r) = store_put 12 doc (committees world0)
  /\ users (snd r) = users world0
  /\ files (snd r) = files world0.
Proof.
  apply (createCommittee_with_resolved_members test_env create_request 12
           world0 [str "E100"; str "E101"] [alice; bob]).
  - reflexivity.
  - reflexivity.
  - reflexivity.
  - repeat constructor.
Defined.

(** X3.  A createCommittee request whose members are absent, an empty
    array, or any value without a positive length is not refused: no user
    is looked up and the committee goes to the store with an empty list of
    members. *)
Theorem createCommittee_without_members :
  forall (E : Env) (req : request) (newId : N) (w : world),
    has_members E (obj_get "members" (req_body req)) = false ->
    let doc := new_committee req newId [] in
    let r := createCommittee E req newId w in
    obj_get "members" doc = JArr []
    /\ (forall x, In (member_lookup x) (trace (snd r)) ->
                  In (member_lookup x) (trace w))
    /\ if Committee_validate E doc
       then fst r = Respond 201
                      (success "committee"
                         (JObj (populate_createdBy E (users w) doc))) []
            /\ committees (snd r) = store_put newId doc (committees w)
            /\ users (snd r) = users w
            /\ files (snd r) = files w
       else fst r = Next (Thrown ValidationError)
            /\ committees (snd r) = committees w
            /\ users (snd r) = users w
            /\ files (snd r) = without_upload req (files w).
Proof.
  intros E req newId w Hhas doc r.
  destruct (createCommittee_after_members_run E req newId w w [])
    as [w' [Hrun [Hu [Hc [Hf [es [Ht Hes]]]]]]].
  { rewrite Hhas. reflexivity. }
  fold doc in Hrun, Hc, Hf. unfold r. rewrite Hrun. simpl.
  split; [reflexivity|]. split.
  - intros x Hin. rewrite Ht in Hin. apply in_app_or in Hin as [Hin|Hin].
    + exact Hin.
    + destruct Hin as [Hin|Hin]; [discriminate | elim (Hes x Hin)].
  - destruct (Committee_validate E doc); auto.
Qed.

Lemma createCommittee_without_members_witness :
  let doc := new_committee create_request_no_members 12 [] in
  let r := createCommittee test_env create_request_no_members 12 world0 in
  fst r = Respond 201
            (success "committee"
               (JObj (populate_createdBy test_env (users world0) doc))) []
  /\ committees (snd r) = store_put 12 doc (committees world0)
  /\ users (snd r) = users world0
  /\ files (snd r) = files world0.
Proof.
  apply (createCommittee_without_members test_env create_request_no_members
           12 world0).
  reflexivity.
Defined.

(** ** updateCommittee: every way out *)

Lemma obj_set_keys_nodup (k : string) (v : jsval) (o : obj) :
  NoDup (map fst o) -> NoDup (map fst (obj_set k v o)).
Proof.
  induction o as [|[k0 v0] o IH]; simpl; intros H.
  - constructor; [intros [] | constructor].
  - inversion H as [|? ? Hnotin Hrest]. subst.
    destruct (String.eqb k k0) eqn:Ek; simpl.
    + apply String.eqb_eq in Ek. subst k0. constructor; assumption.
    + constructor; [|apply IH; exact Hrest].
      intros Hin. apply obj_set_keys in Hin as [->|Hin].
      * rewrite String.eqb_refl in Ek. discriminate.
      * contradiction.
Qed.

Lemma obj_get_absent (k : string) (o : obj) :
  ~ In k (map fst o) -> obj_get k o = JUndefined.
Proof.
  induction o as [|[k0 v0] o IH]; simpl; intros H.
  - reflexivity.
  - destruct (String.eqb k k0) eqn:Ek.
    + apply String.eqb_eq in Ek. subst. tauto.
    + apply IH. tauto.
Qed.

(** [Object.assign] gives the target what the source holds, for a source
    without repeated keys. *)
Lemma Object_assign_get (k : string) (source target : obj) :
  NoDup (map fst source) -> In k (map fst source) ->
  obj_get k (Object_assign target source) = obj_get k source.
Proof.
  unfold Object_assign. revert target.
  induction source as [|[k0 v0] source IH]; intros target Hnd Hin; simpl.
  - destruct Hin.
  - inversion Hnd as [|? ? Hnotin Hrest]. subst. simpl in Hin.
    destruct (String.eqb k k0) eqn:Ek.
    + apply String.eqb_eq in Ek. subst k0.
      fold (Object_assign (obj_set k v0 target) source).
      rewrite Object_assign_other by exact Hnotin.
      rewrite obj_get_set, String.eqb_refl. reflexivity.
    + apply IH; [exact Hrest|]. destruct Hin as [->|Hin]; [|exact Hin].
      rewrite String.eqb_refl in Ek. discriminate.
Qed.

Lemma pick_keys (body : obj) (keys : list string) :
  map fst (pick body keys) = keys.
Proof.
  unfold pick. rewrite map_map. simpl. apply map_id.
Qed.

Lemma delete_undefined_keys_nodup (o : obj) :
  NoDup (map fst o) -> NoDup (map fst (delete_undefined o)).
Proof.
  unfold delete_undefined. induction o as [|[k v] o IH]; simpl; intros H.
  - constructor.
  - inversion H as [|? ? Hnotin Hrest]. subst.
    destruct (is_undefined v); simpl.
    + apply IH. exact Hrest.
    + constructor; [|apply IH; exact Hrest].
      intros Hin. apply Hnotin.
      apply in_map_iff in Hin as [[k' v'] [Hk Hin]]. simpl in Hk. subst k'.
      apply filter_In in Hin as [Hin _].
      apply in_map_iff. exists (k, v'). auto.
Qed.

Lemma delete_undefined_pick_defined (k : string) (body : obj) (keys : list string) :
  In k keys -> obj_get k body <> JUndefined ->
  In k (map fst (delete_undefined (pick body keys))).
Proof.
  intros Hin Hdef. unfold delete_undefined, pick.
  apply in_map_iff. exists (k, obj_get k body). split; [reflexivity|].
  apply filter_In. split.
  - apply in_map_iff. exists k. auto.
  - simpl. destruct (obj_get k body); try reflexivity. elim Hdef. reflexivity.
Qed.

Lemma updatable_nodup : NoDup updatable.
Proof.
  unfold updatable.
  repeat (constructor;
          [simpl; intros H;
           repeat (destruct H as [H|H]; [discriminate|]); exact H|]).
  constructor.
Qed.

(** What updateCommittee does once the committee is found and the member
    stage has handed on the updates. *)
Lemma updateCommittee_after_members_run (E : Env) (req : request) (w w2 : world)
      (n : N) (committee updates : obj) :
  castId E (obj_get "id" (req_params req)) = Ok (Some n) ->
  find (has_id n) (committees w) = Some committee ->
  let allowed := delete_undefined (pick (req_body req) updatable) in
  (if has_members E (obj_get "members" allowed)
   then
     x <- process_members E (obj_get "members" allowed) ;;
     ret (match x with
          | inl early => inl early
          | inr membersArray =>
              inr (obj_set "members" (JArr membersArray) allowed)
          end)
   else ret (inr allowed))
    (emit w [call_Committee_findById (obj_get "id" (req_params req));
             call_populate])
  = (Ok (inr updates), w2) ->
  obj_get "_id" (Object_assign committee updates) = JId n ->
  users w2 = users w -> committees w2 = committees w -> files w2 = files w ->
  let committee' := Object_assign committee updates in
  exists w',
    updateCommittee E req w =
      (if Committee_validate E committee'
       then Respond 200
              (success "committee"
                 (JObj (populate_createdBy E (users w) committee'))) []
       else Next (AppError (str "Failed to update committee") 500), w')
    /\ users w' = users w
    /\ files w' = files w
    /\ committees w' = (if Committee_validate E committee'
                        then store_put n committee' (committees w)
                        else committees w).
Proof.
  intros Hcast Hfind allowed Hstage Hid Hu Hc Hf committee'.
  unfold updateCommittee, try_catch.
  erewrite bind_ok
    by (rewrite Committee_findById_run; unfold find_by_id;
        rewrite Hcast, Hfind; reflexivity).
  cbv beta iota zeta. unfold bind at 1. unfold record at 1.
  rewrite emit_emit. simpl app.
  erewrite bind_ok by exact Hstage. cbv beta iota.
  fold committee'. unfold bind at 1.
  rewrite (Committee_save_run E committee' n w2 Hid).
  destruct (Committee_validate E committee').
  - set (w3 := {| users := users w2;
                  committees := store_put n committee' (committees w2);
                  files := files w2;
                  trace := trace w2 ++ [call_Committee_save] |}).
    assert (Hfound : find (has_id n) (committees w3) = Some committee')
      by (apply find_store_put_same, has_id_of, Hid).
    assert (Hid' : obj_get "_id" committee' = JId n) by exact Hid.
    rewrite Hid'.
    erewrite bind_ok by (apply Committee_findById_populate_found; exact Hfound).
    set (w4 := emit w3 _). unfold bind.
    destruct (is_str "true" (obj_get "shouldNotify" (req_body req))).
    + destruct (sendCommitteeNotifications_trace
                  (doc_or_null (Some (populate_createdBy E (users w3) committee')))
                  w4)
        as [w5 [mails [Hsend [Hu5 [Hc5 [Hf5 _]]]]]].
      rewrite Hsend. exists w5. simpl. rewrite Hu5, Hc5, Hf5. simpl.
      rewrite Hu, Hc, Hf. auto.
    + exists w4. simpl. rewrite Hu, Hc, Hf. auto.
  - eexists. split; [reflexivity|]. simpl. auto.
Qed.

Lemma obj_set_key_in (k : string) (v : jsval) (o : obj) :
  In k (map fst (obj_set k v o)).
Proof.
  induction o as [|[k0 v0] o IH]; simpl.
  - auto.
  - destruct (String.eqb k k0); simpl; auto.
Qed.

Lemma obj_set_keys_mono (k k' : string) (v : jsval) (o : obj) :
  In k (map fst o) -> In k (map fst (obj_set k' v o)).
Proof.
  induction o as [|[k0 v0] o IH]; simpl.
  - intros [].
  - destruct (String.eqb k' k0) eqn:Ek; simpl.
    + apply String.eqb_eq in Ek. subst k0. tauto.
    + intros [->|H]; auto.
Qed.

Lemma allowed_keys_not_id (body : obj) (updates : obj) :
  (forall k, In k (map fst updates) ->
     In k (map fst (delete_undefined (pick body updatable))) \/ k = "members") ->
  ~ In "_id" (map fst updates).
Proof.
  intros H Hin. apply H in Hin as [Hin|Hin]; [|discriminate].
  apply delete_undefined_pick_keys in Hin as [Hin _]. simpl in Hin.
  repeat (destruct Hin as [Hin|Hin]; [discriminate|]). exact Hin.
Qed.

(** X4.  updateCommittee on a committee that exists, with a member list
    whose identifiers are all non-empty strings that have a user: if the
    store accepts the result the answer is 200, the stored committee has
    one snapshot per identifier in order as its members, every other
    whitelisted field that the body defines has the value of the body, and
    the User collection and the files are as before. *)
Theorem updateCommittee_applies_request :
  forall (E : Env) (req : request) (w : world) (n : N) (committee : obj)
         (ids : list jsstring) (us : list obj),
    castId E (obj_get "id" (req_params req)) = Ok (Some n) ->
    find (has_id n) (committees w) = Some committee ->
    has_members E (obj_get "members" (req_body req)) = true ->
    memberIds_of E (obj_get "members" (req_body req)) = Ok (map JStr ids) ->
    forallb valid_member_id (map JStr ids) = true ->
    Forall2 (fun id u => find (has_str "employeeId" id) (users w) = Some u)
      ids us ->
    let committee' :=
      Object_assign committee
        (obj_set "members" (JArr (map snapshot us))
           (delete_undefined (pick (req_body req) updatable))) in
    Committee_validate E committee' = true ->
    fst (updateCommittee E req w) =
      Respond 200
        (success "committee" (JObj (populate_createdBy E (users w) committee')))
        []
    /\ find (has_id n) (committees (snd (updateCommittee E req w)))
       = Some committee'
    /\ obj_get "members" committee' = JArr (map snapshot us)
    /\ (forall k, In k updatable -> k <> "members" ->
          obj_get k (req_body req) <> JUndefined ->
          obj_get k committee' = obj_get k (req_body req))
    /\ users (snd (updateCommittee E req w)) = users w
    /\ files (snd (updateCommittee E req w)) = files w.
Proof.
  intros E req w n committee ids us Hcast Hfind Hhas Hids Hvalid Hfound
         committee' Hval.
  set (allowed := delete_undefined (pick (req_body req) updatable)) in *.
  assert (Hm : obj_get "members" allowed = obj_get "members" (req_body req))
    by (apply obj_get_delete_undefined_pick; simpl; tauto).
  assert (Hnd : NoDup (map fst (obj_set "members" (JArr (map snapshot us)) allowed))).
  { apply obj_set_keys_nodup, delete_undefined_keys_nodup.
    rewrite pick_keys. apply updatable_nodup. }
  assert (Hid : obj_get "_id" committee' = JId n).
  { unfold committee'. rewrite Object_assign_other.
    - apply find_has_id with (committees w). exact Hfind.
    - apply (allowed_keys_not_id (req_body req)). intros k Hin.
      apply obj_set_keys in Hin as [->|Hin]; auto. }
  set (w1 := emit w [call_Committee_findById (obj_get "id" (req_params req));
                     call_populate]).
  destruct (updateCommittee_after_members_run E req w
              (emit w1 (map member_lookup ids)) n committee
              (obj_set "members" (JArr (map snapshot us)) allowed)
              Hcast Hfind)
    as [w' [Hrun [Hu [Hf Hc]]]]; try reflexivity.
  { fold allowed. rewrite Hm, Hhas.
    pose proof (members_stage_resolved E (obj_get "members" (req_body req))
                  w1 ids us Hhas Hids Hvalid Hfound) as Hs.
    rewrite Hhas in Hs.
    erewrite bind_ok by exact Hs. reflexivity. }
  { exact Hid. }
  fold committee' in Hrun, Hc. rewrite Hval in Hrun, Hc.
  rewrite Hrun. simpl. split; [reflexivity|]. split.
  { rewrite Hc. apply find_store_put_same, has_id_of, Hid. }
  split.
  { unfold committee'. rewrite Object_assign_get.
    - rewrite obj_get_set, String.eqb_refl. reflexivity.
    - exact Hnd.
    - apply obj_set_key_in. }
  split; [|auto].
  intros k Hk Hne Hdef. unfold committee'. rewrite Object_assign_get.
  - rewrite obj_get_set_other by exact Hne.
    apply obj_get_delete_undefined_pick. exact Hk.
  - exact Hnd.
  - apply obj_set_keys_mono, delete_undefined_pick_defined; assumption.
Qed.

Lemma updateCommittee_applies_request_witness :
  let req :=
    request_of alice
      [("name", lit "Tender board"); ("members", JArr [lit "E101"])]
      [("id", review_board_id)] None in
  exists committee',
    find (has_id 10) (committees (snd (updateCommittee test_env req world0)))
      = Some committee'
    /\ obj_get "members" committee' = JArr [snapshot bob]
    /\ obj_get "name" committee' = lit "Tender board"
    /\ users (snd (updateCommittee test_env req world0)) = users world0.
Proof.
  intros req.
  destruct (updateCommittee_applies_request test_env req world0 10%N
              review_board [str "E101"] [bob])
    as [_ [Hfind [Hmembers [Hfields [Husers _]]]]];
    try reflexivity.
  - repeat constructor.
  - eexists. split; [exact Hfind|]. split; [exact Hmembers|].
    split; [|exact Husers].
    rewrite (Hfields "name"); [reflexivity | | discriminate | discriminate].
    simpl; tauto.
Defined.

(** X5.  updateCommittee on a committee that exists, with members the body
    defines but that are not a value with a positive length (an empty
    array, null, a number): nothing is resolved or checked, and if the
    store accepts the result the stored members are that value as it came,
    as is every other whitelisted field that the body defines. *)
Theorem updateCommittee_members_without_length :
  forall (E : Env) (req : request) (w : world) (n : N) (committee : obj),
    castId E (obj_get "id" (req_params req)) = Ok (Some n) ->
    find (has_id n) (committees w) = Some committee ->
    has_members E (obj_get "members" (req_body req)) = false ->
    let committee' :=
      Object_assign committee
        (delete_undefined (pick (req_body req) updatable)) in
    Committee_validate E committee' = true ->
    fst (updateCommittee E req w) =
      Respond 200
        (success "committee" (JObj (populate_createdBy E (users w) committee')))
        []
    /\ find (has_id n) (committees (snd (updateCommittee E req w)))
       = Some committee'
    /\ (forall k, In k updatable ->
          obj_get k (req_body req) <> JUndefined ->
          obj_get k committee' = obj_get k (req_body req))
    /\ users (snd (updateCommittee E req w)) = users w
    /\ files (snd (updateCommittee E req w)) = files w.
Proof.
  intros E req w n committee Hcast Hfind Hhas committee' Hval.
  set (allowed := delete_undefined (pick (req_body req) updatable)) in *.
  assert (Hm : obj_get "members" allowed = obj_get "members" (req_body req))
    by (apply obj_get_delete_undefined_pick; simpl; tauto).
  assert (Hnd : NoDup (map fst allowed)).
  { apply delete_undefined_keys_nodup. rewrite pick_keys.
    apply updatable_nodup. }
  assert (Hid : obj_get "_id" committee' = JId n).
  { unfold committee'. rewrite Object_assign_other.
    - apply find_has_id with (committees w). exact Hfind.
    - apply (allowed_keys_not_id (req_body req)). auto. }
  destruct (updateCommittee_after_members_run E req w
              (emit w [call_Committee_findById (obj_get "id" (req_params req));
                       call_populate])
              n committee allowed Hcast Hfind)
    as [w' [Hrun [Hu [Hf Hc]]]]; try reflexivity.
  { fold allowed. rewrite Hm, Hhas. reflexivity. }
  { exact Hid. }
  fold committee' in Hrun, Hc. rewrite Hval in Hrun, Hc.
  rewrite Hrun. simpl. split; [reflexivity|]. split.
  { rewrite Hc. apply find_store_put_same, has_id_of, Hid. }
  split; [|auto].
  intros k Hk Hdef. unfold committee'. rewrite Object_assign_get.
  - apply obj_get_delete_undefined_pick. exact Hk.
  - exact Hnd.
  - apply delete_undefined_pick_defined; assumption.
Qed.

Lemma updateCommittee_members_without_length_witness :
  let req :=
    request_of alice
      [("name", lit "Tender board"); ("members", JArr [])]
      [("id", review_board_id)] None in
  exists committee',
    find (has_id 10) (committees (snd (updateCommittee test_env req world0)))
      = Some committee'
    /\ obj_get "members" committee' = JArr []
    /\ obj_get "name" committee' = lit "Tender board".
Proof.
  intros req.
  destruct (updateCommittee_members_without_length test_env req world0 10%N
              review_board)
    as [_ [Hfind [Hfields _]]];
    try reflexivity.
  eexists. split; [exact Hfind|]. split.
  - rewrite (Hfields "members"); [reflexivity | | discriminate].
    simpl; tauto.
  - rewrite (Hfields "name"); [reflexivity | | discriminate].
    simpl; tauto.
Defined.

Lemma process_members_early_status (E : Env) (members : jsval) (w w' : world)
      (o : outcome) :
  process_members E members w = (Ok (inl o), w') ->
  exists message statusCode,
    o = Next (AppError message statusCode)
    /\ (statusCode = 400 \/ statusCode = 404).
Proof.
  unfold process_members, bind, lift.
  destruct (memberIds_of E members) as [ids|e]; [|discriminate].
  destruct (negb (forallb valid_member_id ids)).
  - unfold ret. intros H. injection H as <- _. eexists. eexists. auto.
  - intros H. apply resolve_members_early in H as [message ->].
    eexists. eexists. auto.
Qed.

Lemma updateCommittee_returns (E : Env) (req : request) (w w' : world)
      (o : outcome) :
  updateCommittee E req w = (o, w') ->
  users w' = users w /\ files w' = files w
  /\ ((exists message statusCode,
         o = Next (AppError message statusCode)
         /\ (statusCode = 400 \/ statusCode = 404 \/ statusCode = 500))
      \/ exists json, o = Respond 200 json []).
Proof.
  unfold updateCommittee, try_catch.
  match goal with
  | |- context [let (_, _) := ?m w in _] => set (body := m)
  end.
  assert (Husers : preserves users body)
    by (unfold body; unfold_calls; preserve).
  assert (Hfiles : preserves files body)
    by (unfold body; unfold_calls; preserve).
  specialize (Husers w). specialize (Hfiles w).
  destruct (body w) as [[o1|e] w1] eqn:Hbody; simpl in Husers, Hfiles;
    intros H; injection H as <- <-; (split; [exact Husers|]);
    (split; [exact Hfiles|]).
  - unfold body in Hbody. unfold bind at 1 in Hbody.
    rewrite Committee_findById_run in Hbody.
    destruct (find_by_id E (obj_get "id" (req_params req)) (committees w))
      as [[committee|]|e]; try discriminate.
    + unfold bind at 1 in Hbody. unfold record at 1 in Hbody.
      unfold bind at 1 in Hbody.
      match type of Hbody with
      | context [let (_, _) := ?m ?x in _] =>
          destruct (m x) as [[[early|updates]|e] w2] eqn:Hstage
      end; try discriminate.
      * unfold ret in Hbody. injection Hbody as <- _. left.
        destruct (has_members E _) in Hstage.
        -- unfold bind in Hstage.
           destruct (process_members E _ _) as [[[o2|arr]|e] w3] eqn:Hp;
             try discriminate.
           unfold ret in Hstage. injection Hstage as <- _.
           apply process_members_early_status in Hp
             as [message [st [-> Hst]]].
           exists message, st. split; [reflexivity|]. tauto.
        -- discriminate.
      * right. unfold bind in Hbody.
        repeat match type of Hbody with
               | context [let (_, _) := ?m ?x in _] => destruct (m x) as [[?|?] ?]
               end; try discriminate;
          unfold ret in Hbody; injection Hbody as <- _; eexists; reflexivity.
    + unfold ret in Hbody. injection Hbody as <- _. left.
      eexists. eexists. split; [reflexivity|]. auto.
  - left. eexists. eexists. split; [reflexivity|]. auto.
Qed.

(** X6.  Whatever the request, updateCommittee answers 200 or passes an
    AppError with status 400, 404 or 500 to next (every exception becomes
    the 500), and it writes neither the User collection nor the files. *)
Theorem updateCommittee_writes_committees_only :
  forall (E : Env) (req : request) (w : world),
    users (snd (updateCommittee E req w)) = users w
    /\ files (snd (updateCommittee E req w)) = files w
    /\ match fst (updateCommittee E req w) with
       | Respond status _ _ => status = 200
       | Next (AppError _ status) =>
           status = 400 \/ status = 404 \/ status = 500
       | _ => False
       end.
Proof.
  intros E req w.
  destruct (updateCommittee E req w) as [o w'] eqn:Hrun.
  apply updateCommittee_returns in Hrun
    as [Hu [Hf [[m [st [-> Hst]]] | [j ->]]]]; simpl; auto.
Qed.

(** ** sendCommitteeNotifications *)

Lemma mail_members_all (createdBy name : jsval) (members tos : list jsval) :
  Forall2 (fun m to => prop "email" m = Ok to) members tos ->
  prop "name" createdBy = Ok name ->
  forall w, mail_members createdBy members w
            = (Ok tt, emit w (map call_sendMail tos)).
Proof.
  intros Htos Hname.
  induction Htos as [|m to members' tos' Hto Hrest IH]; intros w; simpl.
  - rewrite emit_nil. reflexivity.
  - unfold bind at 1. unfold lift. rewrite Hto.
    unfold bind at 1. rewrite Hname.
    unfold bind at 1. unfold sendMail at 1. unfold record.
    rewrite IH, emit_emit. reflexivity.
Qed.

(** X7.  sendCommitteeNotifications never fails its caller and changes
    nothing but the trace.  For a committee whose members are an array of
    objects and whose creator is populated it sends one mail per member, in
    order, to the email of the snapshot; when the creator is null, as
    populate leaves it once the creator's account is gone, and there is a
    member, it sends none. *)
Theorem sendCommitteeNotifications_mails :
  forall (c : obj) (members : list jsval) (w : world),
    obj_get "members" c = JArr members ->
    (exists w', sendCommitteeNotifications (JObj c) w = (Ok tt, w')
                /\ users w' = users w /\ committees w' = committees w
                /\ files w' = files w)
    /\ (forall (tos : list jsval) (name : jsval),
          Forall2 (fun m to => prop "email" m = Ok to) members tos ->
          prop "name" (obj_get "createdBy" c) = Ok name ->
          sendCommitteeNotifications (JObj c) w
            = (Ok tt, emit w (map call_sendMail tos)))
    /\ (members <> [] ->
        obj_get "createdBy" c = JNull ->
        sendCommitteeNotifications (JObj c) w = (Ok tt, w)).
Proof.
  intros c members w Hm. split; [|split].
  - destruct (sendCommitteeNotifications_trace (JObj c) w)
      as [w' [mails [H [Hu [Hc [Hf _]]]]]].
    exists w'. auto.
  - intros tos name Htos Hname.
    pose proof (mail_members_all _ name members tos Htos Hname) as Hmail.
    unfold sendCommitteeNotifications, total, try_catch, bind, lift.
    simpl prop. rewrite Hm, Hmail. reflexivity.
  - intros Hne Hnull.
    unfold sendCommitteeNotifications, total, try_catch, bind, lift.
    simpl prop. rewrite Hm, Hnull.
    destruct members as [|m members']; [contradiction|]. simpl.
    unfold bind, lift. destruct (prop "email" m); reflexivity.
Qed.

Lemma sendCommitteeNotifications_mails_witness :
  sendCommitteeNotifications
    (JObj (populate_createdBy test_env (users world0) audit_panel)) world0
  = (Ok tt,
     emit world0 [call_sendMail (lit "alice@example.org");
                  call_sendMail (lit "bob@example.org")]).
Proof.
  apply (proj1 (proj2 (sendCommitteeNotifications_mails
                         (populate_createdBy test_env (users world0) audit_panel)
                         [snapshot alice; snapshot bob] world0 eq_refl))
           [lit "alice@example.org"; lit "bob@example.org"] (lit "Alice")).
  - repeat constructor.
  - reflexivity.
Defined.

(** ** deleteCommittee *)

Lemma prop_truthy (k : string) (v : jsval) :
  truthy v = true -> exists p, prop k v = Ok p.
Proof. destruct v; simpl; try discriminate; intros _; eexists; reflexivity. Qed.

(** The unlink step of deleteCommittee, by the stored path of the letter. *)
Lemma unlink_step (committee : obj) (w : world) :
  (if truthy (obj_get "formationLetter" committee)
   then
     p <- lift (prop "path" (obj_get "formationLetter" committee)) ;;
     if truthy p then fs_unlink_value p else ret tt
   else ret tt) w
  = match letter_path committee with
    | JStr (c :: p) =>
        (Ok tt, {| users := users w; committees := committees w;
                   files := remove_path (c :: p) (files w);
                   trace := trace w ++ [call_fs_unlink (c :: p)] |})
    | v => if truthy v then (Throw TypeError, w) else (Ok tt, w)
    end.
Proof.
  unfold letter_path. cbv zeta.
  destruct (obj_get "formationLetter" committee)
    as [| | [|] | z | [|c s] | o | l | o]; try reflexivity.
  - unfold truthy. destruct (z =? 0); reflexivity.
  - cbn [truthy prop]. unfold bind, lift.
    destruct (obj_get "path" o) as [| | [|] | z | [|c s] | o' | l | o'];
      try reflexivity.
    unfold truthy. destruct (z =? 0); reflexivity.
Qed.

Lemma deleteCommittee_run :
  forall (E : Env) (req : request) (w : world),
    let id := obj_get "id" (req_params req) in
    let deleted :=
      Respond 204
        (JObj [("status", JStr (str "success"));
               ("message", JStr (str "Committee deleted successfully"))]) [] in
    match find_by_id E id (committees w) with
    | Throw _ =>
        deleteCommittee E req w =
          (Next (AppError (str "Error deleting committee") 400),
           emit w [call_Committee_findById id])
    | Ok None =>
        deleteCommittee E req w =
          (Next (AppError (str "No committee found with that ID") 404),
           emit w [call_Committee_findById id])
    | Ok (Some committee) =>
        forall n, castId E id = Ok (Some n) ->
          deleteCommittee E req w =
            match letter_path committee with
            | JStr (c :: p) =>
                (deleted,
                 {| users := users w;
                    committees := store_remove n (committees w);
                    files := remove_path (c :: p) (files w);
                    trace := trace w ++ [call_Committee_findById id;
                                         call_fs_unlink (c :: p)] |})
            | v =>
                if truthy v
                then (Next (AppError (str "Error deleting committee") 400),
                      emit w [call_Committee_findById id])
                else (deleted,
                      {| users := users w;
                         committees := store_remove n (committees w);
                         files := files w;
                         trace := trace w ++ [call_Committee_findById id] |})
            end
    end.
Proof.
  intros E req w id deleted.
  destruct (find_by_id E id (committees w)) as [[committee|]|e] eqn:Hfind;
    [intros n Hcast| |];
    unfold deleteCommittee, try_catch; fold id;
    unfold bind at 1; rewrite Committee_findById_run, Hfind;
    try reflexivity.
  cbv zeta. unfold bind at 1. rewrite unlink_step.
  assert (Hdel : forall w0,
            Committee_findByIdAndDelete E id w0
            = (Ok tt, {| users := users w0;
                         committees := store_remove n (committees w0);
                         files := files w0; trace := trace w0 |})).
  { intros w0. unfold Committee_findByIdAndDelete, bind, get_committees.
    rewrite Hcast. reflexivity. }
  destruct (letter_path committee) as [| | [|] | z | [|c s] | o | l | o];
    cbn [truthy]; try reflexivity;
    try (unfold bind; rewrite Hdel; simpl; rewrite <- ?app_assoc; reflexivity).
  destruct (z =? 0); cbn [negb]; [|reflexivity].
  unfold bind. rewrite Hdel. reflexivity.
Qed.

(** X8.  deleteCommittee answers 404 for an id that no committee has and
    400 for an id that is no ObjectId, and changes nothing.  For a committee
    that exists it removes the document and answers 204, having unlinked the
    stored path of the formation letter when there is one; but a path that
    is truthy and not a string makes fs.unlink throw, and then the answer is
    400 and the committee stays. *)
Theorem deleteCommittee_cases :
  forall (E : Env) (req : request) (w : world),
    let id := obj_get "id" (req_params req) in
    let deleted :=
      Respond 204
        (JObj [("status", JStr (str "success"));
               ("message", JStr (str "Committee deleted successfully"))]) [] in
    match find_by_id E id (committees w) with
    | Throw _ =>
        deleteCommittee E req w =
          (Next (AppError (str "Error deleting committee") 400),
           emit w [call_Committee_findById id])
    | Ok None =>
        deleteCommittee E req w =
          (Next (AppError (str "No committee found with that ID") 404),
           emit w [call_Committee_findById id])
    | Ok (Some committee) =>
        forall n, castId E id = Ok (Some n) ->
          deleteCommittee E req w =
            match letter_path committee with
            | JStr (c :: p) =>
                (deleted,
                 {| users := users w;
                    committees := store_remove n (committees w);
                    files := remove_path (c :: p) (files w);
                    trace := trace w ++ [call_Committee_findById id;
                                         call_fs_unlink (c :: p)] |})
            | v =>
                if truthy v
                then (Next (AppError (str "Error deleting committee") 400),
                      emit w [call_Committee_findById id])
                else (deleted,
                      {| users := users w;
                         committees := store_remove n (committees w);
                         files := files w;
                         trace := trace w ++ [call_Committee_findById id] |})
            end
    end.
Proof. exact deleteCommittee_run. Qed.

Lemma deleteCommittee_cases_witness :
  deleteCommittee test_env (by_id review_board_id) world0 =
    (Respond 204
       (JObj [("status", JStr (str "success"));
              ("message", JStr (str "Committee deleted successfully"))]) [],
     {| users := [alice; bob];
        committees := [audit_panel];
        files := [str "uploads/new.pdf"];
        trace := [call_Committee_findById review_board_id;
                  call_fs_unlink (str "uploads/letter.pdf")] |})
  /\ deleteCommittee test_env (by_id unknown_id) world0 =
       (Next (AppError (str "No committee found with that ID") 404),
        emit world0 [call_Committee_findById unknown_id]).
Proof.
  split.
  - exact (deleteCommittee_cases test_env (by_id review_board_id) world0
             10%N eq_refl).
  - exact (deleteCommittee_cases test_env (by_id unknown_id) world0).
Defined.

(** ** Round trips of a committee *)

(** A 201 of createCommittee means the committee is stored. *)
Lemma createCommittee_created (E : Env) (req : request) (newId : N)
      (w w' : world) (status : Z) (json : jsval) (cookies : list cookie) :
  createCommittee E req newId w = (Respond status json cookies, w') ->
  exists membersArray,
    let doc := new_committee req newId membersArray in
    json = success "committee" (JObj (populate_createdBy E (users w) doc))
    /\ committees w' = store_put newId doc (committees w)
    /\ users w' = users w
    /\ files w' = files w.
Proof.
  intros Hrun.
  set (stage := if has_members E (obj_get "members" (req_body req))
                then process_members E (obj_get "members" (req_body req))
                else ret (inr [])).
  assert (Hu : preserves users stage) by (unfold stage; preserve).
  assert (Hc : preserves committees stage) by (unfold stage; preserve).
  assert (Hf : preserves files stage) by (unfold stage; preserve).
  specialize (Hu w). specialize (Hc w). specialize (Hf w).
  destruct (stage w) as [[[early|arr]|e] w1] eqn:Hstage; simpl in Hu, Hc, Hf.
  - unfold createCommittee, try_catch in Hrun. fold stage in Hrun.
    erewrite bind_ok in Hrun by exact Hstage.
    unfold ret in Hrun. injection Hrun as Ho _.
    unfold stage in Hstage.
    destruct (has_members E _) in Hstage; [|discriminate].
    apply process_members_early in Hstage as [m [st ->]]. discriminate.
  - destruct (createCommittee_after_members_run E req newId w w1 arr Hstage)
      as [w2 [Hrun2 [Hu2 [Hc2 [Hf2 _]]]]].
    rewrite Hrun in Hrun2. exists arr. cbv zeta in *.
    destruct (Committee_validate E (new_committee req newId arr));
      [|discriminate].
    injection Hrun2 as _ Hj _ Hw. subst w2.
    rewrite Hu in *. rewrite Hc in *. rewrite Hf in *. auto.
  - unfold createCommittee, try_catch in Hrun. fold stage in Hrun.
    erewrite bind_throw in Hrun by exact Hstage. discriminate.
Qed.

Lemma store_remove_put_fresh (n : N) (doc : obj) (docs : list obj) :
  has_id n doc = true -> find (has_id n) docs = None ->
  store_remove n (store_put n doc docs) = docs.
Proof.
  intros Hdoc. induction docs as [|d ds IH]; simpl.
  - rewrite Hdoc. reflexivity.
  - destruct (has_id n d) eqn:Hd; [discriminate|]. intros H.
    simpl. rewrite Hd, IH by exact H. reflexivity.
Qed.

(** X9.  After a createCommittee that answered 201 under a fresh id, a
    deleteCommittee of that id answers 204, brings the Committee collection
    back to what it was before the creation, and removes the upload of the
    creating request from storage. *)
Theorem deleteCommittee_undoes_createCommittee :
  forall (E : Env) (req del : request) (newId : N) (w : world)
         (json : jsval) (cookies : list cookie) (status : Z),
    fst (createCommittee E req newId w) = Respond status json cookies ->
    find (has_id newId) (committees w) = None ->
    castId E (obj_get "id" (req_params del)) = Ok (Some newId) ->
    (forall f, req_file req = Some f -> path f <> []) ->
    let w1 := snd (createCommittee E req newId w) in
    status_of (fst (deleteCommittee E del w1)) = Some 204
    /\ committees (snd (deleteCommittee E del w1)) = committees w
    /\ files (snd (deleteCommittee E del w1)) = without_upload req (files w)
    /\ users (snd (deleteCommittee E del w1)) = users w.
Proof.
  intros E req del newId w json cookies status Hcreated Hfresh Hcast Hpath w1.
  destruct (createCommittee E req newId w) as [o w1'] eqn:Hrun.
  simpl in Hcreated, w1. subst o w1.
  apply createCommittee_created in Hrun as [arr [_ [Hc [Hu Hf]]]].
  set (doc := new_committee req newId arr) in *.
  assert (Hid : has_id newId doc = true) by (apply has_id_of; reflexivity).
  pose proof (deleteCommittee_run E del w1') as Hdel. cbv zeta in Hdel.
  unfold find_by_id in Hdel. rewrite Hcast, Hc in Hdel.
  rewrite find_store_put_same in Hdel by exact Hid.
  specialize (Hdel newId eq_refl). rewrite Hdel.
  rewrite store_remove_put_fresh by assumption.
  unfold without_upload, letter_path, doc, new_committee.
  cbn [obj_get String.eqb Ascii.eqb Bool.eqb].
  destruct (req_file req) as [f|] eqn:Hfile; cbn [formationLetter_of].
  - cbn [truthy prop obj_get String.eqb Ascii.eqb Bool.eqb].
    specialize (Hpath f eq_refl).
    destruct (path f) as [|c p] eqn:Hp; [contradiction|].
    simpl. rewrite Hf, Hu. auto.
  - simpl. rewrite Hf, Hu. auto.
Qed.

Lemma deleteCommittee_undoes_createCommittee_witness :
  let w1 := snd (createCommittee test_env create_request 12 world0) in
  status_of (fst (deleteCommittee test_env (by_id new_id) w1)) = Some 204
  /\ committees (snd (deleteCommittee test_env (by_id new_id) w1))
     = committees world0
  /\ files (snd (deleteCommittee test_env (by_id new_id) w1))
     = [str "uploads/letter.pdf"]
  /\ users (snd (deleteCommittee test_env (by_id new_id) w1)) = users world0.
Proof.
  eapply (deleteCommittee_undoes_createCommittee test_env create_request
            (by_id new_id) 12 world0).
  - reflexivity.
  - reflexivity.
  - reflexivity.
  - intros f H. injection H as <-. discriminate.
Defined.

(** ** getCommittee *)

Lemma getCommittee_run (E : Env) (req : request) (w : world) :
  let id := obj_get "id" (req_params req) in
  getCommittee E req w =
    match find_by_id E id (committees w) with
    | Ok (Some c) =>
        (Respond 200
           (success "committee" (JObj (populate_createdBy E (users w) c))) [],
         emit w [call_Committee_findById id; call_populate])
    | Ok None =>
        (Next (AppError (str "Committee not found") 404),
         emit w [call_Committee_findById id])
    | Throw _ =>
        (Next (AppError (str "Failed to fetch committee") 500),
         emit w [call_Committee_findById id])
    end.
Proof.
  intros id. unfold getCommittee, try_catch, Committee_findById_populate.
  fold id. unfold bind at 1. unfold bind at 1.
  rewrite Committee_findById_run.
  destruct (find_by_id E id (committees w)) as [[c|]|e]; try reflexivity.
  unfold bind, record, get_users, ret. cbn [fst snd users emit].
  rewrite emit_emit. reflexivity.
Qed.

(** X10.  getCommittee writes nothing, and its answer is decided by the
    two collections alone, so two fetches in a row give the same answer.
    A 200 carries the stored committee with its creator replaced by null or
    by a user object that has no password. *)
Theorem getCommittee_reads :
  forall (E : Env) (req : request) (w : world),
    users (snd (getCommittee E req w)) = users w
    /\ committees (snd (getCommittee E req w)) = committees w
    /\ files (snd (getCommittee E req w)) = files w
    /\ (forall w2, users w2 = users w -> committees w2 = committees w ->
          fst (getCommittee E req w2) = fst (getCommittee E req w))
    /\ fst (getCommittee E req (snd (getCommittee E req w)))
       = fst (getCommittee E req w)
    /\ (forall c, fst (getCommittee E req w)
                  = Respond 200 (success "committee" (JObj c)) [] ->
          exists stored creator,
            find_by_id E (obj_get "id" (req_params req)) (committees w)
              = Ok (Some stored)
            /\ c = obj_set "createdBy" creator stored
            /\ (creator = JNull
                \/ exists u, creator = JObj u
                             /\ obj_get "password" u = JUndefined)).
Proof.
  intros E req w.
  assert (Hsame : forall w2, users w2 = users w -> committees w2 = committees w ->
                   fst (getCommittee E req w2) = fst (getCommittee E req w)).
  { intros w2 Hu Hc. rewrite !getCommittee_run. cbv zeta. rewrite Hu, Hc.
    destruct (find_by_id E _ (committees w)) as [[c|]|e]; reflexivity. }
  assert (Hw : users (snd (getCommittee E req w)) = users w
               /\ committees (snd (getCommittee E req w)) = committees w
               /\ files (snd (getCommittee E req w)) = files w).
  { rewrite getCommittee_run. cbv zeta.
    destruct (find_by_id E _ (committees w)) as [[c|]|e]; auto. }
  destruct Hw as [Hu [Hc Hf]].
  repeat split; try assumption.
  - apply Hsame; assumption.
  - intros c. rewrite getCommittee_run. cbv zeta.
    destruct (find_by_id E _ (committees w)) as [[stored|]|e];
      try discriminate.
    simpl. intros H. injection H as <-.
    unfold populate_createdBy.
    destruct (find_by_id E (obj_get "createdBy" stored) (users w))
      as [[u|]|e]; eexists; eexists; (split; [reflexivity|]);
      (split; [reflexivity|]); auto.
    right. eexists. split; reflexivity.
Qed.

Lemma getCommittee_reads_witness :
  exists creator,
    fst (getCommittee test_env (by_id review_board_id) world0)
      = Respond 200
          (success "committee"
             (JObj (obj_set "createdBy" creator review_board))) []
    /\ (creator = JNull
        \/ exists u, creator = JObj u /\ obj_get "password" u = JUndefined).
Proof.
  destruct (proj2 (proj2 (proj2 (proj2 (proj2
              (getCommittee_reads test_env (by_id review_board_id) world0)))))
              _ eq_refl)
    as [stored [creator [Hfind [Hc Hp]]]].
  assert (Hs : stored = review_board).
  { vm_compute in Hfind. injection Hfind as <-. reflexivity. }
  subst stored.
  exists creator. split; [|exact Hp].
  rewrite <- Hc. reflexivity.
Defined.

(** X11.  After a createCommittee that answered 201, getCommittee of the
    new id answers 200 with the very committee the 201 carried. *)
Theorem getCommittee_after_createCommittee :
  forall (E : Env) (req get : request) (newId : N) (w : world)
         (json : jsval) (cookies : list cookie) (status : Z),
    fst (createCommittee E req newId w) = Respond status json cookies ->
    castId E (obj_get "id" (req_params get)) = Ok (Some newId) ->
    fst (getCommittee E get (snd (createCommittee E req newId w)))
      = Respond 200 json [].
Proof.
  intros E req get newId w json cookies status Hcreated Hcast.
  destruct (createCommittee E req newId w) as [o w1] eqn:Hrun.
  simpl in Hcreated |- *. subst o.
  apply createCommittee_created in Hrun as [arr [Hj [Hc [Hu Hf]]]].
  rewrite getCommittee_run. cbv zeta. unfold find_by_id.
  rewrite Hcast, Hc, find_store_put_same by (apply has_id_of; reflexivity).
  simpl. rewrite Hu, Hj. reflexivity.
Qed.

Lemma getCommittee_after_createCommittee_witness :
  fst (getCommittee test_env (by_id new_id)
         (snd (createCommittee test_env create_request 12 world0)))
  = Respond 200
      (success "committee"
         (JObj (populate_createdBy test_env (users world0)
                  (new_committee create_request 12
                     [snapshot alice; snapshot bob])))) [].
Proof.
  eapply (getCommittee_after_createCommittee test_env create_request
            (by_id new_id) 12 world0).
  - reflexivity.
  - reflexivity.
Defined.

(** ** downloadFormationLetter *)

Lemma existsb_jsstr_eqb (p : jsstring) (fs : list jsstring) :
  existsb (jsstr_eqb p) fs = true <-> In p fs.
Proof.
  rewrite existsb_exists. split.
  - intros [q [Hin Heq]]. apply jsstr_eqb_eq in Heq. subst. exact Hin.
  - intros Hin. exists p. split; [exact Hin | apply jsstr_eqb_refl].
Qed.

(** X12.  After a createCommittee that answered 201, the download of the
    new committee serves the uploaded file under its original name when the
    file is in storage where the server looks for it, answers 404 when it
    is not there, and answers 404 when the request carried no upload. *)
Theorem downloadFormationLetter_after_createCommittee :
  forall (E : Env) (server_path : jsstring -> jsstring) (req dl : request)
         (newId : N) (w : world) (json : jsval) (cookies : list cookie)
         (status : Z),
    fst (createCommittee E req newId w) = Respond status json cookies ->
    castId E (obj_get "id" (req_params dl)) = Ok (Some newId) ->
    fst (downloadFormationLetter E server_path dl
           (snd (createCommittee E req newId w))) =
    match req_file req with
    | None => inl (Next (AppError (str "No formation letter found") 404))
    | Some f =>
        if existsb (jsstr_eqb (server_path (path f))) (files w)
        then inr {| download_path := server_path (path f);
                    download_name := JStr (originalname f) |}
        else inl (Next (AppError (str "File not found on server") 404))
    end.
Proof.
  intros E sp req dl newId w json cookies status Hcreated Hcast.
  destruct (createCommittee E req newId w) as [o w1] eqn:Hrun.
  simpl in Hcreated |- *. subst o.
  apply createCommittee_created in Hrun as [arr [_ [Hc [Hu Hf]]]].
  unfold downloadFormationLetter, try_catch.
  erewrite bind_ok
    by (rewrite Committee_findById_run; unfold find_by_id;
        rewrite Hcast, Hc, find_store_put_same
          by (apply has_id_of; reflexivity);
        reflexivity).
  cbv beta iota zeta. unfold new_committee.
  cbn [obj_get String.eqb Ascii.eqb Bool.eqb].
  destruct (req_file req) as [f|]; cbn [formationLetter_of truthy negb].
  - unfold bind at 1. unfold lift at 1.
    cbn [prop obj_get String.eqb Ascii.eqb Bool.eqb].
    unfold bind at 1. unfold get_files at 1. cbn [files emit]. rewrite Hf.
    destruct (existsb (jsstr_eqb (sp (path f))) (files w)); reflexivity.
  - reflexivity.
Qed.

Lemma downloadFormationLetter_after_createCommittee_witness :
  fst (downloadFormationLetter test_env (fun p => p) (by_id new_id)
         (snd (createCommittee test_env create_request 12 world0)))
  = inr {| download_path := str "uploads/new.pdf";
           download_name := lit "formation.pdf" |}.
Proof.
  eapply (downloadFormationLetter_after_createCommittee test_env (fun p => p)
            create_request (by_id new_id) 12 world0).
  - reflexivity.
  - reflexivity.
Defined.

(** ** protect: what it lets through *)

Lemma protect_ways_out :
  forall (E : Env) (req : request) (now : Z) (w : world),
    users (snd (protect E req now w)) = users w
    /\ committees (snd (protect E req now w)) = committees w
    /\ files (snd (protect E req now w)) = files w
    /\ match fst (protect E req now w) with
       | NextHandler user =>
           exists token decoded,
             request_token req = Some token /\ token <> []
             /\ jwt_verify E token now = Ok decoded
             /\ find_by_id E (jwt_id decoded) (users w) = Ok (Some user)
             /\ changedPasswordAfter user (jwt_iat decoded) = false
       | Next (AppError _ statusCode) => statusCode = 401
       | _ => False
       end.
Proof.
  intros E req now w.
  assert (Hu : preserves users (protect E req now))
    by (unfold protect; unfold_calls; preserve).
  assert (Hc : preserves committees (protect E req now))
    by (unfold protect; unfold_calls; preserve).
  assert (Hf : preserves files (protect E req now))
    by (unfold protect; unfold_calls; preserve).
  split; [apply Hu|]. split; [apply Hc|]. split; [apply Hf|].
  unfold protect.
  destruct (request_token req) as [[|c t]|] eqn:Htok; try reflexivity.
  unfold try_catch. unfold bind at 1. unfold lift.
  destruct (jwt_verify E (c :: t) now) as [decoded|e] eqn:Hver;
    [|reflexivity].
  unfold bind at 1. rewrite User_findById_run.
  destruct (find_by_id E (jwt_id decoded) (users w)) as [[user|]|e] eqn:Hfind;
    try reflexivity.
  destruct (changedPasswordAfter user (jwt_iat decoded)) eqn:Hcpa;
    [reflexivity|].
  simpl. exists (c :: t), decoded. repeat split; auto. discriminate.
Qed.

(** X13.  protect writes nothing.  It either passes an AppError with
    status 401 to next, or hands on a user: then the request carried a
    non-empty token that verifies at that time, the user is the stored user
    that the token names, and the token was not issued before that user's
    last password change. *)
Theorem protect_sound :
  forall (E : Env) (req : request) (now : Z) (w : world),
    users (snd (protect E req now w)) = users w
    /\ committees (snd (protect E req now w)) = committees w
    /\ files (snd (protect E req now w)) = files w
    /\ match fst (protect E req now w) with
       | NextHandler user =>
           exists token decoded,
             request_token req = Some token /\ token <> []
             /\ jwt_verify E token now = Ok decoded
             /\ find_by_id E (jwt_id decoded) (users w) = Ok (Some user)
             /\ changedPasswordAfter user (jwt_iat decoded) = false
       | Next (AppError _ statusCode) => statusCode = 401
       | _ => False
       end.
Proof. exact protect_ways_out. Qed.

(** ** login, and the token it hands out *)

Lemma split_go_no_sep (sep : N) (s cur : jsstring) :
  ~ In sep s -> split_go sep s cur = [rev cur ++ s].
Proof.
  revert cur. induction s as [|c s IH]; intros cur H; simpl.
  - rewrite app_nil_r. reflexivity.
  - destruct (N.eqb c sep) eqn:Ec.
    + apply N.eqb_eq in Ec. subst. elim H. left. reflexivity.
    + rewrite IH by (intros Hin; apply H; right; exact Hin).
      simpl. rewrite <- app_assoc. reflexivity.
Qed.

(** A token without a space survives the Authorization header. *)
Lemma request_token_bearer (req : request) (token : jsstring) :
  ~ In 32%N token ->
  req_authorization req = Some (str "Bearer " ++ token) ->
  request_token req = Some token.
Proof.
  intros Hsp Hh. unfold request_token. rewrite Hh.
  change (startsWith (str "Bearer " ++ token) (str "Bearer")) with true.
  cbv iota. unfold split. cbn [str map list_ascii_of_string N_of_ascii
    app split_go N.eqb Pos.eqb N_of_digits N.add N.mul].
  simpl. rewrite split_go_no_sep by exact Hsp. reflexivity.
Qed.

Lemma protect_with_token (E : Env) (req : request) (now : Z) (w : world)
      (token : jsstring) (c : claims) :
  request_token req = Some token -> token <> [] ->
  jwt_verify E token now = Ok c ->
  protect E req now w =
    (match find_by_id E (jwt_id c) (users w) with
     | Ok (Some user) =>
         if changedPasswordAfter user (jwt_iat c)
         then Next (AppError (str "Password changed - please log in again") 401)
         else NextHandler user
     | Ok None => Next (AppError (str "User no longer exists") 401)
     | Throw _ => Next (AppError (str "Invalid or expired token") 401)
     end,
     emit w [call_User_findById (jwt_id c)]).
Proof.
  intros Htok Hne Hver. unfold protect. rewrite Htok.
  destruct token as [|u t]; [contradiction|].
  unfold try_catch. unfold bind at 1. unfold lift. rewrite Hver.
  unfold bind at 1. rewrite User_findById_run.
  destruct (find_by_id E (jwt_id c) (users w)) as [[user|]|e]; try reflexivity.
  destruct (changedPasswordAfter user (jwt_iat c)); reflexivity.
Qed.

Lemma login_success_run :
  forall (E : Env) (req : request) (now : Z) (w : world) (user : obj),
    let email := obj_get "email" (req_body req) in
    let password := obj_get "password" (req_body req) in
    truthy email = true -> truthy password = true ->
    find_one "email" email (users w) = Some user ->
    correctPassword E password (obj_get "password" user) = true ->
    truthy (obj_get "isActive" user) = true ->
    let token :=
      jwt_encode E {| jwt_id := obj_get "_id" user; jwt_iat := now / 1000;
                      jwt_exp := None |} in
    exists shown,
      login E req now w =
        (Respond 200
           (JObj [("status", JStr (str "success"));
                  ("token", JStr token);
                  ("data", JObj [("user", JObj shown)])])
           [{| cookie_name := str "jwt"; cookie_value := token;
               cookie_expires := now + 86400000; cookie_httpOnly := true |}],
         emit w [call_User_findOne "email" email])
      /\ obj_get "password" shown = JUndefined
      /\ (forall k, k <> "password" -> obj_get k shown = obj_get k user).
Proof.
  intros E req now w user email password He Hp Hf Hc Ha token.
  exists (obj_set "password" JUndefined user). split; [|split].
  - unfold login, catchAsync, try_catch. fold email. fold password.
    rewrite He, Hp. simpl.
    unfold bind. rewrite User_findOne_run, Hf, Hc, Ha. reflexivity.
  - rewrite obj_get_set, String.eqb_refl. reflexivity.
  - intros k Hk. apply obj_get_set_other. exact Hk.
Qed.

(** X14.  A login with the email of a stored user, the password that user's
    digest accepts, and an active account answers 200 with a token for the
    user's id, stamped with the second of the login and without expiry, in
    the body and in a cookie that lasts a day; the user in the body has no
    password; and the store has only been asked for the email. *)
Theorem login_success :
  forall (E : Env) (req : request) (now : Z) (w : world) (user : obj),
    let email := obj_get "email" (req_body req) in
    let password := obj_get "password" (req_body req) in
    truthy email = true -> truthy password = true ->
    find_one "email" email (users w) = Some user ->
    correctPassword E password (obj_get "password" user) = true ->
    truthy (obj_get "isActive" user) = true ->
    let token :=
      jwt_encode E {| jwt_id := obj_get "_id" user; jwt_iat := now / 1000;
                      jwt_exp := None |} in
    exists shown,
      login E req now w =
        (Respond 200
           (JObj [("status", JStr (str "success"));
                  ("token", JStr token);
                  ("data", JObj [("user", JObj shown)])])
           [{| cookie_name := str "jwt"; cookie_value := token;
               cookie_expires := now + 86400000; cookie_httpOnly := true |}],
         emit w [call_User_findOne "email" email])
      /\ obj_get "password" shown = JUndefined
      /\ (forall k, k <> "password" -> obj_get k shown = obj_get k user).
Proof. exact login_success_run. Qed.

Lemma login_success_witness :
  exists shown,
    login test_env alice_login 5000000 world0 =
      (Respond 200
         (JObj [("status", JStr (str "success"));
                ("token", JStr [74; 1; 5000; 0]%N);
                ("data", JObj [("user", JObj shown)])])
         [{| cookie_name := str "jwt"; cookie_value := [74; 1; 5000; 0]%N;
             cookie_expires := 91400000; cookie_httpOnly := true |}],
       emit world0 [call_User_findOne "email" (lit "alice@example.org")])
    /\ obj_get "password" shown = JUndefined
    /\ (forall k, k <> "password" -> obj_get k shown = obj_get k alice).
Proof.
  apply (login_success test_env alice_login 5000000 world0 alice);
    reflexivity.
Defined.

(** X15.  The token of a successful login is accepted by protect at any
    later time, from the cookie or from an Authorization header, as long as
    the user is stored under the id and has not changed the password since;
    this given that the token library reads back what it signed and that
    the token holds no space. *)
Theorem login_token_is_accepted :
  forall (E : Env) (req : request) (now : Z) (w : world) (user : obj) (n : N),
    let email := obj_get "email" (req_body req) in
    let password := obj_get "password" (req_body req) in
    truthy email = true -> truthy password = true ->
    find_one "email" email (users w) = Some user ->
    correctPassword E password (obj_get "password" user) = true ->
    truthy (obj_get "isActive" user) = true ->
    obj_get "_id" user = JId n ->
    find (has_id n) (users w) = Some user ->
    changedPasswordAfter user (now / 1000) = false ->
    let c := {| jwt_id := JId n; jwt_iat := now / 1000; jwt_exp := None |} in
    let token := jwt_encode E c in
    jwt_decode E token = Some c ->
    token <> [] ->
    ~ In 32%N token ->
    issued_token (fst (login E req now w)) = Some (JStr token)
    /\ forall (next : request) (later : Z),
         (req_authorization next = Some (str "Bearer " ++ token)
          \/ (req_authorization next = None
              /\ req_cookie_jwt next = Some token)) ->
         fst (protect E next later (snd (login E req now w)))
           = NextHandler user.
Proof.
  intros E req now w user n email password He Hp Hf Hc Ha Hid Hstored Hcpa
         c token Hdec Hne Hsp.
  destruct (login_success_run E req now w user He Hp Hf Hc Ha)
    as [shown [Hrun _]].
  rewrite Hid in Hrun. fold c in Hrun. fold token in Hrun.
  rewrite Hrun. split; [reflexivity|].
  intros next later Hcarried.
  assert (Htok : request_token next = Some token).
  { destruct Hcarried as [Hh | [Hh Hck]].
    - apply request_token_bearer; assumption.
    - unfold request_token. rewrite Hh, Hck.
      destruct token; [contradiction | reflexivity]. }
  assert (Hver : jwt_verify E token later = Ok c)
    by (unfold jwt_verify; rewrite Hdec; reflexivity).
  rewrite (protect_with_token E next later _ token c Htok Hne Hver).
  simpl. rewrite Hstored, Hcpa. reflexivity.
Qed.

Lemma login_token_is_accepted_witness :
  issued_token (fst (login test_env alice_login 5000000 world0))
    = Some (JStr [74; 1; 5000; 0]%N)
  /\ fst (protect test_env
            {| req_body := []; req_params := []; req_user := [];
               req_file := None;
               req_authorization := Some (str "Bearer " ++ [74; 1; 5000; 0]%N);
               req_cookie_jwt := None |}
            99999999999
            (snd (login test_env alice_login 5000000 world0)))
     = NextHandler alice.
Proof.
  destruct (login_token_is_accepted test_env alice_login 5000000 world0 alice
              1%N) as [Htoken Hguard]; try reflexivity.
  - discriminate.
  - simpl. intros H. repeat destruct H as [H|H]; try discriminate H. exact H.
  - split; [exact Htoken|].
    apply Hguard. left. reflexivity.
Defined.

(** ** register *)

(** X16.  register either creates exactly one user, appended to the
    collection under the drawn id, and answers 201 with a token for that id
    and the user without the password; or, when the store rejects the
    document, passes the exception on and creates nothing.  The created
    user has the role and the employee ID of the request body as they came,
    and an OTP flag that is false unless the body gave a truthy one. *)
Theorem register_outcomes :
  forall (E : Env) (req : request) (newId : N) (now : Z) (w : world),
    let body := req_body req in
    let user := new_user E newId (register_fields body) in
    (obj_get "_id" user = JId newId
     /\ obj_get "role" user = obj_get "role" body
     /\ obj_get "employeeId" user = obj_get "employeeId" body
     /\ obj_get "password" user = hashPassword E (obj_get "password" body)
     /\ (truthy (obj_get "otpEnabled" body) = false ->
         obj_get "otpEnabled" user = JBool false))
    /\ if User_validate E (users w) user
       then register E req newId now w =
              (createSendToken E user 201 now,
               {| users := users w ++ [user]; committees := committees w;
                  files := files w; trace := trace w ++ [call_User_create] |})
            /\ issued_token (createSendToken E user 201 now)
               = Some (JStr (jwt_encode E
                               {| jwt_id := JId newId; jwt_iat := now / 1000;
                                  jwt_exp := None |}))
       else register E req newId now w =
              (Next (Thrown ValidationError), emit w [call_User_create]).
Proof.
  intros E req newId now w body user. split.
  - unfold user, new_user, register_fields.
    cbn [obj_get String.eqb Ascii.eqb Bool.eqb].
    rewrite !obj_get_set_other by discriminate.
    rewrite obj_get_set, String.eqb_refl.
    cbn [obj_get String.eqb Ascii.eqb Bool.eqb].
    repeat split. intros H. unfold js_or. rewrite H. reflexivity.
  - assert (Hrun : register E req newId now w =
              if User_validate E (users w) user
              then (createSendToken E user 201 now,
                    {| users := users w ++ [user]; committees := committees w;
                       files := files w;
                       trace := trace w ++ [call_User_create] |})
              else (Next (Thrown ValidationError), emit w [call_User_create])).
    { unfold register, catchAsync, try_catch. unfold bind at 1.
      unfold User_create. unfold bind at 1. unfold record at 1.
      unfold bind at 1. unfold get_users at 1. cbn [users emit].
      fold body. fold user.
      destruct (User_validate E (users w) user); reflexivity. }
    rewrite Hrun. destruct (User_validate E (users w) user); [|reflexivity].
    split; reflexivity.
Qed.

Lemma register_outcomes_witness :
  let user := new_user test_env 3 (register_fields (req_body register_request)) in
  register test_env register_request 3 5000000 world0 =
    (createSendToken test_env user 201 5000000,
     {| users := [alice; bob; user]; committees := committees world0;
        files := files world0; trace := [call_User_create] |})
  /\ issued_token (createSendToken test_env user 201 5000000)
     = Some (JStr [74; 3; 5000; 0]%N)
  /\ obj_get "otpEnabled" user = JBool false.
Proof.
  intros user.
  destruct (register_outcomes test_env register_request 3 5000000 world0)
    as [[_ [_ [_ [_ Hotp]]]] [Hrun Htoken]].
  split; [exact Hrun|]. split; [exact Htoken|].
  apply Hotp. reflexivity.
Defined.

(** ** updateUser and updateMe *)

Lemma User_save_run (E : Env) (doc : obj) (n : N) (w : world) :
  obj_get "_id" doc = JId n ->
  User_save E doc w =
    if User_validate E (users w) doc
    then (Ok tt, {| users := store_put n doc (users w);
                    committees := committees w; files := files w;
                    trace := trace w ++ [call_User_save] |})
    else (Throw ValidationError, emit w [call_User_save]).
Proof.
  intros Hid. unfold User_save, bind, record, get_users. simpl.
  rewrite Hid. destruct (User_validate E (users w) doc); reflexivity.
Qed.

Lemma whitelist_keeps_id (body : obj) (keys : list string) (user : obj) (n : N) :
  ~ In "_id" keys -> obj_get "_id" user = JId n ->
  obj_get "_id" (Object_assign user (delete_undefined (pick body keys))) = JId n.
Proof.
  intros Hk Hid. rewrite Object_assign_other; [exact Hid|].
  intros Hin. apply delete_undefined_pick_keys in Hin as [Hin _]. tauto.
Qed.

(** The step both handlers share: assign the whitelisted fields that the
    body defines to the fetched user, and save. *)
Lemma assign_and_save (E : Env) (body : obj) (keys : list string) (user : obj)
      (n : N) (w : world) :
  ~ In "_id" keys -> NoDup keys -> find (has_id n) (users w) = Some user ->
  let user' := Object_assign user (delete_undefined (pick body keys)) in
  exists w',
    User_save E user' w =
      (if User_validate E (users w) user' then Ok tt else Throw ValidationError,
       w')
    /\ committees w' = committees w /\ files w' = files w
    /\ (forall m u, find (has_id m) (users w) = Some u ->
          exists u', find (has_id m) (users w') = Some u'
                     /\ (m <> n -> u' = u)
                     /\ forall k, ~ In k keys \/ obj_get k body = JUndefined ->
                                  obj_get k u' = obj_get k u)
    /\ (User_validate E (users w) user' = true ->
        find (has_id n) (users w') = Some user'
        /\ forall k, In k keys -> obj_get k body <> JUndefined ->
                     obj_get k user' = obj_get k body).
Proof.
  intros Hk Hnd Hfind user'.
  assert (Hid : obj_get "_id" user' = JId n)
    by (apply whitelist_keeps_id;
        [exact Hk | apply find_has_id with (users w); exact Hfind]).
  rewrite (User_save_run E user' n w Hid).
  destruct (User_validate E (users w) user') eqn:Hv.
  - eexists. split; [reflexivity|]. simpl. repeat split.
    + intros m u Hu. destruct (N.eq_dec m n) as [->|Hne].
      * exists user'. split;
          [apply find_store_put_same, has_id_of, Hid|].
        split; [tauto|]. intros k Hkk.
        assert (u = user) as -> by congruence.
        apply Object_assign_other. intros Hin.
        apply delete_undefined_pick_keys in Hin. tauto.
      * exists u. split; [|auto].
        rewrite find_store_put_other; auto. apply has_id_of, Hid.
    + apply find_store_put_same, has_id_of, Hid.
    + intros k Hin Hdef. unfold user'. rewrite Object_assign_get.
      * apply obj_get_delete_undefined_pick. exact Hin.
      * apply delete_undefined_keys_nodup. rewrite pick_keys. exact Hnd.
      * apply delete_undefined_pick_defined; assumption.
  - eexists. split; [reflexivity|]. simpl. repeat split; try discriminate.
    intros m u Hu. exists u. auto.
Qed.

Lemma admin_updatable_nodup : NoDup admin_updatable.
Proof.
  unfold admin_updatable.
  repeat (constructor;
          [simpl; intros H;
           repeat (destruct H as [H|H]; [discriminate|]); exact H|]).
  constructor.
Qed.

Lemma self_updatable_nodup : NoDup self_updatable.
Proof.
  unfold self_updatable.
  repeat (constructor;
          [simpl; intros H;
           repeat (destruct H as [H|H]; [discriminate|]); exact H|]).
  constructor.
Qed.

Lemma find_by_id_some (E : Env) (id : jsval) (docs : list obj) (d : obj) :
  find_by_id E id docs = Ok (Some d) ->
  exists n, castId E id = Ok (Some n) /\ find (has_id n) docs = Some d.
Proof.
  unfold find_by_id. destruct (castId E id) as [[n|]|e]; try discriminate.
  intros H. injection H as H. exists n. auto.
Qed.

(** X17.  After an updateUser request every stored user is still stored,
    no user but the target has changed, and no field has changed that is
    not one of name, email, role, department, phoneNumber, designation,
    isActive, otpEnabled and permissions defined in the body: the password,
    the employee ID and the id never do.  When the answer is 200 the target
    carries the value of the body in each of those that the body defines.
    The committees and the files are as before. *)
Theorem updateUser_frame :
  forall (E : Env) (req : request) (w : world),
    committees (snd (updateUser E req w)) = committees w
    /\ files (snd (updateUser E req w)) = files w
    /\ (forall m u, find (has_id m) (users w) = Some u ->
          exists u', find (has_id m) (users (snd (updateUser E req w))) = Some u'
            /\ (castId E (obj_get "userId" (req_params req)) <> Ok (Some m) ->
                u' = u)
            /\ forall k, ~ In k admin_updatable
                         \/ obj_get k (req_body req) = JUndefined ->
                         obj_get k u' = obj_get k u)
    /\ (forall json cookies n,
          fst (updateUser E req w) = Respond 200 json cookies ->
          castId E (obj_get "userId" (req_params req)) = Ok (Some n) ->
          exists target,
            find (has_id n) (users (snd (updateUser E req w))) = Some target
            /\ json = success "user" (user_view target)
            /\ forall k, In k admin_updatable ->
                         obj_get k (req_body req) <> JUndefined ->
                         obj_get k target = obj_get k (req_body req)).
Proof.
  intros E req w.
  destruct (updateUser E req w) as [o w'] eqn:Hrun. simpl.
  unfold updateUser, try_catch in Hrun. unfold bind at 1 in Hrun.
  rewrite User_findById_run in Hrun.
  destruct (find_by_id E (obj_get "userId" (req_params req)) (users w))
    as [[user|]|e] eqn:Hfind.
  - apply find_by_id_some in Hfind as [n [Hcast Hfind]].
    set (w1 := emit w _) in Hrun.
    destruct (assign_and_save E (req_body req) admin_updatable user n w1)
      as [w2 [Hsave [Hc [Hf [Hframe Hpos]]]]].
    { simpl. intros H.
      repeat (destruct H as [H|H]; [discriminate|]). exact H. }
    { apply admin_updatable_nodup. }
    { exact Hfind. }
    cbv zeta in Hsave, Hpos, Hrun. unfold bind in Hrun. rewrite Hsave in Hrun.
    destruct (User_validate E (users w1) _) eqn:Hv; injection Hrun as <- <-.
    + split; [exact Hc|]. split; [exact Hf|]. split.
      * intros m u Hu. destruct (Hframe m u Hu) as [u' [H1 [H2 H3]]].
        exists u'. split; [exact H1|]. split; [|exact H3].
        intros Hne. apply H2. intros ->. apply Hne. exact Hcast.
      * intros json cookies n' Hresp Hcast'.
        assert (n' = n) as -> by congruence.
        destruct (Hpos eq_refl) as [Hstored Hvals].
        eexists. split; [exact Hstored|]. split; [|exact Hvals].
        unfold ret in Hresp. injection Hresp as <- _. reflexivity.
    + split; [exact Hc|]. split; [exact Hf|]. split.
      * intros m u Hu. destruct (Hframe m u Hu) as [u' [H1 [H2 H3]]].
        exists u'. split; [exact H1|]. split; [|exact H3].
        intros Hne. apply H2. intros ->. apply Hne. exact Hcast.
      * intros json cookies n' Hresp. discriminate.
  - unfold ret in Hrun. injection Hrun as <- <-.
    repeat split; try (intros; discriminate).
    intros m u Hu. exists u. auto.
  - injection Hrun as <- <-.
    repeat split; try (intros; discriminate).
    intros m u Hu. exists u. auto.
Qed.

Lemma updateUser_frame_witness :
  let req :=
    request_of alice [("name", lit "Robert"); ("password", lit "hacked")]
      [("userId", bob_id)] None in
  exists u',
    find (has_id 2) (users (snd (updateUser test_env req world0))) = Some u'
    /\ obj_get "password" u' = lit "builder"
    /\ obj_get "employeeId" u' = lit "E101".
Proof.
  intros req.
  destruct (proj1 (proj2 (proj2 (updateUser_frame test_env req world0)))
              2%N bob eq_refl) as [u' [Hfind [_ Hkeep]]].
  exists u'. split; [exact Hfind|]. split.
  - rewrite (Hkeep "password"); [reflexivity|].
    left. simpl. intuition discriminate.
  - rewrite (Hkeep "employeeId"); [reflexivity|].
    left. simpl. intuition discriminate.
Defined.

Lemma updateMe_changes :
  forall (E : Env) (req : request) (w : world),
    let body := req_body req in
    (truthy (obj_get "password" body) = true
     \/ truthy (obj_get "role" body) = true
     \/ truthy (obj_get "permissions" body) = true
     \/ truthy (obj_get "isActive" body) = true ->
     exists message, updateMe E req w = (Next (AppError message 400), w))
    /\ committees (snd (updateMe E req w)) = committees w
    /\ files (snd (updateMe E req w)) = files w
    /\ (forall m u, find (has_id m) (users w) = Some u ->
          exists u', find (has_id m) (users (snd (updateMe E req w))) = Some u'
            /\ (castId E (obj_get "_id" (req_user req)) <> Ok (Some m) ->
                u' = u)
            /\ (forall k, ~ In k self_updatable \/ obj_get k body = JUndefined ->
                          obj_get k u' = obj_get k u)
            /\ obj_get "role" u' = obj_get "role" u
            /\ obj_get "permissions" u' = obj_get "permissions" u
            /\ obj_get "isActive" u' = obj_get "isActive" u
            /\ obj_get "password" u' = obj_get "password" u).
Proof.
  intros E req w body.
  assert (Hkeys : forall (u u' : obj),
            (forall k, ~ In k self_updatable \/ obj_get k body = JUndefined ->
                       obj_get k u' = obj_get k u) ->
            obj_get "role" u' = obj_get "role" u
            /\ obj_get "permissions" u' = obj_get "permissions" u
            /\ obj_get "isActive" u' = obj_get "isActive" u
            /\ obj_get "password" u' = obj_get "password" u).
  { intros u u' H. repeat split; apply H; left; simpl; intros Hin;
      repeat (destruct Hin as [Hin|Hin]; [discriminate|]); exact Hin. }
  split.
  - intros Hguard. unfold updateMe. fold body.
    assert (Hor : truthy (obj_get "password" body)
                  || truthy (obj_get "role" body)
                  || truthy (obj_get "permissions" body)
                  || truthy (obj_get "isActive" body) = true).
    { destruct Hguard as [H|[H|[H|H]]]; rewrite H;
        rewrite ?orb_true_r; reflexivity. }
    rewrite Hor. eexists. reflexivity.
  - destruct (updateMe E req w) as [o w'] eqn:Hrun. simpl.
    unfold updateMe in Hrun. fold body in Hrun.
    destruct (truthy (obj_get "password" body)
              || truthy (obj_get "role" body)
              || truthy (obj_get "permissions" body)
              || truthy (obj_get "isActive" body)).
    { injection Hrun as <- <-. repeat split; auto.
      intros m u Hu. exists u. repeat split; auto. }
    unfold try_catch in Hrun. unfold bind at 1 in Hrun.
    rewrite User_findById_run in Hrun.
    destruct (find_by_id E (obj_get "_id" (req_user req)) (users w))
      as [[user|]|e] eqn:Hfind.
    + apply find_by_id_some in Hfind as [n [Hcast Hfind]].
      set (w1 := emit w _) in Hrun.
      destruct (assign_and_save E body self_updatable user n w1)
        as [w2 [Hsave [Hc [Hf [Hframe _]]]]].
      { simpl. intros H.
        repeat (destruct H as [H|H]; [discriminate|]). exact H. }
      { apply self_updatable_nodup. }
      { exact Hfind. }
      cbv zeta in Hsave, Hrun. unfold bind in Hrun. rewrite Hsave in Hrun.
      assert (Hw : w' = w2)
        by (destruct (User_validate E (users w1) _); injection Hrun; auto).
      subst w2. split; [exact Hc|]. split; [exact Hf|].
      intros m u Hu. destruct (Hframe m u Hu) as [u' [H1 [H2 H3]]].
      exists u'. split; [exact H1|]. split.
      * intros Hne. apply H2. intros ->. apply Hne. exact Hcast.
      * split; [exact H3 | apply Hkeys; exact H3].
    + unfold ret in Hrun. injection Hrun as <- <-. repeat split; auto.
      intros m u Hu. exists u. repeat split; auto.
    + injection Hrun as <- <-. repeat split; auto.
      intros m u Hu. exists u. repeat split; auto.
Qed.

(** X18.  updateMe refuses with 400, before it asks the store, any body
    with a truthy password, role, permissions or isActive.  Whatever the
    body, afterwards every stored user is still stored, no user but the
    requester has changed, and no field has changed that is not one of
    name, email, department, phoneNumber, designation and otpEnabled
    defined in the body: role, permissions, isActive and password never
    do. *)
Theorem updateMe_frame :
  forall (E : Env) (req : request) (w : world),
    let body := req_body req in
    (truthy (obj_get "password" body) = true
     \/ truthy (obj_get "role" body) = true
     \/ truthy (obj_get "permissions" body) = true
     \/ truthy (obj_get "isActive" body) = true ->
     exists message, updateMe E req w = (Next (AppError message 400), w))
    /\ committees (snd (updateMe E req w)) = committees w
    /\ files (snd (updateMe E req w)) = files w
    /\ (forall m u, find (has_id m) (users w) = Some u ->
          exists u', find (has_id m) (users (snd (updateMe E req w))) = Some u'
            /\ (castId E (obj_get "_id" (req_user req)) <> Ok (Some m) ->
                u' = u)
            /\ (forall k, ~ In k self_updatable \/ obj_get k body = JUndefined ->
                          obj_get k u' = obj_get k u)
            /\ obj_get "role" u' = obj_get "role" u
            /\ obj_get "permissions" u' = obj_get "permissions" u
            /\ obj_get "isActive" u' = obj_get "isActive" u
            /\ obj_get "password" u' = obj_get "password" u).
Proof. exact updateMe_changes. Qed.

Lemma updateMe_frame_witness :
  exists message,
    updateMe test_env (request_of bob [("role", lit "admin")] [] None) world0
      = (Next (AppError message 400), world0).
Proof.
  apply (proj1 (updateMe_frame test_env
                  (request_of bob [("role", lit "admin")] [] None) world0)).
  right. left. reflexivity.
Defined.

(** ** restrictTo *)

(** X19.  restrictTo decides by the role of the authenticated user alone,
    and updateMe leaves every stored role alone: whatever a user sends to
    updateMe, restrictTo answers that user afterwards as it did before. *)
Theorem restrictTo_unchanged_by_updateMe :
  forall (E : Env) (req : request) (w : world) (roles : list jsval)
         (m : N) (u : obj),
    find (has_id m) (users w) = Some u ->
    exists u',
      find (has_id m) (users (snd (updateMe E req w))) = Some u'
      /\ forall before after,
           req_user before = u -> req_user after = u' ->
           restrictTo roles after =
             match restrictTo roles before with
             | NextHandler _ => NextHandler u'
             | refused => refused
             end.
Proof.
  intros E req w roles m u Hu.
  destruct (proj2 (proj2 (proj2 (updateMe_changes E req w))) m u Hu)
    as [u' [Hstored [_ [_ [Hrole _]]]]].
  exists u'. split; [exact Hstored|].
  intros before after Hb Ha. unfold restrictTo. rewrite Hb, Ha, Hrole.
  destruct (negb (existsb (same_value_zero (obj_get "role" u)) roles));
    reflexivity.
Qed.

Lemma restrictTo_unchanged_by_updateMe_witness :
  let req := request_of bob [("name", lit "Robert")] [] None in
  exists u',
    find (has_id 2) (users (snd (updateMe test_env req world0))) = Some u'
    /\ restrictTo [lit "admin"] (request_of u' [] [] None)
       = Next (AppError
                 (str "You do not have permission to perform this action") 403).
Proof.
  intros req.
  destruct (restrictTo_unchanged_by_updateMe test_env req world0 [lit "admin"]
              2%N bob eq_refl) as [u' [Hfind Hsame]].
  exists u'. split; [exact Hfind|].
  rewrite (Hsame (request_of bob [] [] None) (request_of u' [] [] None)
             eq_refl eq_refl).
  reflexivity.
Defined.

(** ** deleteUser: every way out *)

Lemma deleteUser_ways_out :
  forall (E : Env) (req : request) (w : world),
    committees (snd (deleteUser E req w)) = committees w
    /\ files (snd (deleteUser E req w)) = files w
    /\ match fst (deleteUser E req w) with
       | Respond status _ _ =>
           status = 204
           /\ exists n target,
                castId E (obj_get "userId" (req_params req)) = Ok (Some n)
                /\ find (has_id n) (users w) = Some target
                /\ users (snd (deleteUser E req w)) = store_remove n (users w)
       | Next (AppError _ status) =>
           (status = 400 \/ status = 403 \/ status = 404)
           /\ users (snd (deleteUser E req w)) = users w
       | _ => False
       end.
Proof.
  intros E req w.
  destruct (deleteUser E req w) as [o w'] eqn:Hrun. simpl.
  unfold deleteUser, try_catch in Hrun. unfold bind at 1 in Hrun.
  rewrite User_findById_run in Hrun.
  destruct (find_by_id E (obj_get "userId" (req_params req)) (users w))
    as [[user|]|e] eqn:Hfind.
  - apply find_by_id_some in Hfind as [n [Hcast Hfind]].
    unfold bind at 1 in Hrun. unfold lift in Hrun.
    destruct (same_id_string (obj_get "_id" user) (obj_get "_id" (req_user req)))
      as [[|]|e].
    + unfold ret in Hrun. injection Hrun as <- <-. simpl. auto 6.
    + unfold bind at 1 in Hrun. unfold User_findByIdAndDelete in Hrun.
      unfold bind at 1 in Hrun. unfold record at 1 in Hrun.
      unfold bind at 1 in Hrun. unfold get_users at 1 in Hrun.
      rewrite Hcast in Hrun. simpl in Hrun. injection Hrun as <- <-. simpl.
      repeat split. exists n, user. auto.
    + injection Hrun as <- <-. simpl. auto 6.
  - unfold ret in Hrun. injection Hrun as <- <-. simpl. auto 6.
  - injection Hrun as <- <-. simpl. auto 6.
Qed.

(** X20.  deleteUser answers 204 or passes an AppError with status 400,
    403 or 404 to next.  It removes a user only when it answers 204, and
    then exactly the first user stored under the id of the request; the
    committees and the files are never touched. *)
Theorem deleteUser_outcomes :
  forall (E : Env) (req : request) (w : world),
    committees (snd (deleteUser E req w)) = committees w
    /\ files (snd (deleteUser E req w)) = files w
    /\ match fst (deleteUser E req w) with
       | Respond status _ _ =>
           status = 204
           /\ exists n target,
                castId E (obj_get "userId" (req_params req)) = Ok (Some n)
                /\ find (has_id n) (users w) = Some target
                /\ users (snd (deleteUser E req w)) = store_remove n (users w)
       | Next (AppError _ status) =>
           (status = 400 \/ status = 403 \/ status = 404)
           /\ users (snd (deleteUser E req w)) = users w
       | _ => False
       end.
Proof. exact deleteUser_ways_out. Qed.

(** ** getAllUsers and getUserByEmployeeId *)

Lemma without_password_get (user : obj) (k : string) :
  obj_get k (without_password user)
  = if String.eqb k "password" then JUndefined else obj_get k user.
Proof.
  unfold without_password. induction user as [|[k0 v0] user IH]; simpl.
  - destruct (String.eqb k "password"); reflexivity.
  - destruct (String.eqb k0 "password") eqn:E0; simpl.
    + apply String.eqb_eq in E0. subst k0. rewrite IH.
      destruct (String.eqb k "password"); reflexivity.
    + destruct (String.eqb k k0) eqn:Ek.
      * apply String.eqb_eq in Ek. subst k0. rewrite E0. reflexivity.
      * exact IH.
Qed.

(** X21.  getAllUsers answers 200 with every stored user, in order, and
    their number; getUserByEmployeeId answers 200 with the first user of
    that employee ID, or 404.  A user in either answer has every field of
    the stored user but the password.  Neither handler writes anything. *)
Theorem user_reads_hide_passwords :
  forall (req : request) (w : world),
    (exists listed,
        getAllUsers req w =
          (Respond 200
             (JObj [("status", JStr (str "success"));
                    ("results", JNum (Z.of_nat (List.length (users w))));
                    ("data", JObj [("users", JArr (map JObj listed))])])
             [], w)
        /\ Forall2 (fun u shown =>
                      forall k, obj_get k shown
                                = if String.eqb k "password" then JUndefined
                                  else obj_get k u)
             (users w) listed)
    /\ let employeeId := obj_get "employeeId" (req_params req) in
       match find_one "employeeId" employeeId (users w) with
       | Some u =>
           exists shown,
             getUserByEmployeeId req w =
               (Respond 200 (success "user" (JObj shown)) [],
                emit w [call_User_findOne "employeeId" employeeId])
             /\ forall k, obj_get k shown
                          = if String.eqb k "password" then JUndefined
                            else obj_get k u
       | None =>
           getUserByEmployeeId req w =
             (Next (AppError (str "No user found with that employee ID") 404),
              emit w [call_User_findOne "employeeId" employeeId])
       end.
Proof.
  intros req w. split.
  - exists (map without_password (users w)). split.
    + unfold getAllUsers, try_catch, bind, get_users, ret.
      rewrite length_map. reflexivity.
    + induction (users w) as [|u us IH]; simpl; constructor.
      * intros k. apply without_password_get.
      * exact IH.
  - cbv zeta. unfold getUserByEmployeeId, catchAsync, try_catch.
    unfold bind. rewrite User_findOne_run.
    destruct (find_one "employeeId" _ (users w)) as [u|].
    + exists (without_password u). split; [reflexivity|].
      intros k. apply without_password_get.
    + reflexivity.
Qed.

(** ** The password handlers *)

Lemma User_save_hooked_run (E : Env) (preSave : Z -> obj -> obj)
      (validate : bool) (now : Z) (doc : obj) (w : world) :
  User_save_hooked E preSave validate now doc w =
    match obj_get "_id" doc with
    | JId n =>
        if negb validate || User_validate E (users w) doc
        then (Ok (preSave now doc),
              {| users := store_put n (preSave now doc) (users w);
                 committees := committees w; files := files w;
                 trace := trace w ++ [call_User_save] |})
        else (Throw ValidationError, emit w [call_User_save])
    | _ => (Throw ValidationError, emit w [call_User_save])
    end.
Proof.
  unfold User_save_hooked, bind, record, get_users. simpl.
  destruct (obj_get "_id" doc); try reflexivity.
  destruct (negb validate || User_validate E (users w) doc); reflexivity.
Qed.

Lemma updatePassword_run (E : Env) (preSave : Z -> obj -> obj)
      (req : request) (now : Z) (w : world) :
  let id := obj_get "_id" (req_user req) in
  let asked := emit w [call_User_findById id] in
  updatePassword E preSave req now w =
    match find_by_id E id (users w) with
    | Throw e => (Next (Thrown e), asked)
    | Ok None => (Next (Thrown TypeError), asked)
    | Ok (Some user) =>
        if correctPassword E (obj_get "passwordCurrent" (req_body req))
             (obj_get "password" user)
        then
          let user' :=
            obj_set "password" (obj_get "password" (req_body req)) user in
          match obj_get "_id" user' with
          | JId n =>
              if User_validate E (users w) user'
              then (createSendToken E (preSave now user') 200 now,
                    {| users := store_put n (preSave now user') (users w);
                       committees := committees w; files := files w;
                       trace := trace asked ++ [call_User_save] |})
              else (Next (Thrown ValidationError), emit asked [call_User_save])
          | _ => (Next (Thrown ValidationError), emit asked [call_User_save])
          end
        else (Next (AppError (str "Your current password is wrong.") 401),
              asked)
    end.
Proof.
  intros id asked. unfold updatePassword, catchAsync, try_catch. fold id.
  unfold bind at 1. rewrite User_findById_run. fold asked.
  destruct (find_by_id E id (users w)) as [[user|]|e]; try reflexivity.
  destruct (correctPassword E _ _); [|reflexivity].
  cbn [negb]. cbv zeta. unfold bind. rewrite User_save_hooked_run.
  destruct (obj_get "_id" (obj_set "password" _ user)); try reflexivity.
  simpl orb. cbn [users asked emit].
  destruct (User_validate E (users w) _); reflexivity.
Qed.

(** X22.  updatePassword leaves the committees and the files alone, and
    it changes the User collection or hands out a token only for a stored
    requester whose digest accepts the current password of the body.  A
    wrong current password is answered with 401; a requester who is no
    longer stored makes the handler throw a TypeError. *)
Theorem updatePassword_guarded :
  forall (E : Env) (preSave : Z -> obj -> obj) (req : request) (now : Z)
         (w : world),
    let id := obj_get "_id" (req_user req) in
    let r := updatePassword E preSave req now w in
    committees (snd r) = committees w
    /\ files (snd r) = files w
    /\ (users (snd r) <> users w \/ issued_token (fst r) <> None ->
        exists user,
          find_by_id E id (users w) = Ok (Some user)
          /\ correctPassword E (obj_get "passwordCurrent" (req_body req))
               (obj_get "password" user) = true)
    /\ (forall user,
          find_by_id E id (users w) = Ok (Some user) ->
          correctPassword E (obj_get "passwordCurrent" (req_body req))
            (obj_get "password" user) = false ->
          r = (Next (AppError (str "Your current password is wrong.") 401),
               emit w [call_User_findById id]))
    /\ (find_by_id E id (users w) = Ok None ->
        r = (Next (Thrown TypeError), emit w [call_User_findById id])).
Proof.
  intros E preSave req now w id r. unfold r.
  rewrite updatePassword_run. cbv zeta. fold id.
  destruct (find_by_id E id (users w)) as [[user|]|e] eqn:Hfind;
    [destruct (correctPassword E _ _) eqn:Hc;
     [destruct (obj_get "_id" (obj_set "password" _ user));
      try destruct (User_validate E (users w) _)|]| |];
    repeat split; simpl; try discriminate;
    try (intros [H|H]; exfalso; apply H; reflexivity);
    try (intros user0 H; injection H as <-; congruence).
  intros _. exists user. auto.
Qed.

Lemma updatePassword_guarded_witness :
  updatePassword test_env test_preSave
    (request_of alice
       [("passwordCurrent", lit "guess"); ("password", lit "looking-glass")]
       [] None)
    5000000 world0
  = (Next (AppError (str "Your current password is wrong.") 401),
     emit world0 [call_User_findById (JId 1)]).
Proof.
  apply (proj1 (proj2 (proj2 (proj2
           (updatePassword_guarded test_env test_preSave
              (request_of alice
                 [("passwordCurrent", lit "guess");
                  ("password", lit "looking-glass")] [] None)
              5000000 world0)))) alice);
    reflexivity.
Defined.

Lemma reset_pending_iff (h : jsstring) (now : Z) (d : obj) :
  reset_pending h now d = true <->
  obj_get "passwordResetToken" d = JStr h
  /\ exists expires, obj_get "passwordResetExpires" d = JNum expires
                     /\ now < expires.
Proof.
  unfold reset_pending, has_str. split.
  - intros H. apply andb_true_iff in H as [Ht He].
    destruct (obj_get "passwordResetToken" d); try discriminate.
    apply jsstr_eqb_eq in Ht. subst. split; [reflexivity|].
    destruct (obj_get "passwordResetExpires" d); try discriminate.
    eexists. split; [reflexivity|]. apply Z.ltb_lt. exact He.
  - intros [Ht [expires [He Hlt]]]. rewrite Ht, He, jsstr_eqb_refl.
    apply Z.ltb_lt in Hlt. rewrite Hlt. reflexivity.
Qed.

Lemma resetPassword_run (E : Env) (preSave : Z -> obj -> obj)
      (sha256_hex : jsstring -> jsstring) (req : request) (now : Z) (w : world)
      (token : jsstring) :
  obj_get "token" (req_params req) = JStr token ->
  let h := sha256_hex token in
  let asked := emit w [call_User_findOne "passwordResetToken" (JStr h)] in
  resetPassword E preSave sha256_hex req now w =
    match find (reset_pending h now) (users w) with
    | None =>
        (Next (AppError (str "Token is invalid or has expired") 400), asked)
    | Some user =>
        let user' :=
          reset_fields_cleared_doc (obj_get "password" (req_body req)) user in
        match obj_get "_id" user with
        | JId n =>
            if User_validate E (users w) user'
            then (createSendToken E (preSave now user') 200 now,
                  {| users := store_put n (preSave now user') (users w);
                     committees := committees w; files := files w;
                     trace := trace asked ++ [call_User_save] |})
            else (Next (Thrown ValidationError), emit asked [call_User_save])
        | _ => (Next (Thrown ValidationError), emit asked [call_User_save])
        end
    end.
Proof.
  intros Htok h asked. unfold resetPassword, catchAsync, try_catch.
  rewrite Htok. fold h. unfold bind at 1. unfold record at 1. fold asked.
  unfold bind at 1. unfold get_users at 1. cbn [users asked emit].
  destruct (find (reset_pending h now) (users w)) as [user|]; [|reflexivity].
  cbv zeta. unfold bind. rewrite User_save_hooked_run.
  fold (reset_fields_cleared_doc (obj_get "password" (req_body req)) user).
  assert (Hid : obj_get "_id"
                  (reset_fields_cleared_doc (obj_get "password" (req_body req))
                     user)
                = obj_get "_id" user).
  { unfold reset_fields_cleared_doc.
    rewrite !obj_get_set_other by discriminate. reflexivity. }
  rewrite Hid. destruct (obj_get "_id" user); try reflexivity.
  simpl orb. cbn [users asked emit].
  destruct (User_validate E (users w) _); reflexivity.
Qed.

(** X23.  resetPassword leaves the committees and the files alone.  It
    changes the User collection or hands out a token only when the token of
    the request is a string whose digest is the reset token of a stored
    user whose reset expiry is later than now.  When every stored user with
    that digest has an expiry at or before now (or there is none), the
    answer is 400; a token that is not a string makes the handler throw
    before the store is asked. *)
Theorem resetPassword_guarded :
  forall (E : Env) (preSave : Z -> obj -> obj)
         (sha256_hex : jsstring -> jsstring) (req : request) (now : Z)
         (w : world),
    let r := resetPassword E preSave sha256_hex req now w in
    committees (snd r) = committees w
    /\ files (snd r) = files w
    /\ (users (snd r) <> users w \/ issued_token (fst r) <> None ->
        exists token user expires,
          obj_get "token" (req_params req) = JStr token
          /\ In user (users w)
          /\ obj_get "passwordResetToken" user = JStr (sha256_hex token)
          /\ obj_get "passwordResetExpires" user = JNum expires
          /\ now < expires)
    /\ (forall token,
          obj_get "token" (req_params req) = JStr token ->
          (forall user expires,
              In user (users w) ->
              obj_get "passwordResetToken" user = JStr (sha256_hex token) ->
              obj_get "passwordResetExpires" user = JNum expires ->
              expires <= now) ->
          r = (Next (AppError (str "Token is invalid or has expired") 400),
               emit w [call_User_findOne "passwordResetToken"
                         (JStr (sha256_hex token))]))
    /\ ((forall token, obj_get "token" (req_params req) <> JStr token) ->
        r = (Next (Thrown TypeError), w)).
Proof.
  intros E preSave sha req now w r. unfold r.
  destruct (obj_get "token" (req_params req)) as [| | b | z | token | o | l | o]
    eqn:Htok;
    try (unfold resetPassword, catchAsync, try_catch; rewrite Htok;
         repeat split; simpl; try discriminate;
         intros [H|H]; exfalso; apply H; reflexivity).
  rewrite (resetPassword_run E preSave sha req now w token Htok). cbv zeta.
  destruct (find (reset_pending (sha token) now) (users w)) as [user|] eqn:Hfind.
  - assert (Hin : In user (users w) /\ reset_pending (sha token) now user = true)
      by (apply find_some in Hfind; exact Hfind).
    destruct Hin as [Hin Hp].
    apply reset_pending_iff in Hp as [Ht [expires [He Hlt]]].
    assert (Hwit : exists token0 user0 expires0,
               JStr token = JStr token0 /\ In user0 (users w)
               /\ obj_get "passwordResetToken" user0 = JStr (sha token0)
               /\ obj_get "passwordResetExpires" user0 = JNum expires0
               /\ now < expires0)
      by (exists token, user, expires; auto).
    assert (Hno : forall token0,
               JStr token = JStr token0 ->
               (forall user0 expires0,
                   In user0 (users w) ->
                   obj_get "passwordResetToken" user0 = JStr (sha token0) ->
                   obj_get "passwordResetExpires" user0 = JNum expires0 ->
                   expires0 <= now) -> False).
    { intros token0 Heq Hall. injection Heq as <-.
      specialize (Hall user expires Hin Ht He). lia. }
    destruct (obj_get "_id" user);
      try destruct (User_validate E (users w) _);
      repeat split; simpl; try discriminate; auto;
      try (intros token0 Heq Hall; elim (Hno token0 Heq Hall));
      try (intros Hall; elim (Hall token); reflexivity).
  - repeat split; simpl; try discriminate.
    + intros [H|H]; exfalso; apply H; reflexivity.
    + intros token0 Heq _. injection Heq as <-. reflexivity.
    + intros Hall. elim (Hall token). reflexivity.
Qed.

Lemma resetPassword_guarded_witness :
  resetPassword test_env test_preSave test_sha256_hex reset_request 5060000
    world0
  = (Next (AppError (str "Token is invalid or has expired") 400),
     emit world0 [call_User_findOne "passwordResetToken" (JStr [7; 9]%N)]).
Proof.
  apply (proj1 (proj2 (proj2 (proj2
           (resetPassword_guarded test_env test_preSave test_sha256_hex
              reset_request 5060000 world0)))) [9; 7]%N).
  - reflexivity.
  - intros user expires [<-|[<-|[]]] H; discriminate H.
Defined.

(** X24.  A resetPassword that finds its user and passes validation gives
    the middleware a user with the password of the body and with both reset
    fields undefined, stores what the middleware returns under the user's
    id, and answers 200 with a token for it.  If the middleware leaves the
    reset token as it finds it, the stored user is pending for no token any
    more: the reset token is spent. *)
Theorem resetPassword_spends_token :
  forall (E : Env) (preSave : Z -> obj -> obj)
         (sha256_hex : jsstring -> jsstring) (req : request) (now : Z)
         (w : world) (token : jsstring) (user : obj) (n : N),
    obj_get "token" (req_params req) = JStr token ->
    find (reset_pending (sha256_hex token) now) (users w) = Some user ->
    obj_get "_id" user = JId n ->
    let user' :=
      reset_fields_cleared_doc (obj_get "password" (req_body req)) user in
    User_validate E (users w) user' = true ->
    let r := resetPassword E preSave sha256_hex req now w in
    fst r = createSendToken E (preSave now user') 200 now
    /\ users (snd r) = store_put n (preSave now user') (users w)
    /\ obj_get "password" user' = obj_get "password" (req_body req)
    /\ obj_get "passwordResetToken" user' = JUndefined
    /\ obj_get "passwordResetExpires" user' = JUndefined
    /\ (forall k, k <> "password" -> k <> "passwordResetToken" ->
                  k <> "passwordResetExpires" ->
                  obj_get k user' = obj_get k user)
    /\ (obj_get "passwordResetToken" (preSave now user')
          = obj_get "passwordResetToken" user' ->
        forall h later, reset_pending h later (preSave now user') = false).
Proof.
  intros E preSave sha req now w token user n Htok Hfind Hid user' Hv r.
  unfold r. rewrite (resetPassword_run E preSave sha req now w token Htok).
  cbv zeta. rewrite Hfind, Hid. fold user'. rewrite Hv. simpl.
  assert (Ht : obj_get "passwordResetToken" user' = JUndefined).
  { unfold user', reset_fields_cleared_doc.
    rewrite obj_get_set_other by discriminate.
    rewrite obj_get_set, String.eqb_refl. reflexivity. }
  repeat split.
  - unfold user', reset_fields_cleared_doc.
    rewrite !obj_get_set_other by discriminate.
    rewrite obj_get_set, String.eqb_refl. reflexivity.
  - exact Ht.
  - unfold user', reset_fields_cleared_doc.
    rewrite obj_get_set, String.eqb_refl. reflexivity.
  - intros k H1 H2 H3. unfold user', reset_fields_cleared_doc.
    rewrite !obj_get_set_other by assumption. reflexivity.
  - intros Hkeep h later. unfold reset_pending, has_str.
    rewrite Hkeep, Ht. reflexivity.
Qed.

Lemma resetPassword_spends_token_witness :
  let w :=
    snd (forgotPassword test_env test_preSave test_createPasswordResetToken
           forgot_request 9 5000000 world0) in
  let r := resetPassword test_env test_preSave test_sha256_hex reset_request
             5060000 w in
  status_of (fst r) = Some 200
  /\ exists saved,
       find (has_id 1) (users (snd r)) = Some saved
       /\ obj_get "password" saved = lit "looking-glass"
       /\ forall h later, reset_pending h later saved = false.
Proof.
  intros w r.
  destruct (resetPassword_spends_token test_env test_preSave test_sha256_hex
              reset_request 5060000 w [9; 7]%N
              (test_preSave 5000000
                 (snd (test_createPasswordResetToken 9 5000000 alice)))
              1%N eq_refl eq_refl eq_refl eq_refl)
    as [Hfst [Husers [_ [_ [_ [_ Hspent]]]]]].
  fold r in Hfst, Husers. split.
  - rewrite Hfst. reflexivity.
  - eexists. split; [rewrite Husers; reflexivity|]. split; [reflexivity|].
    apply Hspent. reflexivity.
Defined.

Lemma forgotPassword_run (E : Env) (preSave : Z -> obj -> obj)
      (createPasswordResetToken : N -> Z -> obj -> jsstring * obj)
      (req : request) (random : N) (now : Z) (w : world) :
  let email := obj_get "email" (req_body req) in
  let asked := emit w [call_User_findOne "email" email] in
  forgotPassword E preSave createPasswordResetToken req random now w =
    match find_one "email" email (users w) with
    | None =>
        (Next (AppError (str "There is no user with that email address.") 404),
         asked)
    | Some user =>
        let resetToken := fst (createPasswordResetToken random now user) in
        let user' := snd (createPasswordResetToken random now user) in
        match obj_get "_id" user' with
        | JId n =>
            (Respond 200
               (JObj [("status", JStr (str "success"));
                      ("message", JStr (str "Token sent to email!"));
                      ("token", JStr resetToken)]) [],
             {| users := store_put n (preSave now user') (users w);
                committees := committees w; files := files w;
                trace := trace asked ++ [call_User_save] |})
        | _ => (Next (Thrown ValidationError), emit asked [call_User_save])
        end
    end.
Proof.
  intros email asked. unfold forgotPassword, catchAsync, try_catch.
  fold email. unfold bind at 1. rewrite User_findOne_run. fold asked.
  destruct (find_one "email" email (users w)) as [user|]; [|reflexivity].
  cbv zeta. destruct (createPasswordResetToken random now user) as [raw user'].
  cbn [fst snd]. unfold bind. rewrite User_save_hooked_run.
  destruct (obj_get "_id" user'); reflexivity.
Qed.

(** X25.  forgotPassword answers 404 and changes nothing for an email that
    is a string no user has.  For the email of a user it answers 200 with
    the raw reset token in the body of the response, and stores, without
    validation, what the middleware makes of the user the schema method
    returned. *)
Theorem forgotPassword_returns_raw_token :
  forall (E : Env) (preSave : Z -> obj -> obj)
         (createPasswordResetToken : N -> Z -> obj -> jsstring * obj)
         (req : request) (random : N) (now : Z) (w : world),
    let email := obj_get "email" (req_body req) in
    let r := forgotPassword E preSave createPasswordResetToken req random now w in
    (is_string email = true ->
     find_one "email" email (users w) = None ->
     r = (Next (AppError (str "There is no user with that email address.") 404),
          emit w [call_User_findOne "email" email]))
    /\ (forall user n,
          find_one "email" email (users w) = Some user ->
          obj_get "_id" (snd (createPasswordResetToken random now user))
            = JId n ->
          issued_token (fst r)
            = Some (JStr (fst (createPasswordResetToken random now user)))
          /\ status_of (fst r) = Some 200
          /\ users (snd r)
             = store_put n
                 (preSave now (snd (createPasswordResetToken random now user)))
                 (users w)
          /\ committees (snd r) = committees w
          /\ files (snd r) = files w).
Proof.
  intros E preSave cprt req random now w email r. unfold r.
  rewrite forgotPassword_run. cbv zeta. fold email. split.
  - intros _ H. rewrite H. reflexivity.
  - intros user n Hf Hid. rewrite Hf, Hid. simpl. auto.
Qed.

Lemma forgotPassword_returns_raw_token_witness :
  let r := forgotPassword test_env test_preSave test_createPasswordResetToken
             forgot_request 9 5000000 world0 in
  let unknown := request_of [] [("email", lit "carol@example.org")] [] None in
  (issued_token (fst r) = Some (JStr [9; 7]%N)
   /\ status_of (fst r) = Some 200
   /\ users (snd r)
      = [test_preSave 5000000
           (snd (test_createPasswordResetToken 9 5000000 alice)); bob]
   /\ committees (snd r) = committees world0
   /\ files (snd r) = files world0)
  /\ forgotPassword test_env test_preSave test_createPasswordResetToken
       unknown 9 5000000 world0
     = (Next (AppError (str "There is no user with that email address.") 404),
        emit world0 [call_User_findOne "email" (lit "carol@example.org")]).
Proof.
  split.
  - apply (proj2 (forgotPassword_returns_raw_token test_env test_preSave
                    test_createPasswordResetToken forgot_request 9 5000000
                    world0) alice 1%N);
      reflexivity.
  - apply (proj1 (forgotPassword_returns_raw_token test_env test_preSave
                    test_createPasswordResetToken
                    (request_of [] [("email", lit "carol@example.org")] [] None)
                    9 5000000 world0));
      reflexivity.
Defined.

Lemma find_store_put_first (p : obj -> bool) (n : N) (doc : obj)
      (docs : list obj) :
  p doc = true -> (forall d, In d docs -> p d = false) ->
  find p (store_put n doc docs) = Some doc.
Proof.
  intros Hdoc. induction docs as [|d ds IH]; intros Hnone; simpl.
  - rewrite Hdoc. reflexivity.
  - destruct (has_id n d); simpl.
    + rewrite Hdoc. reflexivity.
    + rewrite (Hnone d) by (left; reflexivity).
      apply IH. intros d' Hin. apply Hnone. right. exact Hin.
Qed.

(** X26.  Whoever reads the answer of forgotPassword can take the account:
    when the schema method stores the digest of the raw token with an
    expiry still ahead, no other user is pending under that digest, and the
    store accepts the reset user, a resetPassword with the token of the
    forgotPassword response hands out a session token for that user and
    stores the user with the password of its body. *)
Theorem forgotPassword_then_resetPassword :
  forall (E : Env) (preSave : Z -> obj -> obj)
         (sha256_hex : jsstring -> jsstring)
         (createPasswordResetToken : N -> Z -> obj -> jsstring * obj)
         (forgot reset : request) (random : N) (now later : Z) (w : world)
         (user : obj) (n : N) (raw : jsstring),
    find_one "email" (obj_get "email" (req_body forgot)) (users w) = Some user ->
    obj_get "_id" (snd (createPasswordResetToken random now user)) = JId n ->
    let r1 := forgotPassword E preSave createPasswordResetToken forgot random
                now w in
    issued_token (fst r1) = Some (JStr raw) ->
    obj_get "token" (req_params reset) = JStr raw ->
    let pending := preSave now (snd (createPasswordResetToken random now user)) in
    reset_pending (sha256_hex raw) later pending = true ->
    (forall d, In d (users w) -> reset_pending (sha256_hex raw) later d = false) ->
    obj_get "_id" pending = JId n ->
    let user' :=
      reset_fields_cleared_doc (obj_get "password" (req_body reset)) pending in
    User_validate E (users (snd r1)) user' = true ->
    let r2 := resetPassword E preSave sha256_hex reset later (snd r1) in
    fst r2 = createSendToken E (preSave later user') 200 later
    /\ users (snd r2)
       = store_put n (preSave later user') (users (snd r1))
    /\ obj_get "password" user' = obj_get "password" (req_body reset).
Proof.
  intros E preSave sha cprt forgot reset random now later w user n raw
         Hfound Hid r1 Hraw Htok pending Hpending Hfresh Hpid user' Hv r2.
  assert (Hr1 : users (snd r1) = store_put n pending (users w)).
  { unfold r1. rewrite forgotPassword_run. cbv zeta. rewrite Hfound, Hid.
    reflexivity. }
  assert (Hfind : find (reset_pending (sha raw) later) (users (snd r1))
                  = Some pending).
  { rewrite Hr1. apply find_store_put_first; assumption. }
  unfold r2.
  rewrite (resetPassword_run E preSave sha reset later (snd r1) raw Htok).
  cbv zeta. rewrite Hfind, Hpid. fold user'. rewrite Hv. simpl.
  repeat split.
  unfold user', reset_fields_cleared_doc.
  rewrite !obj_get_set_other by discriminate.
  rewrite obj_get_set, String.eqb_refl. reflexivity.
Qed.

Lemma forgotPassword_then_resetPassword_witness :
  let r1 :=
    forgotPassword test_env test_preSave test_createPasswordResetToken
      forgot_request 9 5000000 world0 in
  let r2 := resetPassword test_env test_preSave test_sha256_hex reset_request
              5060000 (snd r1) in
  issued_token (fst r1) = Some (JStr [9; 7]%N)
  /\ issued_token (fst r2) = Some (JStr [74; 1; 5060; 0]%N)
  /\ exists saved,
       find (has_id 1) (users (snd r2)) = Some saved
       /\ obj_get "password" saved = lit "looking-glass".
Proof.
  intros r1 r2.
  destruct (forgotPassword_then_resetPassword test_env test_preSave
              test_sha256_hex test_createPasswordResetToken
              forgot_request reset_request 9 5000000 5060000 world0
              alice 1%N [9; 7]%N eq_refl eq_refl eq_refl eq_refl eq_refl)
    as [Hfst [Husers _]].
  - intros d [<-|[<-|[]]]; reflexivity.
  - reflexivity.
  - reflexivity.
  - fold r1 in Hfst, Husers. fold r2 in Hfst, Husers.
    split; [reflexivity|]. split.
    + rewrite Hfst. reflexivity.
    + eexists. split; [rewrite Husers; reflexivity | reflexivity].
Defined.

(** ** The login form *)

Lemma lang_empty_inv (s : jsstring) : lang Empty s -> False.
Proof. intros H. inversion H. Qed.

Lemma lang_eps_inv (s : jsstring) : lang Eps s -> s = [].
Proof. intros H. inversion H. reflexivity. Qed.

Lemma lang_class_inv (p : N -> bool) (s : jsstring) :
  lang (Class p) s -> exists c, s = [c] /\ p c = true.
Proof. intros H. inversion H. subst. eauto. Qed.

Lemma lang_cat_inv (r1 r2 : regex) (s : jsstring) :
  lang (Cat r1 r2) s ->
  exists s1 s2, s = s1 ++ s2 /\ lang r1 s1 /\ lang r2 s2.
Proof. intros H. inversion H. subst. eauto. Qed.

Lemma lang_alt_inv (r1 r2 : regex) (s : jsstring) :
  lang (Alt r1 r2) s -> lang r1 s \/ lang r2 s.
Proof. intros H. inversion H; subst; auto. Qed.

Lemma nullable_lang (r : regex) : nullable r = true <-> lang r [].
Proof.
  induction r; simpl.
  - split; [discriminate | intros H; elim (lang_empty_inv _ H)].
  - split; [intros _; constructor | reflexivity].
  - split; [discriminate|].
    intros H. apply lang_class_inv in H as [c [H _]]. discriminate.
  - rewrite andb_true_iff, IHr1, IHr2. split.
    + intros [H1 H2]. apply (lang_cat r1 r2 [] [] H1 H2).
    + intros H. apply lang_cat_inv in H as [s1 [s2 [Heq [H1 H2]]]].
      symmetry in Heq. apply app_eq_nil in Heq as [-> ->]. auto.
  - rewrite orb_true_iff, IHr1, IHr2. split.
    + intros [H|H]; [apply lang_alt_l | apply lang_alt_r]; exact H.
    + apply lang_alt_inv.
  - split; [intros _; constructor | reflexivity].
Qed.

Lemma star_cons_inv (r : regex) (c : N) (s : jsstring) :
  lang (Star r) (c :: s) ->
  exists s1 s2, s = s1 ++ s2 /\ lang r (c :: s1) /\ lang (Star r) s2.
Proof.
  intros H. remember (Star r) as r' eqn:Hr. remember (c :: s) as t eqn:Ht.
  revert s Ht. induction H; intros s0 Ht; try discriminate.
  injection Hr as ->. destruct s1 as [|c1 s1].
  - simpl in Ht. apply IHlang2; auto.
  - simpl in Ht. injection Ht as -> <-. exists s1, s2. auto.
Qed.

Lemma derive_lang (r : regex) :
  forall c s, lang (derive c r) s <-> lang r (c :: s).
Proof.
  induction r; intros c s; simpl.
  - split; intros H; elim (lang_empty_inv _ H).
  - split; intros H.
    + elim (lang_empty_inv _ H).
    + apply lang_eps_inv in H. discriminate.
  - destruct (p c) eqn:Hp; split; intros H.
    + apply lang_eps_inv in H. subst. constructor. exact Hp.
    + apply lang_class_inv in H as [c' [Heq _]]. injection Heq as _ ->.
      constructor.
    + elim (lang_empty_inv _ H).
    + apply lang_class_inv in H as [c' [Heq Hc']]. injection Heq as <- _.
      congruence.
  - assert (Hleft : forall t, lang (Cat (derive c r1) r2) t ->
                      lang (Cat r1 r2) (c :: t)).
    { intros t H. apply lang_cat_inv in H as [s1 [s2 [-> [Ha Hb]]]].
      apply IHr1 in Ha. apply (lang_cat r1 r2 (c :: s1) s2 Ha Hb). }
    destruct (nullable r1) eqn:Hn.
    + split; intros H.
      * apply lang_alt_inv in H as [H|H]; [apply Hleft; exact H|].
        apply IHr2 in H. apply nullable_lang in Hn.
        apply (lang_cat r1 r2 [] (c :: s) Hn H).
      * apply lang_cat_inv in H as [s1 [s2 [Heq [Ha Hb]]]].
        destruct s1 as [|c1 s1]; simpl in Heq.
        -- subst s2. apply lang_alt_r, IHr2. exact Hb.
        -- injection Heq as <- ->. apply lang_alt_l.
           apply lang_cat; [apply IHr1; exact Ha | exact Hb].
    + split; intros H.
      * apply Hleft. exact H.
      * apply lang_cat_inv in H as [s1 [s2 [Heq [Ha Hb]]]].
        destruct s1 as [|c1 s1]; simpl in Heq.
        -- apply nullable_lang in Ha. congruence.
        -- injection Heq as <- ->.
           apply lang_cat; [apply IHr1; exact Ha | exact Hb].
  - split; intros H.
    + apply lang_alt_inv in H as [H|H];
        [apply lang_alt_l, IHr1 | apply lang_alt_r, IHr2]; exact H.
    + apply lang_alt_inv in H as [H|H];
        [apply lang_alt_l, IHr1 | apply lang_alt_r, IHr2]; exact H.
  - split; intros H.
    + apply lang_cat_inv in H as [s1 [s2 [-> [Ha Hb]]]].
      apply IHr in Ha. apply (lang_star_cons r (c :: s1) s2 Ha Hb).
    + apply star_cons_inv in H as [s1 [s2 [-> [Ha Hb]]]].
      apply lang_cat; [apply IHr; exact Ha | exact Hb].
Qed.

(** The matcher decides the language of the pattern. *)
Lemma matches_lang (s : jsstring) : forall r, matches r s = true <-> lang r s.
Proof.
  induction s as [|c s IH]; intros r; simpl.
  - apply nullable_lang.
  - rewrite IH. apply derive_lang.
Qed.

Lemma lang_any (s : jsstring) : lang (Star (Class (fun _ => true))) s.
Proof.
  induction s as [|c s IH].
  - constructor.
  - apply (lang_star_cons _ [c] s); [constructor; reflexivity | exact IH].
Qed.

Lemma lang_star_class (p : N -> bool) (s : jsstring) :
  lang (Star (Class p)) s <-> forallb p s = true.
Proof.
  split.
  - intros H. remember (Star (Class p)) as r eqn:Hr.
    induction H; try discriminate.
    + reflexivity.
    + injection Hr as ->.
      apply lang_class_inv in H as [c [-> Hc]]. simpl.
      rewrite Hc. simpl. apply IHlang2. reflexivity.
  - induction s as [|c s IH]; simpl.
    + intros _. constructor.
    + rewrite andb_true_iff. intros [Hc Hs].
      apply (lang_star_cons _ [c] s); [constructor; exact Hc | auto].
Qed.

Lemma lang_plus_class (p : N -> bool) (s : jsstring) :
  lang (Plus (Class p)) s <-> s <> [] /\ forallb p s = true.
Proof.
  unfold Plus. split.
  - intros H. apply lang_cat_inv in H as [s1 [s2 [-> [H1 H2]]]].
    apply lang_class_inv in H1 as [c [-> Hc]].
    apply lang_star_class in H2. simpl. rewrite Hc, H2.
    split; [discriminate | reflexivity].
  - intros [Hne Hall]. destruct s as [|c s]; [congruence|].
    simpl in Hall. apply andb_true_iff in Hall as [Hc Hs].
    apply (lang_cat _ _ [c] s); [constructor; exact Hc|].
    apply lang_star_class. exact Hs.
Qed.

Lemma lang_lit (c : N) (s : jsstring) : lang (Lit c) s <-> s = [c].
Proof.
  unfold Lit. split.
  - intros H. apply lang_class_inv in H as [c' [-> Hc]].
    apply N.eqb_eq in Hc. congruence.
  - intros ->. constructor. apply N.eqb_refl.
Qed.

Lemma email_pattern_lang (s : jsstring) :
  lang email_pattern s <->
  exists x y z,
    s = x ++ [64%N] ++ y ++ [46%N] ++ z /\ word x /\ word y /\ word z.
Proof.
  unfold email_pattern, word. split.
  - intros H.
    apply lang_cat_inv in H as [x [s1 [-> [Hx H]]]].
    apply lang_cat_inv in H as [a [s2 [-> [Ha H]]]].
    apply lang_cat_inv in H as [y [s3 [-> [Hy H]]]].
    apply lang_cat_inv in H as [d [z [-> [Hd Hz]]]].
    apply lang_lit in Ha, Hd. subst a d.
    apply lang_plus_class in Hx, Hy, Hz.
    exists x, y, z. auto.
  - intros [x [y [z [-> [Hx [Hy Hz]]]]]].
    apply lang_cat; [apply lang_plus_class; exact Hx|].
    apply lang_cat; [apply lang_lit; reflexivity|].
    apply lang_cat; [apply lang_plus_class; exact Hy|].
    apply lang_cat; [apply lang_lit; reflexivity|].
    apply lang_plus_class; exact Hz.
Qed.

(** The test of the form's pattern finds exactly the strings that hold
    word, at sign, word, dot, word somewhere. *)
Lemma regex_test_email_pattern (s : jsstring) :
  regex_test email_pattern s = true <-> email_like s.
Proof.
  unfold regex_test, email_like. rewrite matches_lang. split.
  - intros H.
    apply lang_cat_inv in H as [pre [s1 [-> [_ H]]]].
    apply lang_cat_inv in H as [m [post [-> [Hm _]]]].
    apply email_pattern_lang in Hm as [x [y [z [-> [Hx [Hy Hz]]]]]].
    exists pre, x, y, z, post.
    split; [now rewrite <- !app_assoc | auto].
  - intros [pre [x [y [z [post [-> [Hx [Hy Hz]]]]]]]].
    apply lang_cat; [apply lang_any|].
    replace (x ++ [64%N] ++ y ++ [46%N] ++ z ++ post)
      with ((x ++ [64%N] ++ y ++ [46%N] ++ z) ++ post)
      by now rewrite <- !app_assoc.
    apply lang_cat; [|apply lang_any].
    apply email_pattern_lang. exists x, y, z. auto.
Qed.

(** X27. validateForm passes exactly when the email holds, somewhere, a run
    of non-space characters, an at sign, another run, a dot and a third
    run, and the password has at least six code units; it then sets no
    error.  validateResetForm asks the same of its email alone. *)
Theorem validateForm_accepts (email password resetEmail : jsstring) :
  (snd (validateForm email password) = true <->
   email_like email /\ (6 <= List.length password)%nat)
  /\ (snd (validateForm email password) = true ->
      fst (validateForm email password) = [])
  /\ (snd (validateResetForm resetEmail) = true <-> email_like resetEmail).
Proof.
  assert (Hnil : ~ email_like []).
  { intros [pre [x [y [z [post [H [[Hx _] _]]]]]]].
    destruct pre; [destruct x; [congruence|] |]; discriminate. }
  assert (Hlen : forall l : obj, Nat.eqb (List.length l) 0 = true <-> l = []).
  { intros [|a l]; simpl; split; congruence. }
  unfold validateForm, validateResetForm. cbv zeta. cbn [fst snd].
  split; [|split].
  - rewrite Hlen. destruct email as [|e email'].
    + simpl. split; [discriminate | intros [H _]; elim (Hnil H)].
    + rewrite <- regex_test_email_pattern.
      destruct (regex_test email_pattern (e :: email')); simpl.
      * destruct password as [|p password'].
        -- simpl. split; [discriminate | intros [_ H]; lia].
        -- destruct (Z.of_nat (List.length (p :: password')) <? 6) eqn:Hp.
           ++ apply Z.ltb_lt in Hp. split; [discriminate | intros [_ H]; lia].
           ++ apply Z.ltb_ge in Hp. split; [split; [reflexivity | lia] | reflexivity].
      * split; [discriminate | intros [H _]; discriminate].
  - rewrite Hlen. auto.
  - rewrite Hlen. destruct resetEmail as [|e email'].
    + split; [discriminate | intros H; elim (Hnil H)].
    + rewrite <- regex_test_email_pattern.
      destruct (regex_test email_pattern (e :: email')); simpl;
        split; congruence.
Qed.

Lemma validateForm_accepts_witness :
  snd (validateForm (str "alice@example.org") (str "wonderland")) = true
  /\ fst (validateForm (str "alice@example.org") (str "wonderland")) = [].
Proof.
  assert (H : snd (validateForm (str "alice@example.org") (str "wonderland"))
              = true).
  { apply (proj1 (validateForm_accepts (str "alice@example.org")
                    (str "wonderland") [])).
    split.
    - exists [], (str "alice"), (str "example"), (str "org"), [].
      repeat split; try reflexivity; discriminate.
    - simpl. lia. }
  split; [exact H|].
  apply (proj1 (proj2 (validateForm_accepts (str "alice@example.org")
                         (str "wonderland") []))).
  exact H.
Defined.

(* ===================================================================== *)
(** ** register, then login *)
(* ===================================================================== *)

Lemma find_app_last {A} (p : A -> bool) (l : list A) (x : A) :
  find p l = None -> p x = true -> find p (l ++ [x]) = Some x.
Proof.
  intros Hnone Hx. induction l as [|a l IH]; simpl in *.
  - rewrite Hx. reflexivity.
  - destruct (p a); [discriminate | auto].
Qed.

Lemma register_run (E : Env) (req : request) (newId : N) (now : Z) (w : world) :
  let user := new_user E newId (register_fields (req_body req)) in
  register E req newId now w =
    if User_validate E (users w) user
    then (createSendToken E user 201 now,
          {| users := users w ++ [user]; committees := committees w;
             files := files w; trace := trace w ++ [call_User_create] |})
    else (Next (Thrown ValidationError), emit w [call_User_create]).
Proof.
  intros user.
  unfold register, catchAsync, try_catch. unfold bind at 1.
  unfold User_create. unfold bind at 1. unfold record at 1.
  unfold bind at 1. unfold get_users at 1. cbn [users emit].
  fold user.
  destruct (User_validate E (users w) user); reflexivity.
Qed.

(** X28.  A user who has just been registered can log in.  After a register
    that answered 201 with a non-empty string as email that no stored user
    had, and a truthy password, a login with that email and that password
    answers 200 with a token for the new user, whatever isActive the
    registration carried; this given that the digest the store keeps for a
    password accepts that password. *)
Theorem register_then_login :
  forall (E : Env) (reg log : request) (newId : N) (now later : Z) (w : world)
         (email : jsstring) (json : jsval) (cookies : list cookie),
    obj_get "email" (req_body reg) = JStr email -> email <> [] ->
    truthy (obj_get "password" (req_body reg)) = true ->
    obj_get "email" (req_body log) = JStr email ->
    obj_get "password" (req_body log) = obj_get "password" (req_body reg) ->
    find_one "email" (JStr email) (users w) = None ->
    fst (register E reg newId now w) = Respond 201 json cookies ->
    correctPassword E (obj_get "password" (req_body reg))
      (hashPassword E (obj_get "password" (req_body reg))) = true ->
    let w1 := snd (register E reg newId now w) in
    status_of (fst (login E log later w1)) = Some 200
    /\ issued_token (fst (login E log later w1))
       = Some (JStr (jwt_encode E {| jwt_id := JId newId;
                                     jwt_iat := later / 1000;
                                     jwt_exp := None |}))
    /\ users (snd (login E log later w1)) = users w1.
Proof.
  intros E reg log newId now later w email json cookies
         Hemail Hne Hpw Hlemail Hlpw Hfresh Hreg Hdigest w1.
  set (user := new_user E newId (register_fields (req_body reg))).
  assert (Hw1 : users w1 = users w ++ [user]).
  { unfold w1. rewrite register_run in *. fold user in Hreg. fold user.
    destruct (User_validate E (users w) user); [reflexivity | discriminate]. }
  assert (Huser_email : obj_get "email" user = JStr email).
  { unfold user, new_user, register_fields.
    cbn [obj_get String.eqb Ascii.eqb Bool.eqb].
    rewrite !obj_get_set_other by discriminate.
    cbn [obj_get String.eqb Ascii.eqb Bool.eqb]. exact Hemail. }
  assert (Huser_pw : obj_get "password" user
                     = hashPassword E (obj_get "password" (req_body reg))).
  { unfold user, new_user, register_fields.
    cbn [obj_get String.eqb Ascii.eqb Bool.eqb].
    rewrite obj_get_set, String.eqb_refl.
    cbn [obj_get String.eqb Ascii.eqb Bool.eqb]. reflexivity. }
  assert (Huser_active : truthy (obj_get "isActive" user) = true).
  { unfold user, new_user, register_fields.
    cbn [obj_get String.eqb Ascii.eqb Bool.eqb].
    rewrite !obj_get_set_other by discriminate.
    cbn [obj_get String.eqb Ascii.eqb Bool.eqb].
    unfold js_or. destruct (truthy (obj_get "isActive" (req_body reg))) eqn:Ha;
      [exact Ha | reflexivity]. }
  assert (Huser_id : obj_get "_id" user = JId newId) by reflexivity.
  destruct (login_success_run E log later w1 user) as [shown [Hrun _]].
  - rewrite Hlemail. destruct email; [congruence | reflexivity].
  - rewrite Hlpw. exact Hpw.
  - rewrite Hlemail, Hw1. unfold find_one in *.
    apply find_app_last; [exact Hfresh|].
    unfold has_str. rewrite Huser_email. apply jsstr_eqb_refl.
  - rewrite Hlpw, Huser_pw. exact Hdigest.
  - exact Huser_active.
  - rewrite Hrun, Huser_id. repeat split.
Qed.

Lemma register_then_login_witness :
  let w1 := snd (register test_env register_request 3 5000000 world0) in
  let log :=
    request_of []
      [("email", lit "carol@example.org"); ("password", lit "secret1")]
      [] None in
  status_of (fst (login test_env log 5060000 w1)) = Some 200
  /\ issued_token (fst (login test_env log 5060000 w1))
     = Some (JStr [74; 3; 5060; 0]%N)
  /\ users (snd (login test_env log 5060000 w1)) = users w1.
Proof.
  eapply (register_then_login test_env register_request
            (request_of []
               [("email", lit "carol@example.org"); ("password", lit "secret1")]
               [] None)
            3 5000000 5060000 world0 (str "carol@example.org"));
    try reflexivity.
  discriminate.
Defined.

(* ===================================================================== *)
(** ** deleteUser, then protect *)
(* ===================================================================== *)

Lemma find_store_remove_same (n : N) (docs : list obj) :
  unique_ids docs -> find (has_id n) (store_remove n docs) = None.
Proof.
  unfold unique_ids. induction docs as [|d ds IH]; simpl; intros Hu.
  - reflexivity.
  - inversion Hu as [|x l Hnotin Hnodup]. subst.
    destruct (has_id n d) eqn:Hd; simpl.
    + destruct (find (has_id n) ds) as [d'|] eqn:Hf; [|reflexivity].
      elim Hnotin. apply find_some in Hf as [Hin Hd'].
      unfold has_id in Hd, Hd'.
      destruct (obj_get "_id" d) eqn:Hi; try discriminate.
      destruct (obj_get "_id" d') eqn:Hi'; try discriminate.
      apply N.eqb_eq in Hd, Hd'. subst.
      rewrite <- Hi'. apply in_map. exact Hin.
    + rewrite Hd. apply IH. exact Hnodup.
Qed.

Lemma find_store_remove_other (n m : N) (docs : list obj) :
  m <> n -> find (has_id m) (store_remove n docs) = find (has_id m) docs.
Proof.
  intros Hne. induction docs as [|d ds IH]; simpl.
  - reflexivity.
  - destruct (has_id n d) eqn:Hd; simpl.
    + destruct (has_id m d) eqn:Hm; [|reflexivity].
      elim Hne. eapply has_id_inj; eassumption.
    + destruct (has_id m d); [reflexivity | exact IH].
Qed.

(** X29.  Deleting a user ends that user's sessions and no others.  After a
    deleteUser that answered 204 for the id [n], in a collection where no
    two users share an id, protect hands on no user with that id, whatever
    token the request carries; and a request that protect accepted before
    for another user is accepted as before. *)
Theorem deleteUser_ends_sessions :
  forall (E : Env) (req : request) (w : world) (n : N)
         (status : Z) (json : jsval) (cookies : list cookie),
    fst (deleteUser E req w) = Respond status json cookies ->
    castId E (obj_get "userId" (req_params req)) = Ok (Some n) ->
    unique_ids (users w) ->
    forall (next : request) (later : Z),
      (forall user,
          fst (protect E next later (snd (deleteUser E req w)))
            = NextHandler user ->
          has_id n user = false)
      /\ (forall user,
            fst (protect E next later w) = NextHandler user ->
            has_id n user = false ->
            fst (protect E next later (snd (deleteUser E req w)))
              = NextHandler user).
Proof.
  intros E req w n status json cookies Hdel Hcast Huniq next later.
  assert (Husers : users (snd (deleteUser E req w)) = store_remove n (users w)).
  { pose proof (deleteUser_ways_out E req w) as [_ [_ H]].
    rewrite Hdel in H. destruct H as [_ [n' [target [Hc' [_ Hu]]]]].
    rewrite Hcast in Hc'. injection Hc' as <-. exact Hu. }
  set (w1 := snd (deleteUser E req w)) in *.
  split.
  - intros user Hp.
    pose proof (protect_ways_out E next later w1) as [_ [_ [_ H]]].
    rewrite Hp in H. destruct H as [token [c [_ [_ [_ [Hfind _]]]]]].
    apply find_by_id_some in Hfind as [m [_ Hfind]].
    rewrite Husers in Hfind.
    destruct (has_id n user) eqn:Hn; [|reflexivity].
    pose proof (find_some _ _ Hfind) as [_ Hm].
    assert (n = m) by (eapply has_id_inj; eassumption). subst m.
    rewrite find_store_remove_same in Hfind by exact Huniq. discriminate.
  - intros user Hp Hn.
    pose proof (protect_ways_out E next later w) as [_ [_ [_ H]]].
    rewrite Hp in H. destruct H as [token [c [Htok [Hne [Hver [Hfind Hcpa]]]]]].
    rewrite (protect_with_token E next later w1 token c Htok Hne Hver).
    cbn [fst].
    pose proof Hfind as Hfind0.
    apply find_by_id_some in Hfind as [m [Hcm Hfind]].
    pose proof (find_some _ _ Hfind) as [_ Hm].
    assert (Hmn : m <> n) by (intros ->; congruence).
    unfold find_by_id. rewrite Hcm, Husers.
    rewrite (find_store_remove_other n m _ Hmn), Hfind, Hcpa. reflexivity.
Qed.

Lemma deleteUser_ends_sessions_witness :
  let del := request_of alice [] [("userId", bob_id)] None in
  let w1 := snd (deleteUser test_env del world0) in
  let with_token (t : jsstring) :=
    {| req_body := []; req_params := []; req_user := []; req_file := None;
       req_authorization := None; req_cookie_jwt := Some t |} in
  (forall user,
      fst (protect test_env (with_token [74; 2; 5000; 0]%N) 5060000 w1)
        = NextHandler user -> has_id 2 user = false)
  /\ fst (protect test_env (with_token [74; 1; 5000; 0]%N) 5060000 w1)
     = NextHandler alice.
Proof.
  intros del w1 with_token.
  assert (Huniq : unique_ids (users world0)).
  { unfold unique_ids. simpl.
    repeat constructor; simpl; intuition discriminate. }
  pose proof (deleteUser_ends_sessions test_env del world0 2%N 204
                (JObj [("status", JStr (str "SUCCESS"));
                       ("message", JStr (str "User deleted successfully"))]) []
                eq_refl eq_refl Huniq) as H.
  split.
  - apply (proj1 (H (with_token [74; 2; 5000; 0]%N) 5060000)).
  - apply (proj2 (H (with_token [74; 1; 5000; 0]%N) 5060000));
      reflexivity.
Defined.
